(** * Crawlio API client: a shallow embedding and its checked properties

    The repository holds three Python scripts:
    - [crawlio_client.py]: the class [CrawlioClient] (methods [register_user],
      [crawl_url], [get_crawl_history]) and a demo driver [main];
    - [crawl_wiki.py]: a driver that assigns a key to the client and crawls;
    - [simple_crawler.py]: a function [crawl_with_api_key] and a driver.

    The scripts are modelled as computations in a small state and exception
    monad.  The state of a method is the client object together with the log
    of observable events (printed lines, calls of the transport, assignments
    of the key, files written); the state of a script is the log alone.  The
    [requests] transport and the remote service are an oracle [Transport]
    that answers each request, knowing the requests sent before it.  What
    the scripts use of [requests] and [json] is modelled after the libraries;
    a written file is the text [json.dump] produces. *)

From Stdlib Require Import String Ascii List ZArith Bool Lia.
From Stdlib Require Import DecimalString DecimalZ DecimalPos.
Import ListNotations.
Set Warnings "-register-all".
#[local] Set Warnings "-automation".
Local Open Scope list_scope.
Local Open Scope string_scope.

(** ** Python values

    Every dynamic value the scripts handle is either one of their own string
    or integer constants or a document produced by [Response.json()].  [JNull]
    is Python's [None]; an object is the [dict] in insertion order.  The
    documents of the model are those whose numbers are integers and whose
    text is made of the characters U+0000 to U+00FF, one [ascii] each: every
    statement below is about such documents.  A document outside them (a
    float, a character beyond U+00FF, a lone surrogate decoded from an
    escape) is no value of [json]. *)

Inductive json : Type :=
| JNull
| JBool (b : bool)
| JNum (n : Z)
| JStr (s : string)
| JArr (xs : list json)
| JObj (kvs : list (string * json)).

(** Truth value of a Python object: [if v:] and [not v]. *)
Definition truthy (v : json) : bool :=
  match v with
  | JNull => false
  | JBool b => b
  | JNum n => negb (Z.eqb n 0)
  | JStr s => negb (String.eqb s EmptyString)
  | JArr xs => match xs with [] => false | _ => true end
  | JObj kvs => match kvs with [] => false | _ => true end
  end.

(** [d.get(k)] on the association list of a dict. *)
Fixpoint dict_lookup (k : string) (kvs : list (string * json)) : option json :=
  match kvs with
  | [] => None
  | (k', v) :: rest => if String.eqb k k' then Some v else dict_lookup k rest
  end.

(** Decimal rendering of an integer, as [str(n)] gives it. *)
Definition str_of_Z (n : Z) : string := NilZero.string_of_int (Z.to_int n).

(** ** HTTP messages *)

Inductive http_method : Type := GET | POST.

(** The arguments of one call of [session.post] or [session.get]: the URL,
    the [json=] argument and the [headers=] dict, whose values are whatever
    Python objects the caller put there.  What the session adds on the wire
    (default headers, the cookies it has kept) is not part of the call; it
    belongs to the transport below. *)
Record Request : Type := mkRequest {
  req_method : http_method;
  req_url : string;
  req_json : option json;
  req_headers : list (string * json)
}.

(** What [Response.json()] does with the body: it returns the document, or
    it raises.  [requests] wraps the decoder's [JSONDecodeError] in its own
    [requests.exceptions.JSONDecodeError] (from requests 2.27 on) and lets
    every other error of the decoder through: the [ValueError] for an integer
    of more digits than [int] converts (and, before 2.27, for any text that
    is not JSON), the [RecursionError] for a body nested too deep. *)
Inductive decoded : Type :=
| Decoded (doc : json)
| Undecodable (msg : string)
| RaisesValueError (msg : string)
| RaisesRecursionError (msg : string).

Record Response : Type := mkResponse {
  status_code : Z;
  reason : string;
  resp_url : string;
  resp_text : string;
  resp_json : decoded
}.

(** ** Exceptions and outcomes *)

Inductive exn : Type :=
| RequestException (msg : string) (response : option Response)
| AttributeError (msg : string)
| TypeError (msg : string)
| KeyError (key : string)
| IndexError (msg : string)
| ValueError (msg : string)
| RecursionError (msg : string)
| SystemExit (code : Z).

Inductive outcome (A : Type) : Type :=
| Ret (a : A)
| Raise (e : exn).
Arguments Ret {A} a.
Arguments Raise {A} e.

(** ** Observable events *)

(** A printed line is the f-string's pieces: literal text (and values whose
    [str] is spelled out below), or a list or dict handed to [str]. *)
Inductive frag : Type :=
| Lit (s : string)
| Val (v : json).

Definition fmt (v : json) : frag :=
  match v with
  | JNull => Lit "None"
  | JBool true => Lit "True"
  | JBool false => Lit "False"
  | JNum n => Lit (str_of_Z n)
  | JStr s => Lit s
  | _ => Val v
  end.

(** The object [requests.Session()] returns, as the client holds it: a
    reference.  The state behind the reference (cookies, pooled connections)
    changes with every call and lives in the transport, whose answers depend
    on the calls made before. *)
Inductive Session : Type := SessionHandle (id : nat).

Inductive event : Type :=
| Print (line : list frag)
| Send (via : option Session) (req : Request)
| SetApiKey (v : json)
| WriteFile (name : string) (text : string).

(** The log holds the newest event first. *)
Definition log := list event.

(** The answer of the transport to one call: a response of the server, or a
    [RequestException] raised by [requests] (connection refused, timeout,
    too many redirects, ...), which may carry a response. *)
Inductive Reply : Type :=
| Responded (r : Response)
| Failed (msg : string) (response : option Response).

(** The calls of the transport so far, newest first. *)
Fixpoint requests_of (l : log) : list Request :=
  match l with
  | [] => []
  | Send _ req :: rest => req :: requests_of rest
  | _ :: rest => requests_of rest
  end.

(** The number of assignments to the key so far. *)
Fixpoint key_writes (l : log) : nat :=
  match l with
  | [] => O
  | SetApiKey _ :: rest => S (key_writes rest)
  | _ :: rest => key_writes rest
  end.

(** The transport, with the state of its sessions, and the service behind
    it: the answer to a call may depend on the calls that came before. *)
Definition Transport := list Request -> Request -> Reply.

(** ** The monad *)

Definition M (S A : Type) : Type := S -> outcome A * S.

Definition ret {S A} (a : A) : M S A := fun s => (Ret a, s).

Definition bind {S A B} (m : M S A) (k : A -> M S B) : M S B :=
  fun s =>
    match m s with
    | (Ret a, s') => k a s'
    | (Raise e, s') => (Raise e, s')
    end.

Definition raise {S A} (e : exn) : M S A := fun s => (Raise e, s).

(** [try: body except ...: handler]: the handler says which exceptions it
    takes; the state reached when the exception was raised is kept. *)
Definition try_except {S A} (body : M S A) (handler : exn -> option (M S A))
  : M S A :=
  fun s =>
    match body s with
    | (Ret a, s') => (Ret a, s')
    | (Raise e, s') =>
        match handler e with
        | Some h => h s'
        | None => (Raise e, s')
        end
    end.

Declare Scope monad_scope.
Delimit Scope monad_scope with monad.
Notation "x <- m ;; k" := (bind m (fun x => k))
  (at level 61, m at next level, right associativity) : monad_scope.
Notation "m ;; k" := (bind m (fun _ => k))
  (at level 61, right associativity) : monad_scope.
Local Open Scope monad_scope.

(** [except requests.exceptions.RequestException as e:] *)
Definition except_RequestException {S A}
  (h : string -> option Response -> M S A) (e : exn) : option (M S A) :=
  match e with
  | RequestException msg response => Some (h msg response)
  | _ => None
  end.

(** A bare [except:] *)
Definition except_all {S A} (h : M S A) (e : exn) : option (M S A) := Some h.

(** ** The [requests] library, as far as the scripts use it *)

(** [Response.raise_for_status()] *)
Definition raise_for_status {S} (r : Response) : M S unit :=
  if ((400 <=? status_code r) && (status_code r <? 500))%Z then
    raise (RequestException
             (str_of_Z (status_code r) ++ " Client Error: " ++ reason r
                ++ " for url: " ++ resp_url r) (Some r))
  else if ((500 <=? status_code r) && (status_code r <? 600))%Z then
    raise (RequestException
             (str_of_Z (status_code r) ++ " Server Error: " ++ reason r
                ++ " for url: " ++ resp_url r) (Some r))
  else ret tt.

(** [Response.ok], which is also the truth value of a response. *)
Definition resp_ok (r : Response) : bool :=
  negb ((400 <=? status_code r) && (status_code r <? 600))%Z.

(** [Response.json()].  [requests.exceptions.JSONDecodeError] is a
    [RequestException] with no response attached; the other two errors are
    no [RequestException]. *)
Definition response_json {S} (r : Response) : M S json :=
  match resp_json r with
  | Decoded doc => ret doc
  | Undecodable msg => raise (RequestException msg None)
  | RaisesValueError msg => raise (ValueError msg)
  | RaisesRecursionError msg => raise (RecursionError msg)
  end.

(** ** Scripts: the state is the log *)

Definition emit (e : event) : M log unit := fun l => (Ret tt, e :: l).

Definition print (line : list frag) : M log unit := emit (Print line).

(** One call of the transport: it is logged, then answered. *)
Definition send (net : Transport) (via : option Session) (req : Request)
  : M log Response :=
  fun l =>
    match net (requests_of l) req with
    | Responded r => (Ret r, Send via req :: l)
    | Failed msg response =>
        (Raise (RequestException msg response), Send via req :: l)
    end.

(** ** Methods: the state is the object and the log *)

Record CrawlioClient : Type := mkClient {
  base_url : string;
  api_key : json;
  session : Session
}.

Record cstate : Type := mkState {
  self : CrawlioClient;
  out : log
}.

Definition lift {A} (m : M log A) : M cstate A :=
  fun s => let (r, l) := m (out s) in (r, mkState (self s) l).

Definition get_self : M cstate CrawlioClient := fun s => (Ret (self s), s).

(** [self.api_key = v] *)
Definition set_api_key (v : json) : M cstate unit :=
  fun s =>
    (Ret tt,
     mkState (mkClient (base_url (self s)) v (session (self s)))
             (SetApiKey v :: out s)).

(** [str.rstrip('/')] *)
Fixpoint rstrip_slash (s : string) : string :=
  match s with
  | EmptyString => EmptyString
  | String c rest =>
      match rstrip_slash rest with
      | EmptyString => if Ascii.eqb c "/" then EmptyString
                       else String c EmptyString
      | r => String c r
      end
  end.

(** [CrawlioClient.__init__]; [fresh] is the object [requests.Session()]
    returns. *)
Definition init (base : string) (fresh : Session) : CrawlioClient :=
  mkClient (rstrip_slash base) JNull fresh.

(** [data.get(key)] and [data.get(key, default)] *)
Definition py_get {S} (data : json) (key : string) (default : json) : M S json :=
  match data with
  | JObj kvs =>
      match dict_lookup key kvs with
      | Some v => ret v
      | None => ret default
      end
  | _ => raise (AttributeError "object has no attribute 'get'")
  end.

(** The body shared by the [except] clauses of [register_user] and
    [crawl_url], after their first line.  The test [e.response] is the
    truth value of the response, which is [Response.ok]. *)
Definition report_response (response : option Response) : M cstate unit :=
  match response with
  | Some r =>
      if resp_ok r then
        try_except
          (error_data <- response_json r ;;
           lift (print [Lit "Error details: "; fmt error_data]))
          (except_all (lift (print [Lit "Response: "; Lit (resp_text r)])))
      else ret tt
  | None => ret tt
  end.

(** The requests of the three methods. *)
Definition register_request (this : CrawlioClient)
  (email password first_name last_name : string) : Request :=
  mkRequest POST (base_url this ++ "/api/auth/register")
    (Some (JObj [("email", JStr email); ("password", JStr password);
                 ("first_name", JStr first_name);
                 ("last_name", JStr last_name)]))
    [].

Definition crawl_request (this : CrawlioClient) (url : string) (options : json)
  : Request :=
  mkRequest POST (base_url this ++ "/api/crawl/url")
    (Some (if truthy options
           then JObj [("url", JStr url); ("options", options)]
           else JObj [("url", JStr url)]))
    [("Content-Type", JStr "application/json"); ("x-api-key", api_key this)].

Definition history_request (this : CrawlioClient) : Request :=
  mkRequest GET (base_url this ++ "/api/crawl/history") None
    [("x-api-key", api_key this)].

Section Client.

Variable net : Transport.

Definition register_user (email password first_name last_name : string)
  : M cstate bool :=
  this <- get_self ;;
  try_except
    (lift (print [Lit "Registering user: "; Lit email]) ;;
     response <- lift (send net (Some (session this))
                         (register_request this email password first_name
                            last_name)) ;;
     raise_for_status response ;;
     data <- response_json response ;;
     key <- py_get data "api_key" JNull ;;
     set_api_key key ;;
     this' <- get_self ;;
     if truthy (api_key this') then
       lift (print [Lit "Registration successful!"]) ;;
       lift (print [Lit "API Key: "; fmt (api_key this')]) ;;
       ret true
     else
       lift (print [Lit "Registration failed - no API key received"]) ;;
       ret false)
    (except_RequestException (fun msg response =>
       lift (print [Lit "Registration failed: "; Lit msg]) ;;
       report_response response ;;
       ret false)).

Definition crawl_url (url : string) (options : json) : M cstate json :=
  this <- get_self ;;
  if negb (truthy (api_key this)) then
    lift (print [Lit "No API key available. Please register first."]) ;;
    ret JNull
  else
    try_except
      (lift (print [Lit "Crawling: "; Lit url]) ;;
       response <- lift (send net (Some (session this))
                           (crawl_request this url options)) ;;
       raise_for_status response ;;
       data <- response_json response ;;
       lift (print [Lit "Crawling completed successfully!"]) ;;
       ret data)
      (except_RequestException (fun msg response =>
         lift (print [Lit "Crawling failed: "; Lit msg]) ;;
         report_response response ;;
         ret JNull)).

Definition get_crawl_history : M cstate json :=
  this <- get_self ;;
  if negb (truthy (api_key this)) then
    lift (print [Lit "No API key available. Please register first."]) ;;
    ret JNull
  else
    try_except
      (lift (print [Lit "Fetching crawl history..."]) ;;
       response <- lift (send net (Some (session this))
                           (history_request this)) ;;
       raise_for_status response ;;
       data <- response_json response ;;
       lift (print [Lit "History retrieved successfully!"]) ;;
       ret data)
      (except_RequestException (fun msg _ =>
         lift (print [Lit "Failed to get history: "; Lit msg]) ;;
         ret JNull)).

End Client.

(** ** Dynamic operations of the driver scripts

    The drivers inspect the returned document with [in], subscripts, [len],
    slices and [.get]; on an object of the wrong type these raise.  Text is
    a [string] whose every [ascii] stands for one character. *)

Fixpoint is_prefix (p s : string) : bool :=
  match p, s with
  | EmptyString, _ => true
  | String a p', String b s' => Ascii.eqb a b && is_prefix p' s'
  | String _ _, EmptyString => false
  end.

Fixpoint is_substring (p s : string) : bool :=
  is_prefix p s ||
  match s with
  | EmptyString => false
  | String _ s' => is_substring p s'
  end.

Definition is_string (key : string) (v : json) : bool :=
  match v with
  | JStr s => String.eqb key s
  | _ => false
  end.

(** [key in v] for a string constant [key] *)
Definition py_contains {S} (key : string) (v : json) : M S bool :=
  match v with
  | JObj kvs => ret (match dict_lookup key kvs with Some _ => true | None => false end)
  | JArr xs => ret (existsb (is_string key) xs)
  | JStr s => ret (is_substring key s)
  | _ => raise (TypeError "argument is not iterable")
  end.

(** [v[key]] for a string constant [key] *)
Definition py_getitem {S} (v : json) (key : string) : M S json :=
  match v with
  | JObj kvs =>
      match dict_lookup key kvs with
      | Some x => ret x
      | None => raise (KeyError key)
      end
  | JArr _ => raise (TypeError "list indices must be integers or slices, not str")
  | JStr _ => raise (TypeError "string indices must be integers, not 'str'")
  | _ => raise (TypeError "object is not subscriptable")
  end.

(** [len(v)] *)
Definition py_len {S} (v : json) : M S nat :=
  match v with
  | JStr s => ret (String.length s)
  | JArr xs => ret (List.length xs)
  | JObj kvs => ret (List.length kvs)
  | _ => raise (TypeError "object has no len()")
  end.

(** [v[:n]]; a dict refuses the slice as a key. *)
Definition py_slice_to {S} (v : json) (n : nat) : M S json :=
  match v with
  | JStr s => ret (JStr (String.substring 0 n s))
  | JArr xs => ret (JArr (firstn n xs))
  | JObj _ => raise (TypeError "unhashable type: 'slice'")
  | _ => raise (TypeError "object is not subscriptable")
  end.

(** [v + s] for a string constant [s] *)
Definition py_add_str {S} (v : json) (s : string) : M S json :=
  match v with
  | JStr t => ret (JStr (t ++ s))
  | JArr _ => raise (TypeError "can only concatenate list (not str) to list")
  | _ => raise (TypeError "unsupported operand type(s) for +")
  end.

(** [v[0]]; the keys of a decoded dict are strings, so [0] is never one. *)
Definition py_first {S} (v : json) : M S json :=
  match v with
  | JStr (String c _) => ret (JStr (String c EmptyString))
  | JStr EmptyString => raise (IndexError "string index out of range")
  | JArr (x :: _) => ret x
  | JArr [] => raise (IndexError "list index out of range")
  | JObj _ => raise (KeyError "0")
  | _ => raise (TypeError "object is not subscriptable")
  end.

(** The items a [for] loop draws from [v]. *)
Definition py_iter {S} (v : json) : M S (list json) :=
  match v with
  | JStr s => ret (map (fun c => JStr (String c EmptyString)) (list_ascii_of_string s))
  | JArr xs => ret xs
  | JObj kvs => ret (map (fun kv => JStr (fst kv)) kvs)
  | _ => raise (TypeError "object is not iterable")
  end.

(** [s * n] *)
Fixpoint str_times (s : string) (n : nat) : string :=
  match n with
  | O => EmptyString
  | S n' => s ++ str_times s n'
  end.

Definition nl : string := String "010" EmptyString.

(** ** The [json] module, as far as the scripts use it

    [json.dump(doc, f, indent=2, ensure_ascii=False)] writes the text
    [json_dumps doc]; [json_loads] reads a text back the way [json.load]
    does, and gives [None] where [json.load] raises or meets a number that
    is not integral. *)

Definition quote : ascii := "034"%char.
Definition backslash : ascii := "092"%char.

Definition hex_digit (n : nat) : ascii :=
  nth n ["0"; "1"; "2"; "3"; "4"; "5"; "6"; "7"; "8"; "9";
         "a"; "b"; "c"; "d"; "e"; "f"]%char "0"%char.

(** The replacement of one character inside a string literal. *)
Definition escape_char (c : ascii) : string :=
  if Ascii.eqb c quote then String backslash (String quote EmptyString)
  else if Ascii.eqb c backslash then String backslash (String backslash EmptyString)
  else if Ascii.eqb c "008" then String backslash "b"
  else if Ascii.eqb c "012" then String backslash "f"
  else if Ascii.eqb c "010" then String backslash "n"
  else if Ascii.eqb c "013" then String backslash "r"
  else if Ascii.eqb c "009" then String backslash "t"
  else if Nat.ltb (nat_of_ascii c) 32 then
    String backslash
      (String "u" (String "0" (String "0"
         (String (hex_digit (Nat.div (nat_of_ascii c) 16))
            (String (hex_digit (Nat.modulo (nat_of_ascii c) 16)) EmptyString)))))
  else String c EmptyString.

Fixpoint escape (s : string) : string :=
  match s with
  | EmptyString => EmptyString
  | String c rest => escape_char c ++ escape rest
  end.

(** [encode_basestring] *)
Definition encode_basestring (s : string) : string :=
  String quote (escape s ++ String quote EmptyString).

(** A newline and the indentation of a nesting level. *)
Definition newline_indent (level : nat) : string :=
  nl ++ str_times " " (2 * level).

(** The items after the first, each behind its separator. *)
Fixpoint join_items (enc : json -> string) (sep : string) (xs : list json)
  : string :=
  match xs with
  | [] => EmptyString
  | x :: rest => sep ++ enc x ++ join_items enc sep rest
  end.

Fixpoint join_members (enc : json -> string) (sep : string)
  (kvs : list (string * json)) : string :=
  match kvs with
  | [] => EmptyString
  | (k, x) :: rest =>
      sep ++ encode_basestring k ++ ": " ++ enc x ++ join_members enc sep rest
  end.

Fixpoint encode (level : nat) (v : json) : string :=
  match v with
  | JNull => "null"
  | JBool true => "true"
  | JBool false => "false"
  | JNum n => str_of_Z n
  | JStr s => encode_basestring s
  | JArr [] => "[]"
  | JArr (x :: xs) =>
      "[" ++ newline_indent (S level) ++ encode (S level) x
      ++ join_items (encode (S level)) ("," ++ newline_indent (S level)) xs
      ++ newline_indent level ++ "]"
  | JObj [] => "{}"
  | JObj ((k, x) :: kvs) =>
      "{" ++ newline_indent (S level)
      ++ encode_basestring k ++ ": " ++ encode (S level) x
      ++ join_members (encode (S level)) ("," ++ newline_indent (S level)) kvs
      ++ newline_indent level ++ "}"
  end.

Definition json_dumps (doc : json) : string := encode 0 doc.

(** Reading *)

Definition is_ws (c : ascii) : bool :=
  Ascii.eqb c " " || Ascii.eqb c "009" || Ascii.eqb c "010" || Ascii.eqb c "013".

Definition is_digit (c : ascii) : bool :=
  Nat.leb 48 (nat_of_ascii c) && Nat.leb (nat_of_ascii c) 57.

Fixpoint skip_ws (s : string) : string :=
  match s with
  | EmptyString => EmptyString
  | String c rest => if is_ws c then skip_ws rest else s
  end.

Definition next_is (c : ascii) (s : string) : bool :=
  match s with
  | String c' _ => Ascii.eqb c' c
  | EmptyString => false
  end.

Definition tail (s : string) : string :=
  match s with
  | String _ rest => rest
  | EmptyString => EmptyString
  end.

Definition hex_value (c : ascii) : option nat :=
  let n := nat_of_ascii c in
  if Nat.leb 48 n && Nat.leb n 57 then Some (n - 48)
  else if Nat.leb 97 n && Nat.leb n 102 then Some (n - 87)
  else if Nat.leb 65 n && Nat.leb n 70 then Some (n - 55)
  else None.

(** What a backslash and one more character stand for. *)
Definition unescape (c : ascii) : option ascii :=
  if Ascii.eqb c quote then Some quote
  else if Ascii.eqb c backslash then Some backslash
  else if Ascii.eqb c "/" then Some "/"%char
  else if Ascii.eqb c "b" then Some "008"%char
  else if Ascii.eqb c "f" then Some "012"%char
  else if Ascii.eqb c "n" then Some "010"%char
  else if Ascii.eqb c "r" then Some "013"%char
  else if Ascii.eqb c "t" then Some "009"%char
  else None.

Definition push (c : ascii) (r : option (string * string))
  : option (string * string) :=
  match r with
  | Some (s, rest) => Some (String c s, rest)
  | None => None
  end.

(** [scanstring], after the opening quote: the content and what follows
    the closing quote.  A character above 255 is not one of the model. *)
Fixpoint scanstring (s : string) : option (string * string) :=
  match s with
  | EmptyString => None
  | String c rest =>
      if Ascii.eqb c quote then Some (EmptyString, rest)
      else if Ascii.eqb c backslash then
        match rest with
        | EmptyString => None
        | String e rest' =>
            match unescape e with
            | Some ch => push ch (scanstring rest')
            | None =>
                if Ascii.eqb e "u" then
                  match rest' with
                  | String h1 (String h2 (String h3 (String h4 rest''))) =>
                      match hex_value h1, hex_value h2, hex_value h3, hex_value h4 with
                      | Some a, Some b, Some c, Some d =>
                          if Nat.eqb a 0 && Nat.eqb b 0
                          then push (ascii_of_nat (16 * c + d)) (scanstring rest'')
                          else None
                      | _, _, _, _ => None
                      end
                  | _ => None
                  end
                else None
            end
        end
      else if Nat.ltb (nat_of_ascii c) 32 then None
      else push c (scanstring rest)
  end.

Fixpoint span_digits (s : string) : string * string :=
  match s with
  | EmptyString => (EmptyString, EmptyString)
  | String c rest =>
      if is_digit c
      then let (ds, rest') := span_digits rest in (String c ds, rest')
      else (EmptyString, s)
  end.

(** An integer: an optional minus sign, then a zero or a run of digits
    that does not start with a zero.  A fraction or an exponent behind it
    makes the number one the model does not hold. *)
Definition scan_int (s : string) : option (Z * string) :=
  let negative := next_is "-" s in
  let s1 := if negative then tail s else s in
  let (ds, rest) :=
    if next_is "0" s1 then ("0", tail s1) else span_digits s1 in
  match ds with
  | EmptyString => None
  | _ =>
      if next_is "." rest || next_is "e" rest || next_is "E" rest then None
      else
        match NilEmpty.uint_of_string ds with
        | Some d =>
            Some (if negative then Z.opp (Z.of_uint d) else Z.of_uint d, rest)
        | None => None
        end
  end.

(** [d[k] = v] on the association list of a dict. *)
Fixpoint dict_set (k : string) (v : json) (kvs : list (string * json))
  : list (string * json) :=
  match kvs with
  | [] => [(k, v)]
  | (k', v') :: rest =>
      if String.eqb k k' then (k', v) :: rest else (k', v') :: dict_set k v rest
  end.

(** [dict(pairs)] *)
Definition dict_of_pairs (pairs : list (string * json)) : list (string * json) :=
  fold_left (fun d kv => dict_set (fst kv) (snd kv) d) pairs [].

(** What is left of [s] behind [word], when [s] starts with it. *)
Fixpoint strip_prefix (word s : string) : option string :=
  match word with
  | EmptyString => Some s
  | String a word' =>
      match s with
      | String b rest => if Ascii.eqb a b then strip_prefix word' rest else None
      | EmptyString => None
      end
  end.

Definition expect (word : string) (v : json) (s : string)
  : option (json * string) :=
  match strip_prefix word s with
  | Some rest => Some (v, rest)
  | None => None
  end.

Fixpoint scan_value (fuel : nat) (s : string) : option (json * string) :=
  match fuel with
  | O => None
  | S fuel' =>
      match s with
      | EmptyString => None
      | String c rest =>
          if is_digit c || Ascii.eqb c "-" then
            match scan_int s with
            | Some (n, r) => Some (JNum n, r)
            | None => None
            end
          else if Ascii.eqb c quote then
            match scanstring rest with
            | Some (str, r) => Some (JStr str, r)
            | None => None
            end
          else if Ascii.eqb c "[" then
            let r := skip_ws rest in
            if next_is "]" r then Some (JArr [], tail r)
            else
              match scan_items fuel' r with
              | Some (xs, r') => Some (JArr xs, r')
              | None => None
              end
          else if Ascii.eqb c "{" then
            let r := skip_ws rest in
            if next_is "}" r then Some (JObj [], tail r)
            else
              match scan_members fuel' r with
              | Some (pairs, r') => Some (JObj (dict_of_pairs pairs), r')
              | None => None
              end
          else if Ascii.eqb c "n" then expect "null" JNull s
          else if Ascii.eqb c "t" then expect "true" (JBool true) s
          else if Ascii.eqb c "f" then expect "false" (JBool false) s
          else None
      end
  end

with scan_items (fuel : nat) (s : string) : option (list json * string) :=
  match fuel with
  | O => None
  | S fuel' =>
      match scan_value fuel' s with
      | Some (v, r) =>
          let r := skip_ws r in
          if next_is "]" r then Some ([v], tail r)
          else if next_is "," r then
            match scan_items fuel' (skip_ws (tail r)) with
            | Some (vs, r') => Some (v :: vs, r')
            | None => None
            end
          else None
      | None => None
      end
  end

with scan_members (fuel : nat) (s : string)
  : option (list (string * json) * string) :=
  match fuel with
  | O => None
  | S fuel' =>
      if next_is quote s then
        match scanstring (tail s) with
        | Some (k, r) =>
            let r := skip_ws r in
            if next_is ":" r then
              match scan_value fuel' (skip_ws (tail r)) with
              | Some (v, r) =>
                  let r := skip_ws r in
                  if next_is "}" r then Some ([(k, v)], tail r)
                  else if next_is "," r then
                    match scan_members fuel' (skip_ws (tail r)) with
                    | Some (kvs, r') => Some ((k, v) :: kvs, r')
                    | None => None
                    end
                  else None
              | None => None
              end
            else None
        | None => None
        end
      else None
  end.

(** [json.loads]: one value, with nothing but white space around it. *)
Definition json_loads (s : string) : option json :=
  match scan_value (String.length s) (skip_ws s) with
  | Some (v, rest) =>
      match skip_ws rest with
      | EmptyString => Some v
      | _ => None
      end
  | None => None
  end.

(** A method call on the object [c] from a script: the object after the
    call comes back with the result. *)
Definition call {A} (c : CrawlioClient) (m : M cstate A)
  : M log (A * CrawlioClient) :=
  fun l =>
    match m (mkState c l) with
    | (Ret a, s) => (Ret (a, self s), out s)
    | (Raise e, s) => (Raise e, out s)
    end.

(** [sys.exit(code)] *)
Definition sys_exit {S A} (code : Z) : M S A := raise (SystemExit code).

(** [with open(name, 'w', encoding='utf-8') as f:
       json.dump(doc, f, indent=2, ensure_ascii=False)]

    The event holds the characters written to the file.  Every character of
    a document of the model has a UTF-8 encoding, so the encoder of the file
    raises no [UnicodeEncodeError] here, as it does in Python for a lone
    surrogate, where it leaves a truncated file. *)
Definition dump_to_file (name : string) (doc : json) : M log unit :=
  emit (WriteFile name (json_dumps doc)).

Definition crawl_options : json :=
  JObj [("extractText", JBool true); ("extractLinks", JBool true);
        ("extractMeta", JBool true); ("screenshot", JBool false)].

Definition when {S} (b : bool) (m : M S unit) : M S unit :=
  if b then m else ret tt.

(** ** The driver of [crawlio_client.py] *)

Module crawlio_client.

(** [data['text'][:200] + "..." if len(data['text']) > 200 else data['text']] *)
Definition text_preview {S} (text : json) : M S json :=
  n <- py_len text ;;
  if Nat.ltb 200 n then
    head <- py_slice_to text 200 ;;
    py_add_str head "..."
  else ret text.

(** [for i, section in enumerate(...): print(f"  {i+1}. {section.get('title', 'Untitled')}")] *)
Fixpoint print_sections (i : Z) (sections : list json) : M log unit :=
  match sections with
  | [] => ret tt
  | section :: rest =>
      title <- py_get section "title" (JStr "Untitled") ;;
      print [Lit "  "; fmt (JNum (i + 1)); Lit ". "; fmt title] ;;
      print_sections (i + 1) rest
  end.

(** The block under [if crawl_result:], up to the file write. *)
Definition print_summary (crawl_result : json) : M log unit :=
  print [Lit (nl ++ "Crawl Results Summary:")] ;;
  print [Lit (str_times "-" 25)] ;;
  has_data <- py_contains "data" crawl_result ;;
  when has_data
    (data <- py_getitem crawl_result "data" ;;
     has_text <- py_contains "text" data ;;
     when has_text
       (text <- py_getitem data "text" ;;
        preview <- text_preview text ;;
        print [Lit "Text Preview: "; fmt preview]) ;;
     has_sections <- py_contains "sections" data ;;
     nonempty <- (if has_sections
                  then sections <- py_getitem data "sections" ;;
                       ret (truthy sections)
                  else ret false) ;;
     when nonempty
       (sections <- py_getitem data "sections" ;;
        n <- py_len sections ;;
        print [Lit "Sections Found: "; fmt (JNum (Z.of_nat n))] ;;
        first3 <- py_slice_to sections 3 ;;
        items <- py_iter first3 ;;
        print_sections 0 items)) ;;
  has_metadata <- py_contains "metadata" crawl_result ;;
  when has_metadata
    (metadata <- py_getitem crawl_result "metadata" ;;
     final_url <- py_get metadata "finalUrl" (JStr "N/A") ;;
     print [Lit "Final URL: "; fmt final_url] ;;
     load_time <- py_get metadata "loadTime" (JStr "N/A") ;;
     print [Lit "Load Time: "; fmt load_time; Lit "ms"] ;;
     content_length <- py_get metadata "contentLength" (JStr "N/A") ;;
     print [Lit "Content Length: "; fmt content_length; Lit " bytes"]).

(** The end of that block: the file write and the line that reports it. *)
Definition save_results (timestamp : Z) (crawl_result : json) : M log unit :=
  let output_file := "crawl_result_" ++ str_of_Z timestamp ++ ".json" in
  dump_to_file output_file crawl_result ;;
  print [Lit (nl ++ "Full results saved to: "); Lit output_file].

(** The statement [if crawl_result: ...] as a whole. *)
Definition summarize_and_save (timestamp : Z) (crawl_result : json)
  : M log unit :=
  when (truthy crawl_result)
    (print_summary crawl_result ;;
     save_results timestamp crawl_result).

Section Main.

Variable net : Transport.
(** [int(time.time())] *)
Variable timestamp : Z.
(** the object [requests.Session()] returns *)
Variable fresh : Session.

Definition main : M log unit :=
  print [Lit "Crawlio API Client Demo"] ;;
  print [Lit (str_times "=" 50)] ;;
  let client := init "http://localhost:3002" fresh in
  print [Lit (nl ++ "1. User Registration")] ;;
  print [Lit (str_times "-" 20)] ;;
  let email := "testuser_" ++ str_of_Z timestamp ++ "@example.com" in
  r <- call client (register_user net email "testpass123" "Test" "User") ;;
  let (success, client) := r in
  when (negb success)
    (print [Lit "Failed to register user. Exiting..."] ;;
     sys_exit 1) ;;
  print [Lit (nl ++ "2. Website Crawling")] ;;
  print [Lit (str_times "-" 20)] ;;
  r <- call client (crawl_url net "https://www.wikipedia.org/" crawl_options) ;;
  let (crawl_result, client) := r in
  summarize_and_save timestamp crawl_result ;;
  print [Lit (nl ++ "3. Crawl History")] ;;
  print [Lit (str_times "-" 15)] ;;
  r <- call client (get_crawl_history net) ;;
  let (history, client) := r in
  has_jobs <- (if truthy history then py_contains "jobs" history
               else ret false) ;;
  when has_jobs
    (jobs <- py_getitem history "jobs" ;;
     n <- py_len jobs ;;
     print [Lit "Total crawl jobs: "; fmt (JNum (Z.of_nat n))] ;;
     jobs <- py_getitem history "jobs" ;;
     when (truthy jobs)
       (jobs <- py_getitem history "jobs" ;;
        latest_job <- py_first jobs ;;
        job_id <- py_get latest_job "job_id" (JStr "N/A") ;;
        print [Lit "Latest Job ID: "; fmt job_id] ;;
        created <- py_get latest_job "created_at" (JStr "N/A") ;;
        print [Lit "Created: "; fmt created])) ;;
  print [Lit (nl ++ "Demo completed successfully!")] ;;
  print [Lit "Your API Key: "; fmt (api_key client)] ;;
  print [Lit (nl ++ "You can now use this API key for future requests!")].

End Main.

End crawlio_client.

(** ** The driver of [crawl_wiki.py] *)

Module crawl_wiki.

(** [data['text'][:200] + "..." if len(data['text']) > 200 else data['text']] *)
Definition text_preview {S} (text : json) : M S json :=
  n <- py_len text ;;
  if Nat.ltb 200 n then
    head <- py_slice_to text 200 ;;
    py_add_str head "..."
  else ret text.

(** [client.api_key = key], an assignment from outside the class *)
Definition assign_api_key (c : CrawlioClient) (key : json)
  : M log CrawlioClient :=
  r <- call c (set_api_key key) ;;
  ret (snd r).

Section Main.

Variable net : Transport.
Variable fresh : Session.

Definition main : M log unit :=
  let client := init "http://localhost:3002" fresh in
  client <- assign_api_key client (JStr "0IsGoeQuG0jpWgG5ehwPkRMDWgmfyzjv") ;;
  print [Lit "Crawling https://www.wikipedia.org/ using existing API key..."] ;;
  r <- call client (crawl_url net "https://www.wikipedia.org/" crawl_options) ;;
  let (result, client) := r in
  if truthy result then
    print [Lit "Crawl successful!"] ;;
    has_data <- py_contains "data" result ;;
    when has_data
      (data <- py_getitem result "data" ;;
       has_text <- py_contains "text" data ;;
       when has_text
         (text <- py_getitem data "text" ;;
          preview <- text_preview text ;;
          print [Lit "Text Preview: "; fmt preview]) ;;
       has_sections <- py_contains "sections" data ;;
       nonempty <- (if has_sections
                    then sections <- py_getitem data "sections" ;;
                         ret (truthy sections)
                    else ret false) ;;
       when nonempty
         (sections <- py_getitem data "sections" ;;
          n <- py_len sections ;;
          print [Lit "Sections Found: "; fmt (JNum (Z.of_nat n))])) ;;
    has_metadata <- py_contains "metadata" result ;;
    when has_metadata
      (metadata <- py_getitem result "metadata" ;;
       final_url <- py_get metadata "finalUrl" (JStr "N/A") ;;
       print [Lit "Final URL: "; fmt final_url] ;;
       load_time <- py_get metadata "loadTime" (JStr "N/A") ;;
       print [Lit "Load Time: "; fmt load_time; Lit "ms"] ;;
       content_length <- py_get metadata "contentLength" (JStr "N/A") ;;
       print [Lit "Content Length: "; fmt content_length; Lit " bytes"])
  else
    print [Lit "Crawl failed"].

End Main.

End crawl_wiki.

(** ** [simple_crawler.py] *)

Module simple_crawler.

(** [data['data']['text'][:200] + "..."] *)
Definition text_preview {S} (text : json) : M S json :=
  head <- py_slice_to text 200 ;;
  py_add_str head "...".

(** The cross mark that opens the script's error lines (U+274C in UTF-8). *)
Definition cross_mark : string :=
  String "226" (String "157" (String "140" EmptyString)).

(** The block under [if result:] of [main]; [timestamp] is
    [int(time.time())], read inside the block. *)
Definition save_results (timestamp : Z) (result : json) : M log unit :=
  let filename := "simple_crawl_" ++ str_of_Z timestamp ++ ".json" in
  dump_to_file filename result ;;
  print [Lit "Results saved to: "; Lit filename] ;;
  print [Lit "Crawl completed successfully!"].

(** The statement [if result: ...] of [main] as a whole. *)
Definition save_if_any (timestamp : Z) (result : json) : M log unit :=
  when (truthy result) (save_results timestamp result).

Definition post_request (api_key url base_url : string) : Request :=
  mkRequest POST (base_url ++ "/api/crawl/url")
    (Some (JObj [("url", JStr url); ("options", crawl_options)]))
    [("Content-Type", JStr "application/json"); ("x-api-key", JStr api_key)].

Section Main.

Variable net : Transport.
Variable timestamp : Z.

(** [requests.post] goes through no session of the caller's. *)
Definition crawl_with_api_key (api_key url base_url : string) : M log json :=
  try_except
    (print [Lit "Crawling: "; Lit url] ;;
     response <- send net None (post_request api_key url base_url) ;;
     raise_for_status response ;;
     data <- response_json response ;;
     print [Lit "Crawling completed successfully!"] ;;
     has_data <- py_contains "data" data ;;
     has_text <- (if has_data
                  then inner <- py_getitem data "data" ;;
                       py_contains "text" inner
                  else ret false) ;;
     when has_text
       (inner <- py_getitem data "data" ;;
        text <- py_getitem inner "text" ;;
        preview <- text_preview text ;;
        print [Lit "Text Preview: "; fmt preview]) ;;
     has_metadata <- py_contains "metadata" data ;;
     when has_metadata
       (metadata <- py_getitem data "metadata" ;;
        final_url <- py_get metadata "finalUrl" (JStr "N/A") ;;
        print [Lit "Final URL: "; fmt final_url] ;;
        load_time <- py_get metadata "loadTime" (JStr "N/A") ;;
        print [Lit "Load Time: "; fmt load_time; Lit "ms"]) ;;
     ret data)
    (except_RequestException (fun msg _ =>
       print [Lit (cross_mark ++ " Crawling failed: "); Lit msg] ;;
       ret JNull)).

(** [main] with the constant [API_KEY] as a parameter; the script as it
    stands is [main] below. *)
Definition main_with (API_KEY : string) : M log unit :=
  let TARGET_URL := "https://www.wikipedia.org/" in
  when (String.eqb API_KEY "YOUR_API_KEY_HERE")
    (print [Lit (cross_mark ++ " Please replace YOUR_API_KEY_HERE with your actual API key")] ;;
     print [Lit "Get your API key by running: python crawlio_client.py"] ;;
     sys_exit 1) ;;
  print [Lit "Simple Crawlio API Client"] ;;
  print [Lit (str_times "=" 40)] ;;
  result <- crawl_with_api_key API_KEY TARGET_URL "http://localhost:3002" ;;
  save_if_any timestamp result.

Definition main : M log unit := main_with "YOUR_API_KEY_HERE".

End Main.

End simple_crawler.

(** ** Vocabulary of the statements *)

(** A reply that makes the call fail: the transport raised, or the status
    is one [raise_for_status] rejects. *)
Definition failing (rep : Reply) : Prop :=
  match rep with
  | Failed _ _ => True
  | Responded r => (400 <= status_code r < 600)%Z
  end.

(** An error of [Response.json()] that is no [RequestException]. *)
Definition decode_error (d : decoded) : option exn :=
  match d with
  | RaisesValueError msg => Some (ValueError msg)
  | RaisesRecursionError msg => Some (RecursionError msg)
  | _ => None
  end.

(** The value [data.get('api_key')] yields on a dict. *)
Definition key_of (kvs : list (string * json)) : json :=
  match dict_lookup "api_key" kvs with
  | Some v => v
  | None => JNull
  end.

(** Simulated services for the concrete runs below. *)
Definition respond (status : Z) (body : decoded) : Transport :=
  fun _ req => Responded (mkResponse status "-" (req_url req) "-" body).

Definition net_down : Transport :=
  fun _ _ => Failed "Connection refused" None.

(** Registration answers with [body]; every other endpoint is down. *)
Definition net_register_only (body : decoded) : Transport :=
  fun h req =>
    if String.eqb (req_url req) "http://localhost:3002/api/auth/register"
    then respond 200 body h req
    else net_down h req.

Definition demo_client (key : json) : CrawlioClient :=
  mkClient "http://localhost:3002" key (SessionHandle 0).

(** The log of [crawlio_client.main] when it calls [register_user]. *)
Definition before_registration (l : log) : log :=
  Print [Lit (str_times "-" 20)]
  :: Print [Lit (nl ++ "1. User Registration")]
  :: Print [Lit (str_times "=" 50)]
  :: Print [Lit "Crawlio API Client Demo"] :: l.

Definition demo_email (timestamp : Z) : string :=
  "testuser_" ++ str_of_Z timestamp ++ "@example.com".

(** The files written so far, newest first: name and text. *)
Fixpoint files_of (l : log) : list (string * string) :=
  match l with
  | [] => []
  | WriteFile name text :: rest => (name, text) :: files_of rest
  | _ :: rest => files_of rest
  end.

(** Registration and crawl answer with the given bodies; history is down. *)
Definition net_by_url (register crawl : decoded) : Transport :=
  fun h req =>
    if String.eqb (req_url req) "http://localhost:3002/api/auth/register"
    then respond 200 register h req
    else if String.eqb (req_url req) "http://localhost:3002/api/crawl/url"
    then respond 200 crawl h req
    else net_down h req.

(** *** What a computation adds to the log *)

Definition is_print (e : event) : bool :=
  match e with
  | Print _ => true
  | _ => false
  end.

(** A printed line or a written file. *)
Definition is_output (e : event) : bool :=
  match e with
  | Print _ | WriteFile _ _ => true
  | _ => false
  end.

(** [m] adds to the log only events that pass [ok], whether it returns or
    raises. *)
Definition adds_only {A} (ok : event -> bool) (m : M log A) : Prop :=
  forall l, exists evs,
    snd (m l) = (evs ++ l)%list /\ forallb ok evs = true.

(** *** How a computation ends *)

Definition is_request_error (e : exn) : bool :=
  match e with
  | RequestException _ _ => true
  | _ => false
  end.

(** [m] raises no [RequestException]. *)
Definition no_request_error {A} (m : M log A) : Prop :=
  forall l,
    match fst (m l) with
    | Ret _ => True
    | Raise e => is_request_error e = false
    end.

(** [m] returns [v] when it returns, and raises no [RequestException]. *)
Definition settles {A} (v : A) (m : M log A) : Prop :=
  forall l,
    match fst (m l) with
    | Ret a => a = v
    | Raise e => is_request_error e = false
    end.

(** The text of the error [raise_for_status] raises for a 4xx or 5xx
    response. *)
Definition http_error_text (r : Response) : string :=
  str_of_Z (status_code r)
  ++ (if (status_code r <? 500)%Z then " Client Error: " else " Server Error: ")
  ++ reason r ++ " for url: " ++ resp_url r.

(** The text of the error a failing reply raises in the caller, [str(e)]:
    the message of the transport's error, or the text of the status error. *)
Definition error_text (rep : Reply) : string :=
  match rep with
  | Failed msg _ => msg
  | Responded r => http_error_text r
  end.

(** The response that error carries, [e.response]. *)
Definition error_response (rep : Reply) : option Response :=
  match rep with
  | Failed _ response => response
  | Responded r => Some r
  end.

(** What the [except] clauses of [register_user] and [crawl_url] print
    after their first line, newest first: nothing, unless the error carries
    a response that is true (its status is not 4xx or 5xx); then the decoded
    body, or the text of the body when decoding raises. *)
Definition error_details (response : option Response) : log :=
  match response with
  | Some r =>
      if resp_ok r then
        match resp_json r with
        | Decoded doc => [Print [Lit "Error details: "; fmt doc]]
        | _ => [Print [Lit "Response: "; Lit (resp_text r)]]
        end
      else []
  | None => []
  end.

(** *** Shapes of strings and documents *)

Fixpoint ends_with_slash (s : string) : bool :=
  match s with
  | EmptyString => false
  | String c EmptyString => Ascii.eqb c "/"
  | String _ rest => ends_with_slash rest
  end.

(** [None], a boolean or a number: an object without [in], [len] or
    subscripts. *)
Definition is_scalar (v : json) : bool :=
  match v with
  | JNull | JBool _ | JNum _ => true
  | _ => false
  end.

(** The value of [d.get(key, default)] on the association list of [d]. *)
Definition get_or (key : string) (default : json) (kvs : list (string * json))
  : json :=
  match dict_lookup key kvs with
  | Some v => v
  | None => default
  end.

(** The line printed for the section at position [i], counted from 0,
    and the lines of a list of sections, newest first. *)
Definition section_line (i : Z) (section : list (string * json)) : event :=
  Print [Lit "  "; fmt (JNum (i + 1)); Lit ". ";
         fmt (get_or "title" (JStr "Untitled") section)].

Fixpoint section_lines (i : Z) (sections : list (list (string * json))) : log :=
  match sections with
  | [] => []
  | section :: rest =>
      (section_lines (i + 1) rest ++ [section_line i section])%list
  end.

(** The two lines that open the summary, newest first. *)
Definition summary_head : log :=
  [Print [Lit (str_times "-" 25)];
   Print [Lit (nl ++ "Crawl Results Summary:")]].

(** *** Documents and their text *)

(** No key twice. *)
Fixpoint distinct (ks : list string) : bool :=
  match ks with
  | [] => true
  | k :: rest => negb (existsb (String.eqb k) rest) && distinct rest
  end.

(** A document as a decoder builds it: no dict holds a key twice. *)
Fixpoint well_formed (v : json) : bool :=
  match v with
  | JArr xs => forallb well_formed xs
  | JObj kvs =>
      distinct (map fst kvs) && forallb (fun kv => well_formed (snd kv)) kvs
  | _ => true
  end.

(** Fuel that is enough to read a document back. *)
Fixpoint need (v : json) : nat :=
  match v with
  | JArr xs => S (fold_right (fun x n => S (need x + n)) 0 xs)
  | JObj kvs => S (fold_right (fun kv n => S (need (snd kv) + n)) 0 kvs)
  | _ => 1
  end.

Section JsonInduction.

Variable P : json -> Prop.
Hypothesis Hnull : P JNull.
Hypothesis Hbool : forall b, P (JBool b).
Hypothesis Hnum : forall n, P (JNum n).
Hypothesis Hstr : forall s, P (JStr s).
Hypothesis Harr : forall xs, Forall P xs -> P (JArr xs).
Hypothesis Hobj : forall kvs, Forall (fun kv => P (snd kv)) kvs -> P (JObj kvs).

Fixpoint json_nested_ind (v : json) : P v :=
  match v with
  | JNull => Hnull
  | JBool b => Hbool b
  | JNum n => Hnum n
  | JStr s => Hstr s
  | JArr xs =>
      Harr xs
        ((fix items (l : list json) : Forall P l :=
            match l with
            | [] => Forall_nil P
            | x :: rest => Forall_cons x (json_nested_ind x) (items rest)
            end) xs)
  | JObj kvs =>
      Hobj kvs
        ((fix members (l : list (string * json))
            : Forall (fun kv => P (snd kv)) l :=
            match l with
            | [] => Forall_nil _
            | kv :: rest =>
                Forall_cons kv (json_nested_ind (snd kv)) (members rest)
            end) kvs)
  end.

End JsonInduction.

(** A decimal numeral that starts with a digit other than zero. *)
Definition leading_nonzero (d : Decimal.uint) : Prop :=
  match d with
  | Decimal.Nil | Decimal.D0 _ => False
  | _ => True
  end.

(** What may follow a value in a text that [encode] writes. *)
Definition follow (rest : string) : Prop :=
  rest = EmptyString
  \/ (exists r, rest = String "," r)
  \/ (exists r, rest = String "010" r).

(** A text that starts with the first character of a value. *)
Definition opens_value (s : string) : Prop :=
  exists c r, s = String c r
              /\ is_ws c = false
              /\ Ascii.eqb c "]" = false
              /\ Ascii.eqb c "}" = false.

(** [v] is read back from its text, whatever follows it. *)
Definition reads_back (v : json) : Prop :=
  well_formed v = true ->
  forall level fuel rest,
    need v <= fuel -> follow rest ->
    scan_value fuel (encode level v ++ rest) = Some (v, rest).


(** ** How the methods run, by the kind of reply *)

Lemma report_response_prints (response : option Response) (s : cstate) :
  exists lines,
    report_response response s
    = (Ret tt, mkState (self s) ((map Print lines ++ out s)%list)).
Proof.
  destruct s as [c l]. destruct response as [r|]; cbn.
  - destruct (resp_ok r).
    + unfold try_except, bind, response_json, lift, print, emit. cbn.
      destruct (resp_json r); cbn; eexists [_]; reflexivity.
    + exists []. reflexivity.
  - exists []. reflexivity.
Qed.

Lemma report_response_details (response : option Response) (s : cstate) :
  report_response response s
  = (Ret tt, mkState (self s) ((error_details response ++ out s)%list)).
Proof.
  destruct s as [c l]. destruct response as [r|]; cbn; [| reflexivity].
  destruct (resp_ok r); [| reflexivity].
  unfold try_except, bind, response_json, lift, print, emit. cbn.
  destruct (resp_json r); reflexivity.
Qed.

Lemma raise_for_status_text {S} (r : Response) (s : S) :
  (400 <= status_code r < 600)%Z ->
  raise_for_status r s
  = (Raise (RequestException (http_error_text r) (Some r)), s).
Proof.
  intros H. unfold raise_for_status, http_error_text.
  destruct ((400 <=? status_code r)%Z && (status_code r <? 500)%Z) eqn:E1.
  - apply andb_true_iff in E1. destruct E1 as [_ E1]. rewrite E1. reflexivity.
  - destruct ((500 <=? status_code r)%Z && (status_code r <? 600)%Z) eqn:E2.
    + apply andb_true_iff in E2. destruct E2 as [E2 _].
      apply Z.leb_le in E2.
      destruct (status_code r <? 500)%Z eqn:E3;
        [apply Z.ltb_lt in E3; lia | reflexivity].
    + exfalso.
      rewrite andb_false_iff in E1, E2. rewrite Z.leb_gt, Z.ltb_ge in E1, E2. lia.
Qed.

Lemma raise_for_status_failing {S} (r : Response) (s : S) :
  (400 <= status_code r < 600)%Z ->
  exists msg, raise_for_status r s = (Raise (RequestException msg (Some r)), s).
Proof.
  intros H. unfold raise_for_status.
  destruct ((400 <=? status_code r)%Z && (status_code r <? 500)%Z) eqn:E1.
  - eexists. reflexivity.
  - destruct ((500 <=? status_code r)%Z && (status_code r <? 600)%Z) eqn:E2.
    + eexists. reflexivity.
    + exfalso. 
      rewrite andb_false_iff in E1, E2. rewrite Z.leb_gt, Z.ltb_ge in E1, E2. lia.
Qed.

Lemma raise_for_status_ok {S} (r : Response) (s : S) :
  resp_ok r = true -> raise_for_status r s = (Ret tt, s).
Proof.
  unfold resp_ok, raise_for_status. intros H.
  apply negb_true_iff in H.
  destruct ((400 <=? status_code r)%Z && (status_code r <? 500)%Z) eqn:E1.
  - exfalso. rewrite andb_true_iff in E1. rewrite andb_false_iff in H.
    rewrite Z.leb_le, Z.ltb_lt in E1. rewrite Z.leb_gt, Z.ltb_ge in H. lia.
  - destruct ((500 <=? status_code r)%Z && (status_code r <? 600)%Z) eqn:E2.
    + exfalso. rewrite andb_true_iff in E2. rewrite andb_false_iff in H.
      rewrite Z.leb_le, Z.ltb_lt in E2. rewrite Z.leb_gt, Z.ltb_ge in H. lia.
    + reflexivity.
Qed.

#[local] Arguments report_response : simpl never.

Ltac run := unfold bind, try_except, get_self, lift, send, print, emit, ret, raise; cbn.

Ltac report :=
  match goal with
  | |- context [report_response ?a ?b] =>
      let lines := fresh "lines" in
      let Hl := fresh "Hl" in
      destruct (report_response_prints a b) as [lines Hl]; rewrite Hl; cbn
  end.

Section Runs.
Variable net : Transport.

Lemma register_user_failing c l email password first_name last_name :
  failing (net (requests_of l) (register_request c email password first_name last_name)) ->
  exists msg lines,
    register_user net email password first_name last_name (mkState c l)
    = (Ret false,
       mkState c ((map Print lines ++
                  Print [Lit "Registration failed: "; Lit msg]
                  :: Send (Some (session c)) (register_request c email password first_name last_name)
                  :: Print [Lit "Registering user: "; Lit email] :: l)%list)).
Proof.
  intros H. unfold register_user. run.
  destruct (net (requests_of l) _) as [r | msg resp]; cbn in *.
  - destruct (raise_for_status_failing r
               (mkState c (Send (Some (session c))
                             (register_request c email password first_name last_name)
                           :: Print [Lit "Registering user: "; Lit email] :: l)) H)
      as [msg Hm].
    rewrite Hm. cbn. report. exists msg, lines. reflexivity.
  - report. exists msg, lines. reflexivity.
Qed.

Lemma register_user_undecodable c l email password first_name last_name r msg :
  net (requests_of l) (register_request c email password first_name last_name)
  = Responded r ->
  resp_ok r = true ->
  resp_json r = Undecodable msg ->
  register_user net email password first_name last_name (mkState c l)
  = (Ret false,
     mkState c (Print [Lit "Registration failed: "; Lit msg]
                :: Send (Some (session c)) (register_request c email password first_name last_name)
                :: Print [Lit "Registering user: "; Lit email] :: l)).
Proof.
  intros Hnet Hok Hjson. unfold register_user. run. rewrite Hnet. cbn.
  rewrite (raise_for_status_ok r _ Hok). unfold response_json. rewrite Hjson.
  cbn. reflexivity.
Qed.

Lemma register_user_dict c l email password first_name last_name r kvs :
  net (requests_of l) (register_request c email password first_name last_name)
  = Responded r ->
  resp_ok r = true ->
  resp_json r = Decoded (JObj kvs) ->
  register_user net email password first_name last_name (mkState c l)
  = (Ret (truthy (key_of kvs)),
     mkState (mkClient (base_url c) (key_of kvs) (session c))
       ((if truthy (key_of kvs)
         then [Print [Lit "API Key: "; fmt (key_of kvs)];
               Print [Lit "Registration successful!"]]
         else [Print [Lit "Registration failed - no API key received"]])
        ++ SetApiKey (key_of kvs)
        :: Send (Some (session c)) (register_request c email password first_name last_name)
        :: Print [Lit "Registering user: "; Lit email] :: l)%list).
Proof.
  intros Hnet Hok Hjson. unfold register_user. run. rewrite Hnet. cbn.
  rewrite (raise_for_status_ok r _ Hok). unfold response_json. rewrite Hjson.
  cbn. unfold key_of. destruct (dict_lookup "api_key" kvs) as [v|]; cbn.
  - destruct (truthy v); reflexivity.
  - reflexivity.
Qed.

Lemma register_user_not_a_dict c l email password first_name last_name r doc :
  net (requests_of l) (register_request c email password first_name last_name)
  = Responded r ->
  resp_ok r = true ->
  resp_json r = Decoded doc ->
  (forall kvs, doc <> JObj kvs) ->
  exists msg,
  register_user net email password first_name last_name (mkState c l)
  = (Raise (AttributeError msg),
     mkState c (Send (Some (session c)) (register_request c email password first_name last_name)
                :: Print [Lit "Registering user: "; Lit email] :: l)).
Proof.
  intros Hnet Hok Hjson Hdoc. unfold register_user. run. rewrite Hnet. cbn.
  rewrite (raise_for_status_ok r _ Hok). unfold response_json. rewrite Hjson.
  cbn. destruct doc; cbn; try (eexists; reflexivity).
  destruct (Hdoc kvs eq_refl).
Qed.

Lemma register_user_failure c l email password first_name last_name :
  let reply := net (requests_of l)
                 (register_request c email password first_name last_name) in
  failing reply ->
  register_user net email password first_name last_name (mkState c l)
  = (Ret false,
     mkState c ((error_details (error_response reply) ++
                Print [Lit "Registration failed: "; Lit (error_text reply)]
                :: Send (Some (session c)) (register_request c email password first_name last_name)
                :: Print [Lit "Registering user: "; Lit email] :: l)%list)).
Proof.
  cbv zeta. intros H. unfold register_user. run.
  destruct (net (requests_of l) _) as [r | msg resp]; cbn in *.
  - rewrite (raise_for_status_text r _ H). cbn.
    rewrite report_response_details. reflexivity.
  - rewrite report_response_details. reflexivity.
Qed.

Lemma register_user_decode_error c l email password first_name last_name r e :
  net (requests_of l) (register_request c email password first_name last_name)
  = Responded r ->
  resp_ok r = true ->
  decode_error (resp_json r) = Some e ->
  register_user net email password first_name last_name (mkState c l)
  = (Raise e,
     mkState c (Send (Some (session c)) (register_request c email password first_name last_name)
                :: Print [Lit "Registering user: "; Lit email] :: l)).
Proof.
  intros Hnet Hok Hjson. unfold register_user. run. rewrite Hnet. cbn.
  rewrite (raise_for_status_ok r _ Hok). unfold response_json.
  destruct (resp_json r); cbn in Hjson; try discriminate Hjson;
    injection Hjson as <-; reflexivity.
Qed.

Lemma crawl_url_no_key c l url options :
  truthy (api_key c) = false ->
  crawl_url net url options (mkState c l)
  = (Ret JNull,
     mkState c (Print [Lit "No API key available. Please register first."] :: l)).
Proof.
  intros H. unfold crawl_url. run. rewrite H. reflexivity.
Qed.

Lemma crawl_url_failing c l url options :
  truthy (api_key c) = true ->
  failing (net (requests_of l) (crawl_request c url options)) ->
  exists msg lines,
    crawl_url net url options (mkState c l)
    = (Ret JNull,
       mkState c ((map Print lines ++
                  Print [Lit "Crawling failed: "; Lit msg]
                  :: Send (Some (session c)) (crawl_request c url options)
                  :: Print [Lit "Crawling: "; Lit url] :: l)%list)).
Proof.
  intros Hkey H. unfold crawl_url. run. rewrite Hkey. cbn.
  destruct (net (requests_of l) _) as [r | msg resp]; cbn in *.
  - destruct (raise_for_status_failing r
               (mkState c (Send (Some (session c)) (crawl_request c url options)
                           :: Print [Lit "Crawling: "; Lit url] :: l)) H)
      as [msg Hm].
    rewrite Hm. cbn. report. exists msg, lines. reflexivity.
  - report. exists msg, lines. reflexivity.
Qed.

Lemma crawl_url_undecodable c l url options r msg :
  truthy (api_key c) = true ->
  net (requests_of l) (crawl_request c url options) = Responded r ->
  resp_ok r = true ->
  resp_json r = Undecodable msg ->
  crawl_url net url options (mkState c l)
  = (Ret JNull,
     mkState c (Print [Lit "Crawling failed: "; Lit msg]
                :: Send (Some (session c)) (crawl_request c url options)
                :: Print [Lit "Crawling: "; Lit url] :: l)).
Proof.
  intros Hkey Hnet Hok Hjson. unfold crawl_url. run. rewrite Hkey. cbn.
  rewrite Hnet. cbn.
  rewrite (raise_for_status_ok r _ Hok). unfold response_json. rewrite Hjson.
  cbn. reflexivity.
Qed.

Lemma crawl_url_decoded c l url options r doc :
  truthy (api_key c) = true ->
  net (requests_of l) (crawl_request c url options) = Responded r ->
  resp_ok r = true ->
  resp_json r = Decoded doc ->
  crawl_url net url options (mkState c l)
  = (Ret doc,
     mkState c (Print [Lit "Crawling completed successfully!"]
                :: Send (Some (session c)) (crawl_request c url options)
                :: Print [Lit "Crawling: "; Lit url] :: l)).
Proof.
  intros Hkey Hnet Hok Hjson. unfold crawl_url. run. rewrite Hkey. cbn.
  rewrite Hnet. cbn.
  rewrite (raise_for_status_ok r _ Hok). unfold response_json. rewrite Hjson.
  cbn. reflexivity.
Qed.

Lemma crawl_url_failure c l url options :
  let reply := net (requests_of l) (crawl_request c url options) in
  truthy (api_key c) = true ->
  failing reply ->
  crawl_url net url options (mkState c l)
  = (Ret JNull,
     mkState c ((error_details (error_response reply) ++
                Print [Lit "Crawling failed: "; Lit (error_text reply)]
                :: Send (Some (session c)) (crawl_request c url options)
                :: Print [Lit "Crawling: "; Lit url] :: l)%list)).
Proof.
  cbv zeta. intros Hkey H. unfold crawl_url. run. rewrite Hkey. cbn.
  destruct (net (requests_of l) _) as [r | msg resp]; cbn in *.
  - rewrite (raise_for_status_text r _ H). cbn.
    rewrite report_response_details. reflexivity.
  - rewrite report_response_details. reflexivity.
Qed.

Lemma crawl_url_decode_error c l url options r e :
  truthy (api_key c) = true ->
  net (requests_of l) (crawl_request c url options) = Responded r ->
  resp_ok r = true ->
  decode_error (resp_json r) = Some e ->
  crawl_url net url options (mkState c l)
  = (Raise e,
     mkState c (Send (Some (session c)) (crawl_request c url options)
                :: Print [Lit "Crawling: "; Lit url] :: l)).
Proof.
  intros Hkey Hnet Hok Hjson. unfold crawl_url. run. rewrite Hkey. cbn.
  rewrite Hnet. cbn.
  rewrite (raise_for_status_ok r _ Hok). unfold response_json.
  destruct (resp_json r); cbn in Hjson; try discriminate Hjson;
    injection Hjson as <-; reflexivity.
Qed.

Lemma get_crawl_history_no_key c l :
  truthy (api_key c) = false ->
  get_crawl_history net (mkState c l)
  = (Ret JNull,
     mkState c (Print [Lit "No API key available. Please register first."] :: l)).
Proof.
  intros H. unfold get_crawl_history. run. rewrite H. reflexivity.
Qed.

Lemma get_crawl_history_failing c l :
  truthy (api_key c) = true ->
  failing (net (requests_of l) (history_request c)) ->
  exists msg,
    get_crawl_history net (mkState c l)
    = (Ret JNull,
       mkState c (Print [Lit "Failed to get history: "; Lit msg]
                  :: Send (Some (session c)) (history_request c)
                  :: Print [Lit "Fetching crawl history..."] :: l)).
Proof.
  intros Hkey H. unfold get_crawl_history. run. rewrite Hkey. cbn.
  destruct (net (requests_of l) _) as [r | msg resp]; cbn in *.
  - destruct (raise_for_status_failing r
               (mkState c (Send (Some (session c)) (history_request c)
                           :: Print [Lit "Fetching crawl history..."] :: l)) H)
      as [msg Hm].
    rewrite Hm. cbn. exists msg. reflexivity.
  - exists msg. reflexivity.
Qed.

Lemma get_crawl_history_failure c l :
  let reply := net (requests_of l) (history_request c) in
  truthy (api_key c) = true ->
  failing reply ->
  get_crawl_history net (mkState c l)
  = (Ret JNull,
     mkState c (Print [Lit "Failed to get history: "; Lit (error_text reply)]
                :: Send (Some (session c)) (history_request c)
                :: Print [Lit "Fetching crawl history..."] :: l)).
Proof.
  cbv zeta. intros Hkey H. unfold get_crawl_history. run. rewrite Hkey. cbn.
  destruct (net (requests_of l) _) as [r | msg resp]; cbn in *.
  - rewrite (raise_for_status_text r _ H). reflexivity.
  - reflexivity.
Qed.

Lemma get_crawl_history_decode_error c l r e :
  truthy (api_key c) = true ->
  net (requests_of l) (history_request c) = Responded r ->
  resp_ok r = true ->
  decode_error (resp_json r) = Some e ->
  get_crawl_history net (mkState c l)
  = (Raise e,
     mkState c (Send (Some (session c)) (history_request c)
                :: Print [Lit "Fetching crawl history..."] :: l)).
Proof.
  intros Hkey Hnet Hok Hjson. unfold get_crawl_history. run. rewrite Hkey. cbn.
  rewrite Hnet. cbn.
  rewrite (raise_for_status_ok r _ Hok). unfold response_json.
  destruct (resp_json r); cbn in Hjson; try discriminate Hjson;
    injection Hjson as <-; reflexivity.
Qed.

Lemma get_crawl_history_undecodable c l r msg :
  truthy (api_key c) = true ->
  net (requests_of l) (history_request c) = Responded r ->
  resp_ok r = true ->
  resp_json r = Undecodable msg ->
  get_crawl_history net (mkState c l)
  = (Ret JNull,
     mkState c (Print [Lit "Failed to get history: "; Lit msg]
                :: Send (Some (session c)) (history_request c)
                :: Print [Lit "Fetching crawl history..."] :: l)).
Proof.
  intros Hkey Hnet Hok Hjson. unfold get_crawl_history. run. rewrite Hkey. cbn.
  rewrite Hnet. cbn.
  rewrite (raise_for_status_ok r _ Hok). unfold response_json. rewrite Hjson.
  cbn. reflexivity.
Qed.

Lemma get_crawl_history_decoded c l r doc :
  truthy (api_key c) = true ->
  net (requests_of l) (history_request c) = Responded r ->
  resp_ok r = true ->
  resp_json r = Decoded doc ->
  get_crawl_history net (mkState c l)
  = (Ret doc,
     mkState c (Print [Lit "History retrieved successfully!"]
                :: Send (Some (session c)) (history_request c)
                :: Print [Lit "Fetching crawl history..."] :: l)).
Proof.
  intros Hkey Hnet Hok Hjson. unfold get_crawl_history. run. rewrite Hkey. cbn.
  rewrite Hnet. cbn.
  rewrite (raise_for_status_ok r _ Hok). unfold response_json. rewrite Hjson.
  cbn. reflexivity.
Qed.

End Runs.

Lemma failing_or_ok (r : Response) :
  failing (Responded r) \/ resp_ok r = true.
Proof.
  unfold resp_ok. cbn.
  destruct ((400 <=? status_code r)%Z && (status_code r <? 600)%Z) eqn:E.
  - left. apply andb_true_iff in E. rewrite Z.leb_le, Z.ltb_lt in E. exact E.
  - right. reflexivity.
Qed.

Lemma resp_ok_outside (r : Response) :
  (status_code r < 400 \/ 600 <= status_code r)%Z -> resp_ok r = true.
Proof.
  intros H. unfold resp_ok. apply negb_true_iff, andb_false_iff.
  rewrite Z.leb_gt, Z.ltb_ge. exact H.
Qed.

Lemma key_writes_prints (lines : list (list frag)) (l : log) :
  key_writes (map Print lines ++ l)%list = key_writes l.
Proof. induction lines as [|x xs IH]; cbn; auto. Qed.

#[local] Arguments register_user : simpl never.
#[local] Arguments crawl_url : simpl never.
#[local] Arguments get_crawl_history : simpl never.

(** ** The precondition of [crawl_url] and [get_crawl_history] *)

(** C5: on a client whose key is not set ([None]), [crawl_url] and
    [get_crawl_history] return [None] at once: they print one line, leave
    the client as it is and send no request. *)
Theorem no_key_no_request (net : Transport) (c : CrawlioClient) (l : log)
  (url : string) (options : json) :
  api_key c = JNull ->
  crawl_url net url options (mkState c l)
  = (Ret JNull,
     mkState c (Print [Lit "No API key available. Please register first."] :: l))
  /\ requests_of (out (snd (crawl_url net url options (mkState c l))))
     = requests_of l
  /\ get_crawl_history net (mkState c l)
     = (Ret JNull,
        mkState c (Print [Lit "No API key available. Please register first."] :: l))
  /\ requests_of (out (snd (get_crawl_history net (mkState c l))))
     = requests_of l.
Proof.
  intros Hkey.
  assert (Hfalsy : truthy (api_key c) = false) by (rewrite Hkey; reflexivity).
  rewrite (crawl_url_no_key net c l url options Hfalsy).
  rewrite (get_crawl_history_no_key net c l Hfalsy).
  cbn. repeat split.
Qed.

Lemma no_key_no_request_witness :
  crawl_url (respond 200 (Decoded (JObj []))) "https://www.wikipedia.org/"
    crawl_options (mkState (demo_client JNull) [])
  = (Ret JNull,
     mkState (demo_client JNull)
       [Print [Lit "No API key available. Please register first."]]).
Proof.
  exact (proj1 (no_key_no_request (respond 200 (Decoded (JObj [])))
                  (demo_client JNull) [] "https://www.wikipedia.org/"
                  crawl_options eq_refl)).
Defined.

(** C10: the presence check is a truth test, so a client whose key was
    assigned the empty string is refused like one without a key: both
    methods return [None], print the same line and send no request. *)
Theorem empty_key_is_no_key (net : Transport) (c : CrawlioClient) (l : log)
  (url : string) (options : json) :
  api_key c = JStr EmptyString ->
  crawl_url net url options (mkState c l)
  = (Ret JNull,
     mkState c (Print [Lit "No API key available. Please register first."] :: l))
  /\ requests_of (out (snd (crawl_url net url options (mkState c l))))
     = requests_of l
  /\ get_crawl_history net (mkState c l)
     = (Ret JNull,
        mkState c (Print [Lit "No API key available. Please register first."] :: l))
  /\ requests_of (out (snd (get_crawl_history net (mkState c l))))
     = requests_of l.
Proof.
  intros Hkey.
  assert (Hfalsy : truthy (api_key c) = false) by (rewrite Hkey; reflexivity).
  rewrite (crawl_url_no_key net c l url options Hfalsy).
  rewrite (get_crawl_history_no_key net c l Hfalsy).
  cbn. repeat split.
Qed.

Lemma empty_key_is_no_key_witness :
  get_crawl_history (respond 200 (Decoded (JObj [])))
    (mkState (demo_client (JStr EmptyString)) [])
  = (Ret JNull,
     mkState (demo_client (JStr EmptyString))
       [Print [Lit "No API key available. Please register first."]]).
Proof.
  exact (proj1 (proj2 (proj2
           (empty_key_is_no_key (respond 200 (Decoded (JObj [])))
              (demo_client (JStr EmptyString)) [] "https://www.wikipedia.org/"
              crawl_options eq_refl)))).
Defined.

(** ** Which fields the methods write *)

Section Frame.

Variable net : Transport.

Lemma crawl_url_frame (s : cstate) (url : string) (options : json) :
  self (snd (crawl_url net url options s)) = self s
  /\ key_writes (out (snd (crawl_url net url options s))) = key_writes (out s).
Proof.
  destruct s as [c l]. cbn [self out].
  destruct (truthy (api_key c)) eqn:Hkey.
  - destruct (net (requests_of l) (crawl_request c url options))
      as [r | msg resp] eqn:Hnet.
    + destruct (failing_or_ok r) as [Hbad | Hok].
      * destruct (crawl_url_failing net c l url options Hkey) as (m & lines & E).
        { rewrite Hnet. exact Hbad. }
        rewrite E. cbn [snd self out]. rewrite key_writes_prints. now cbn.
      * destruct (resp_json r) as [doc | m | m | m] eqn:Hjson.
        -- rewrite (crawl_url_decoded net c l url options r doc Hkey Hnet Hok Hjson).
           now cbn.
        -- rewrite (crawl_url_undecodable net c l url options r m Hkey Hnet Hok Hjson).
           now cbn.
        -- rewrite (crawl_url_decode_error net c l url options r (ValueError m)
                      Hkey Hnet Hok); [now cbn | now rewrite Hjson].
        -- rewrite (crawl_url_decode_error net c l url options r (RecursionError m)
                      Hkey Hnet Hok); [now cbn | now rewrite Hjson].
    + destruct (crawl_url_failing net c l url options Hkey) as (m & lines & E).
      { rewrite Hnet. exact I. }
      rewrite E. cbn [snd self out]. rewrite key_writes_prints. now cbn.
  - rewrite (crawl_url_no_key net c l url options Hkey). now cbn.
Qed.

Lemma get_crawl_history_frame (s : cstate) :
  self (snd (get_crawl_history net s)) = self s
  /\ key_writes (out (snd (get_crawl_history net s))) = key_writes (out s).
Proof.
  destruct s as [c l]. cbn [self out].
  destruct (truthy (api_key c)) eqn:Hkey.
  - destruct (net (requests_of l) (history_request c)) as [r | msg resp] eqn:Hnet.
    + destruct (failing_or_ok r) as [Hbad | Hok].
      * destruct (get_crawl_history_failing net c l Hkey) as (m & E).
        { rewrite Hnet. exact Hbad. }
        rewrite E. now cbn.
      * destruct (resp_json r) as [doc | m | m | m] eqn:Hjson.
        -- rewrite (get_crawl_history_decoded net c l r doc Hkey Hnet Hok Hjson).
           now cbn.
        -- rewrite (get_crawl_history_undecodable net c l r m Hkey Hnet Hok Hjson).
           now cbn.
        -- rewrite (get_crawl_history_decode_error net c l r (ValueError m)
                      Hkey Hnet Hok); [now cbn | now rewrite Hjson].
        -- rewrite (get_crawl_history_decode_error net c l r (RecursionError m)
                      Hkey Hnet Hok); [now cbn | now rewrite Hjson].
    + destruct (get_crawl_history_failing net c l Hkey) as (m & E).
      { rewrite Hnet. exact I. }
      rewrite E. now cbn.
  - rewrite (get_crawl_history_no_key net c l Hkey). now cbn.
Qed.

Lemma is_dict_or_not (doc : json) :
  (exists kvs, doc = JObj kvs) \/ (forall kvs, doc <> JObj kvs).
Proof.
  destruct doc; try (right; intros kvs' E; discriminate E).
  left. eexists. reflexivity.
Qed.

Lemma register_user_frame (s : cstate)
  (email password first_name last_name : string) :
  base_url (self (snd (register_user net email password first_name last_name s)))
  = base_url (self s)
  /\ session (self (snd (register_user net email password first_name last_name s)))
     = session (self s)
  /\ key_writes (out (snd (register_user net email password first_name last_name s)))
     <= S (key_writes (out s)).
Proof.
  destruct s as [c l]. cbn [self out].
  destruct (net (requests_of l)
              (register_request c email password first_name last_name))
    as [r | msg resp] eqn:Hnet.
  - destruct (failing_or_ok r) as [Hbad | Hok].
    + destruct (register_user_failing net c l email password first_name last_name)
        as (m & lines & E).
      { rewrite Hnet. exact Hbad. }
      rewrite E. cbn [snd self out]. rewrite key_writes_prints. cbn. auto.
    + destruct (resp_json r) as [doc | m | m | m] eqn:Hjson.
      * destruct (is_dict_or_not doc) as [[kvs ->] | Hdoc].
        -- rewrite (register_user_dict net c l email password first_name
                      last_name r kvs Hnet Hok Hjson).
           cbn [snd self out base_url session].
           destruct (truthy (key_of kvs)); cbn; auto.
        -- destruct (register_user_not_a_dict net c l email password first_name
                       last_name r doc Hnet Hok Hjson Hdoc) as (m & E).
           rewrite E. cbn. auto.
      * rewrite (register_user_undecodable net c l email password first_name
                   last_name r m Hnet Hok Hjson).
        cbn. auto.
      * rewrite (register_user_decode_error net c l email password first_name
                   last_name r (ValueError m) Hnet Hok);
          [cbn; auto | now rewrite Hjson].
      * rewrite (register_user_decode_error net c l email password first_name
                   last_name r (RecursionError m) Hnet Hok);
          [cbn; auto | now rewrite Hjson].
  - destruct (register_user_failing net c l email password first_name last_name)
      as (m & lines & E).
    { rewrite Hnet. exact I. }
    rewrite E. cbn [snd self out]. rewrite key_writes_prints. cbn. auto.
Qed.

End Frame.

(** C9: whatever the state and the reply, [crawl_url] and
    [get_crawl_history] leave the client (key, base address, session) as it
    was and assign the key not once; [register_user] leaves the base address
    and the session as they were and assigns the key at most once. *)
Theorem only_register_user_writes_the_key (net : Transport) (s : cstate)
  (url : string) (options : json)
  (email password first_name last_name : string) :
  (self (snd (crawl_url net url options s)) = self s
   /\ key_writes (out (snd (crawl_url net url options s))) = key_writes (out s))
  /\ (self (snd (get_crawl_history net s)) = self s
      /\ key_writes (out (snd (get_crawl_history net s))) = key_writes (out s))
  /\ (base_url (self (snd (register_user net email password first_name last_name s)))
      = base_url (self s)
      /\ session (self (snd (register_user net email password first_name last_name s)))
         = session (self s)
      /\ key_writes (out (snd (register_user net email password first_name last_name s)))
         <= S (key_writes (out s))).
Proof.
  split; [apply crawl_url_frame | split].
  - apply get_crawl_history_frame.
  - apply register_user_frame.
Qed.

(** ** Failing replies *)

(** C7, as stated, fails: a status outside 2xx need not be one that
    [raise_for_status] rejects.  With status 300 and a body that holds a
    key, [register_user] reports success and [crawl_url] returns the body. *)
Lemma status_300_is_taken_as_success :
  let body := JObj [("api_key", JStr "k-123")] in
  ~ (200 <= 300 < 300)%Z
  /\ fst (register_user (respond 300 (Decoded body)) "a@example.com" "pw" "A" "B"
            (mkState (demo_client JNull) []))
     = Ret true
  /\ fst (crawl_url (respond 300 (Decoded body)) "https://www.wikipedia.org/"
            crawl_options (mkState (demo_client (JStr "k-123")) []))
     = Ret body.
Proof. cbv zeta. split; [lia | split; reflexivity]. Qed.

(** C7, amended: when the transport raises or the status is 4xx or 5xx,
    [register_user] returns [False] and [crawl_url] and [get_crawl_history]
    return [None]; each returns normally, so no error leaves the method.  A
    response of any other status, 1xx and 3xx as well as 2xx, is taken as a
    success: the body is decoded and used, so [register_user] stores the key
    of a dict body and returns whether it is true, and the two other methods
    return the decoded document. *)
Theorem failing_reply_gives_failure_result (net : Transport)
  (c : CrawlioClient) (l : log) (url : string) (options : json)
  (email password first_name last_name : string) :
  (failing (net (requests_of l)
              (register_request c email password first_name last_name)) ->
   fst (register_user net email password first_name last_name (mkState c l))
   = Ret false)
  /\ (failing (net (requests_of l) (crawl_request c url options)) ->
      fst (crawl_url net url options (mkState c l)) = Ret JNull)
  /\ (failing (net (requests_of l) (history_request c)) ->
      fst (get_crawl_history net (mkState c l)) = Ret JNull)
  /\ (forall r kvs,
        net (requests_of l)
          (register_request c email password first_name last_name)
        = Responded r ->
        (status_code r < 400 \/ 600 <= status_code r)%Z ->
        resp_json r = Decoded (JObj kvs) ->
        fst (register_user net email password first_name last_name (mkState c l))
        = Ret (truthy (key_of kvs))
        /\ api_key (self (snd (register_user net email password first_name
                                 last_name (mkState c l))))
           = key_of kvs)
  /\ (forall r doc,
        truthy (api_key c) = true ->
        net (requests_of l) (crawl_request c url options) = Responded r ->
        (status_code r < 400 \/ 600 <= status_code r)%Z ->
        resp_json r = Decoded doc ->
        fst (crawl_url net url options (mkState c l)) = Ret doc)
  /\ (forall r doc,
        truthy (api_key c) = true ->
        net (requests_of l) (history_request c) = Responded r ->
        (status_code r < 400 \/ 600 <= status_code r)%Z ->
        resp_json r = Decoded doc ->
        fst (get_crawl_history net (mkState c l)) = Ret doc).
Proof.
  split; [| split; [| split; [| split; [| split]]]].
  - intros H.
    rewrite (register_user_failure net c l email password first_name last_name H).
    reflexivity.
  - intros H. destruct (truthy (api_key c)) eqn:Hkey.
    + rewrite (crawl_url_failure net c l url options Hkey H). reflexivity.
    + rewrite (crawl_url_no_key net c l url options Hkey). reflexivity.
  - intros H. destruct (truthy (api_key c)) eqn:Hkey.
    + rewrite (get_crawl_history_failure net c l Hkey H). reflexivity.
    + rewrite (get_crawl_history_no_key net c l Hkey). reflexivity.
  - intros r kvs Hnet Hstatus Hjson.
    rewrite (register_user_dict net c l email password first_name last_name
               r kvs Hnet (resp_ok_outside r Hstatus) Hjson).
    split; reflexivity.
  - intros r doc Hkey Hnet Hstatus Hjson.
    rewrite (crawl_url_decoded net c l url options r doc Hkey Hnet
               (resp_ok_outside r Hstatus) Hjson).
    reflexivity.
  - intros r doc Hkey Hnet Hstatus Hjson.
    rewrite (get_crawl_history_decoded net c l r doc Hkey Hnet
               (resp_ok_outside r Hstatus) Hjson).
    reflexivity.
Qed.

Lemma failing_reply_gives_failure_result_witness :
  fst (register_user (respond 503 (Undecodable "-")) "a@example.com" "pw" "A" "B"
         (mkState (demo_client JNull) []))
  = Ret false
  /\ fst (crawl_url net_down "https://www.wikipedia.org/" crawl_options
            (mkState (demo_client (JStr "k-123")) []))
     = Ret JNull
  /\ fst (get_crawl_history (respond 404 (Decoded (JObj [])))
            (mkState (demo_client (JStr "k-123")) []))
     = Ret JNull
  /\ fst (get_crawl_history (respond 304 (Decoded (JObj [("jobs", JArr [])])))
            (mkState (demo_client (JStr "k-123")) []))
     = Ret (JObj [("jobs", JArr [])]).
Proof.
  split; [| split; [| split]].
  - apply (proj1 (failing_reply_gives_failure_result
                    (respond 503 (Undecodable "-")) (demo_client JNull) []
                    "https://www.wikipedia.org/" crawl_options
                    "a@example.com" "pw" "A" "B")).
    cbn. lia.
  - apply (proj1 (proj2 (failing_reply_gives_failure_result
                    net_down (demo_client (JStr "k-123")) []
                    "https://www.wikipedia.org/" crawl_options
                    "a@example.com" "pw" "A" "B"))).
    exact I.
  - apply (proj1 (proj2 (proj2 (failing_reply_gives_failure_result
                    (respond 404 (Decoded (JObj []))) (demo_client (JStr "k-123")) []
                    "https://www.wikipedia.org/" crawl_options
                    "a@example.com" "pw" "A" "B")))).
    cbn. lia.
  - apply (proj2 (proj2 (proj2 (proj2 (proj2 (failing_reply_gives_failure_result
                    (respond 304 (Decoded (JObj [("jobs", JArr [])])))
                    (demo_client (JStr "k-123")) []
                    "https://www.wikipedia.org/" crawl_options
                    "a@example.com" "pw" "A" "B"))))) _ _ eq_refl eq_refl).
    + cbn. lia.
    + reflexivity.
Defined.

(** ** Registration and the key *)

(** C2, as stated, fails: a client that holds a key and gets a success
    response without the field reports failure and has lost its key. *)
Lemma failed_registration_clears_the_key :
  let s := mkState (demo_client (JStr "old-key")) [] in
  let run := register_user (respond 200 (Decoded (JObj [("user", JStr "a")])))
               "a@example.com" "pw" "A" "B" s in
  fst run = Ret false
  /\ api_key (self s) = JStr "old-key"
  /\ api_key (self (snd run)) = JNull.
Proof. cbv zeta. repeat split. Qed.

(** C2, amended: when the transport raises or the status is 4xx or 5xx,
    [register_user] returns [False] and leaves the client, its key
    included, as it was.  On a success response whose body is a dict the key
    is overwritten with the value of the field, [None] when the field is
    missing, and the call returns whether that value is true; so a body
    without the field leaves the key unset and the call returns [False],
    whatever key was held before. *)
Theorem register_user_key_effect (net : Transport) (c : CrawlioClient) (l : log)
  (email password first_name last_name : string) :
  let run := register_user net email password first_name last_name (mkState c l) in
  let reply := net (requests_of l)
                 (register_request c email password first_name last_name) in
  (failing reply -> fst run = Ret false /\ self (snd run) = c)
  /\ (forall r kvs,
        reply = Responded r -> resp_ok r = true ->
        resp_json r = Decoded (JObj kvs) ->
        fst run = Ret (truthy (key_of kvs))
        /\ api_key (self (snd run)) = key_of kvs)
  /\ (forall r kvs,
        reply = Responded r -> resp_ok r = true ->
        resp_json r = Decoded (JObj kvs) ->
        dict_lookup "api_key" kvs = None ->
        fst run = Ret false /\ api_key (self (snd run)) = JNull).
Proof.
  cbv zeta. split; [| split].
  - intros H.
    destruct (register_user_failing net c l email password first_name last_name H)
      as (m & lines & E).
    rewrite E. split; reflexivity.
  - intros r kvs Hnet Hok Hjson.
    rewrite (register_user_dict net c l email password first_name last_name
               r kvs Hnet Hok Hjson).
    split; reflexivity.
  - intros r kvs Hnet Hok Hjson Hnone.
    rewrite (register_user_dict net c l email password first_name last_name
               r kvs Hnet Hok Hjson).
    unfold key_of. rewrite Hnone. split; reflexivity.
Qed.

Lemma register_user_key_effect_witness :
  fst (register_user net_down "a@example.com" "pw" "A" "B"
         (mkState (demo_client (JStr "old-key")) []))
  = Ret false
  /\ self (snd (register_user net_down "a@example.com" "pw" "A" "B"
                  (mkState (demo_client (JStr "old-key")) [])))
     = demo_client (JStr "old-key").
Proof.
  exact (proj1 (register_user_key_effect net_down (demo_client (JStr "old-key"))
                  [] "a@example.com" "pw" "A" "B") I).
Defined.

(** C6, as stated, fails: a success response whose body holds the field
    with an empty string makes [register_user] return [False]. *)
Lemma empty_key_field_reports_failure :
  let body := JObj [("api_key", JStr EmptyString)] in
  dict_lookup "api_key" [("api_key", JStr EmptyString)] = Some (JStr EmptyString)
  /\ fst (register_user (respond 200 (Decoded body)) "a@example.com" "pw" "A" "B"
            (mkState (demo_client JNull) []))
     = Ret false.
Proof. cbv zeta. split; reflexivity. Qed.

(** C6, amended: for all four input strings, after a success response
    whose body is a dict that holds the field, the stored key equals the
    value of the field; the call returns [True] when that value is true (a
    string that is not empty) and [False] otherwise. *)
Theorem register_user_stores_the_field (net : Transport) (c : CrawlioClient)
  (l : log) (email password first_name last_name : string)
  (r : Response) (kvs : list (string * json)) (v : json) :
  net (requests_of l) (register_request c email password first_name last_name)
  = Responded r ->
  resp_ok r = true ->
  resp_json r = Decoded (JObj kvs) ->
  dict_lookup "api_key" kvs = Some v ->
  api_key (self (snd (register_user net email password first_name last_name
                        (mkState c l)))) = v
  /\ fst (register_user net email password first_name last_name (mkState c l))
     = Ret (truthy v)
  /\ (forall key, v = JStr key -> key <> EmptyString ->
      fst (register_user net email password first_name last_name (mkState c l))
      = Ret true).
Proof.
  intros Hnet Hok Hjson Hv.
  rewrite (register_user_dict net c l email password first_name last_name
             r kvs Hnet Hok Hjson).
  unfold key_of. rewrite Hv. cbn [fst snd self api_key].
  split; [reflexivity | split; [reflexivity |]].
  intros key -> Hkey. cbn.
  destruct (String.eqb_spec key EmptyString) as [E | _]; [contradiction | reflexivity].
Qed.

Lemma register_user_stores_the_field_witness :
  api_key (self (snd (register_user
                        (respond 201 (Decoded (JObj [("api_key", JStr "k-123")])))
                        "a@example.com" "pw" "A" "B"
                        (mkState (demo_client JNull) []))))
  = JStr "k-123".
Proof.
  exact (proj1 (register_user_stores_the_field
                  (respond 201 (Decoded (JObj [("api_key", JStr "k-123")])))
                  (demo_client JNull) [] "a@example.com" "pw" "A" "B"
                  _ [("api_key", JStr "k-123")] (JStr "k-123")
                  eq_refl eq_refl eq_refl eq_refl)).
Defined.

(** ** One outcome for every cause of failure? *)

(** C3, as stated, fails: [crawl_url] and [get_crawl_history] do not look
    into the body, so a success response that lacks every expected field is
    returned as the result, which is true, and the line printed last
    announces success. *)
Lemma unexpected_body_is_returned_as_success :
  let body := JObj [("unexpected", JNum 1)] in
  let c := demo_client (JStr "k-123") in
  crawl_url (respond 200 (Decoded body)) "https://www.wikipedia.org/"
    crawl_options (mkState c [])
  = (Ret body,
     mkState c [Print [Lit "Crawling completed successfully!"];
                Send (Some (session c))
                  (crawl_request c "https://www.wikipedia.org/" crawl_options);
                Print [Lit "Crawling: "; Lit "https://www.wikipedia.org/"]])
  /\ truthy body = true
  /\ fst (get_crawl_history (respond 200 (Decoded body)) (mkState c []))
     = Ret body.
Proof. cbv zeta. repeat split. Qed.

(** C3, amended: when the transport raises or the status is 4xx or 5xx,
    each of the three methods returns a false result ([False], [None]),
    leaves the client as it was and prints, after the request, a line that
    ends in the text of that error: the message of the transport's error, or
    the text of the status error.  [register_user] and [crawl_url] add a
    line of details when the error carries a response that is true.  The
    same holds, with the decoder's message and no details, when
    [Response.json()] raises the [JSONDecodeError] of [requests].  A body
    that lacks the expected field is a failure only for [register_user],
    which then returns [False], prints a line of its own and has set the key
    to [None]; [crawl_url] and [get_crawl_history] return whatever document
    the body decodes to. *)
Theorem failure_outcomes (net : Transport) (c : CrawlioClient) (l : log)
  (url : string) (options : json)
  (email password first_name last_name : string) :
  let register := register_request c email password first_name last_name in
  let crawl := crawl_request c url options in
  let history := history_request c in
  (failing (net (requests_of l) register) ->
   register_user net email password first_name last_name (mkState c l)
   = (Ret false,
      mkState c
        (error_details (error_response (net (requests_of l) register)) ++
         Print [Lit "Registration failed: ";
                Lit (error_text (net (requests_of l) register))]
         :: Send (Some (session c)) register
         :: Print [Lit "Registering user: "; Lit email] :: l)%list))
  /\ (truthy (api_key c) = true ->
      failing (net (requests_of l) crawl) ->
      crawl_url net url options (mkState c l)
      = (Ret JNull,
         mkState c
           (error_details (error_response (net (requests_of l) crawl)) ++
            Print [Lit "Crawling failed: ";
                   Lit (error_text (net (requests_of l) crawl))]
            :: Send (Some (session c)) crawl
            :: Print [Lit "Crawling: "; Lit url] :: l)%list))
  /\ (truthy (api_key c) = true ->
      failing (net (requests_of l) history) ->
      get_crawl_history net (mkState c l)
      = (Ret JNull,
         mkState c
           (Print [Lit "Failed to get history: ";
                   Lit (error_text (net (requests_of l) history))]
            :: Send (Some (session c)) history
            :: Print [Lit "Fetching crawl history..."] :: l)))
  /\ (forall r msg,
        net (requests_of l) register = Responded r ->
        resp_ok r = true ->
        resp_json r = Undecodable msg ->
        register_user net email password first_name last_name (mkState c l)
        = (Ret false,
           mkState c
             (Print [Lit "Registration failed: "; Lit msg]
              :: Send (Some (session c)) register
              :: Print [Lit "Registering user: "; Lit email] :: l)))
  /\ (forall r msg,
        truthy (api_key c) = true ->
        net (requests_of l) crawl = Responded r ->
        resp_ok r = true ->
        resp_json r = Undecodable msg ->
        crawl_url net url options (mkState c l)
        = (Ret JNull,
           mkState c
             (Print [Lit "Crawling failed: "; Lit msg]
              :: Send (Some (session c)) crawl
              :: Print [Lit "Crawling: "; Lit url] :: l)))
  /\ (forall r msg,
        truthy (api_key c) = true ->
        net (requests_of l) history = Responded r ->
        resp_ok r = true ->
        resp_json r = Undecodable msg ->
        get_crawl_history net (mkState c l)
        = (Ret JNull,
           mkState c
             (Print [Lit "Failed to get history: "; Lit msg]
              :: Send (Some (session c)) history
              :: Print [Lit "Fetching crawl history..."] :: l)))
  /\ (forall r kvs,
        net (requests_of l) register = Responded r ->
        resp_ok r = true ->
        resp_json r = Decoded (JObj kvs) ->
        dict_lookup "api_key" kvs = None ->
        register_user net email password first_name last_name (mkState c l)
        = (Ret false,
           mkState (mkClient (base_url c) JNull (session c))
             (Print [Lit "Registration failed - no API key received"]
              :: SetApiKey JNull
              :: Send (Some (session c)) register
              :: Print [Lit "Registering user: "; Lit email] :: l)))
  /\ (forall r doc,
        truthy (api_key c) = true ->
        net (requests_of l) crawl = Responded r ->
        resp_ok r = true ->
        resp_json r = Decoded doc ->
        fst (crawl_url net url options (mkState c l)) = Ret doc)
  /\ (forall r doc,
        truthy (api_key c) = true ->
        net (requests_of l) history = Responded r ->
        resp_ok r = true ->
        resp_json r = Decoded doc ->
        fst (get_crawl_history net (mkState c l)) = Ret doc).
Proof.
  cbv zeta. repeat split.
  - apply register_user_failure.
  - apply crawl_url_failure.
  - apply get_crawl_history_failure.
  - apply register_user_undecodable.
  - apply crawl_url_undecodable.
  - apply get_crawl_history_undecodable.
  - intros r kvs Hnet Hok Hjson Hnone.
    rewrite (register_user_dict net c l email password first_name last_name
               r kvs Hnet Hok Hjson).
    unfold key_of. rewrite Hnone. reflexivity.
  - intros r doc Hkey Hnet Hok Hjson.
    rewrite (crawl_url_decoded net c l url options r doc Hkey Hnet Hok Hjson).
    reflexivity.
  - intros r doc Hkey Hnet Hok Hjson.
    rewrite (get_crawl_history_decoded net c l r doc Hkey Hnet Hok Hjson).
    reflexivity.
Qed.

Lemma failure_outcomes_witness :
  let c := demo_client (JStr "k-123") in
  get_crawl_history net_down (mkState c [])
  = (Ret JNull,
     mkState c
       [Print [Lit "Failed to get history: "; Lit "Connection refused"];
        Send (Some (SessionHandle 0)) (history_request c);
        Print [Lit "Fetching crawl history..."]])
  /\ crawl_url (respond 404 (Decoded (JObj [("error", JStr "no such page")])))
       "https://www.wikipedia.org/" JNull (mkState c [])
     = (Ret JNull,
        mkState c
          [Print [Lit "Crawling failed: ";
                  Lit "404 Client Error: - for url: http://localhost:3002/api/crawl/url"];
           Send (Some (SessionHandle 0))
             (crawl_request c "https://www.wikipedia.org/" JNull);
           Print [Lit "Crawling: "; Lit "https://www.wikipedia.org/"]]).
Proof.
  cbv zeta. split.
  - exact (proj1 (proj2 (proj2
             (failure_outcomes net_down (demo_client (JStr "k-123")) []
                "https://www.wikipedia.org/" crawl_options
                "a@example.com" "pw" "A" "B")))
           eq_refl I).
  - refine (proj1 (proj2
             (failure_outcomes
                (respond 404 (Decoded (JObj [("error", JStr "no such page")])))
                (demo_client (JStr "k-123")) []
                "https://www.wikipedia.org/" JNull
                "a@example.com" "pw" "A" "B"))
           eq_refl _).
    cbn. lia.
Defined.

(** ** The text preview of the three scripts *)

Lemma substring_all (s : string) (n : nat) :
  String.length s <= n -> String.substring 0 n s = s.
Proof.
  revert n. induction s as [|a s IH]; intros n H.
  - destruct n; reflexivity.
  - destruct n as [|n]; cbn in *; [lia |].
    rewrite IH by lia. reflexivity.
Qed.

Lemma length_append (s t : string) :
  String.length (s ++ t) = String.length s + String.length t.
Proof. induction s as [|a s IH]; cbn; [reflexivity | now rewrite IH]. Qed.

Lemma marked_is_not_plain (s : string) : s ++ "..." <> s.
Proof.
  intros E. apply (f_equal String.length) in E.
  rewrite length_append in E. cbn in E. lia.
Qed.

(** X1: The preview of [crawlio_client.py]: cut and marked above 200
    characters, the text itself otherwise. *)
Lemma crawlio_client_preview {S} (text : string) (s : S) :
  crawlio_client.text_preview (JStr text) s
  = (Ret (JStr (if Nat.ltb 200 (String.length text)
                then String.substring 0 200 text ++ "..."
                else text)), s).
Proof.
  unfold crawlio_client.text_preview, bind, py_len, ret. cbv beta iota.
  destruct (Nat.ltb 200 (String.length text)); reflexivity.
Qed.

(** X2: The preview of [crawl_wiki.py]: cut and marked above 200
    characters, the text itself otherwise. *)
Lemma crawl_wiki_preview {S} (text : string) (s : S) :
  crawl_wiki.text_preview (JStr text) s
  = (Ret (JStr (if Nat.ltb 200 (String.length text)
                then String.substring 0 200 text ++ "..."
                else text)), s).
Proof.
  unfold crawl_wiki.text_preview, bind, py_len, ret. cbv beta iota.
  destruct (Nat.ltb 200 (String.length text)); reflexivity.
Qed.

(** X3: The preview of [simple_crawler.py] is marked whatever the length: a
    text of 200 characters or fewer comes out with the marker added. *)
Lemma simple_crawler_preview {S} (text : string) (s : S) :
  simple_crawler.text_preview (JStr text) s
  = (Ret (JStr (String.substring 0 200 text ++ "...")), s)
  /\ (String.length text <= 200 ->
      simple_crawler.text_preview (JStr text) s
      = (Ret (JStr (text ++ "...")), s)
      /\ text ++ "..." <> text).
Proof.
  split; [reflexivity |].
  intros H. split; [| apply marked_is_not_plain].
  unfold simple_crawler.text_preview, bind, py_slice_to, py_add_str, ret.
  rewrite (substring_all text 200 H). reflexivity.
Qed.

(** C1, at the failing input: for the text [Hello], five characters long,
    [crawl_with_api_key] prints the preview with the marker added, where
    the two other scripts print the text as it is. *)
Theorem simple_crawler_marks_a_short_preview :
  let body := JObj [("data", JObj [("text", JStr "Hello")])] in
  simple_crawler.crawl_with_api_key (respond 200 (Decoded body))
    "k-123" "https://www.wikipedia.org/" "http://localhost:3002" []
  = (Ret body,
     [Print [Lit "Text Preview: "; Lit "Hello..."];
      Print [Lit "Crawling completed successfully!"];
      Send None (simple_crawler.post_request "k-123" "https://www.wikipedia.org/"
                   "http://localhost:3002");
      Print [Lit "Crawling: "; Lit "https://www.wikipedia.org/"]])
  /\ crawlio_client.print_summary body []
     = (Ret tt,
        [Print [Lit "Text Preview: "; Lit "Hello"];
         Print [Lit (str_times "-" 25)];
         Print [Lit (nl ++ "Crawl Results Summary:")]]).
Proof. cbv zeta. split; reflexivity. Qed.

(** ** Which failures end the process *)

Lemma bind_run {S A B} (m : M S A) (k : A -> M S B) (s s' : S) (a : A) :
  m s = (Ret a, s') -> bind m k s = k a s'.
Proof. intros E. unfold bind. rewrite E. reflexivity. Qed.

Lemma call_run {A} (c : CrawlioClient) (m : M cstate A) (l : log)
  (a : A) (s : cstate) :
  m (mkState c l) = (Ret a, s) -> call c m l = (Ret (a, self s), out s).
Proof. intros E. unfold call. rewrite E. reflexivity. Qed.

(** The placeholder check of [simple_crawler.py]: the script as it stands
    prints two lines and exits with status 1; no request is sent. *)
Lemma simple_crawler_main_exits (net : Transport) (timestamp : Z) (l : log) :
  simple_crawler.main net timestamp l
  = (Raise (SystemExit 1),
     Print [Lit "Get your API key by running: python crawlio_client.py"]
     :: Print [Lit (simple_crawler.cross_mark
                    ++ " Please replace YOUR_API_KEY_HERE with your actual API key")]
     :: l).
Proof. reflexivity. Qed.

(** The registration check of [crawlio_client.py]: when [register_user]
    returns [False], for whatever cause, the driver exits with status 1. *)
Lemma crawlio_client_main_exits (net : Transport) (timestamp : Z)
  (fresh : Session) (l : log) :
  fst (register_user net (demo_email timestamp) "testpass123" "Test" "User"
         (mkState (init "http://localhost:3002" fresh) (before_registration l)))
  = Ret false ->
  fst (crawlio_client.main net timestamp fresh l) = Raise (SystemExit 1).
Proof.
  intros H. unfold crawlio_client.main, before_registration, demo_email in *.
  unfold bind at 1 2 3 4. cbn [print emit].
  unfold bind at 1. unfold call.
  destruct (register_user _ _ _ _ _ _) as [[b | e] s]; cbn in H.
  - injection H as ->. reflexivity.
  - discriminate H.
Qed.

Lemma init_default (fresh : Session) :
  init "http://localhost:3002" fresh = mkClient "http://localhost:3002" JNull fresh.
Proof. reflexivity. Qed.

Ltac step := erewrite bind_run; [| reflexivity].

(** When registration succeeds and the crawl and history requests fail,
    [crawlio_client.main] runs to its last line. *)
Lemma crawlio_client_main_survives (net : Transport) (timestamp : Z)
  (fresh : Session) (l : log) (r : Response) (kvs : list (string * json)) :
  let client := mkClient "http://localhost:3002" (key_of kvs) fresh in
  net (requests_of l)
    (register_request (init "http://localhost:3002" fresh)
       (demo_email timestamp) "testpass123" "Test" "User")
  = Responded r ->
  resp_ok r = true ->
  resp_json r = Decoded (JObj kvs) ->
  truthy (key_of kvs) = true ->
  (forall h, failing (net h (crawl_request client "https://www.wikipedia.org/"
                               crawl_options))) ->
  (forall h, failing (net h (history_request client))) ->
  fst (crawlio_client.main net timestamp fresh l) = Ret tt.
Proof.
  intros client Hnet Hok Hjson Hkey Hcrawl Hhist.
  unfold crawlio_client.main. rewrite init_default in *.
  do 4 step.
  erewrite bind_run.
  2:{ apply call_run.
      apply (register_user_dict net _ _ _ _ _ _ r kvs); [exact Hnet | exact Hok | exact Hjson]. }
  rewrite Hkey. cbn [negb when self out base_url session].
  do 3 step.
  match goal with
  | |- context [bind (call ?c (crawl_url _ ?u ?o)) _ ?L] =>
      destruct (crawl_url_failing net c L u o Hkey (Hcrawl _)) as (m & lines & E)
  end.
  erewrite bind_run; [| apply call_run; exact E].
  cbn [truthy when self out]. do 3 step.
  match goal with
  | |- context [bind (call ?c (get_crawl_history _)) _ ?L] =>
      destruct (get_crawl_history_failing net c L Hkey (Hhist _)) as (m' & E')
  end.
  erewrite bind_run; [| apply call_run; exact E'].
  cbn [truthy when self out]. do 4 step. reflexivity.
Qed.

(** When the crawl request fails, [crawl_wiki.main] prints its last line
    and ends normally. *)
Lemma crawl_wiki_main_survives (net : Transport) (fresh : Session) (l : log) :
  let client := mkClient "http://localhost:3002"
                  (JStr "0IsGoeQuG0jpWgG5ehwPkRMDWgmfyzjv") fresh in
  (forall h, failing (net h (crawl_request client "https://www.wikipedia.org/"
                               crawl_options))) ->
  exists l', crawl_wiki.main net fresh l = (Ret tt, Print [Lit "Crawl failed"] :: l').
Proof.
  intros client Hcrawl.
  unfold crawl_wiki.main. rewrite init_default.
  do 2 step.
  match goal with
  | |- context [bind (call ?c (crawl_url _ ?u ?o)) _ ?L] =>
      destruct (crawl_url_failing net c L u o eq_refl (Hcrawl _)) as (m & lines & E)
  end.
  erewrite bind_run; [| apply call_run; exact E].
  cbn [truthy self out]. eexists. reflexivity.
Qed.

Lemma crawl_with_api_key_failing (net : Transport) (api_key url base : string)
  (l : log) :
  failing (net (requests_of l) (simple_crawler.post_request api_key url base)) ->
  exists msg,
    simple_crawler.crawl_with_api_key net api_key url base l
    = (Ret JNull,
       Print [Lit (simple_crawler.cross_mark ++ " Crawling failed: "); Lit msg]
       :: Send None (simple_crawler.post_request api_key url base)
       :: Print [Lit "Crawling: "; Lit url] :: l).
Proof.
  intros H. unfold simple_crawler.crawl_with_api_key. run.
  destruct (net (requests_of l) _) as [r | msg resp]; cbn in *.
  - match goal with
    | |- context [@raise_for_status ?T r ?s] =>
        destruct (@raise_for_status_failing T r s H) as [msg Hm]
    end.
    rewrite Hm. cbn. exists msg. reflexivity.
  - exists msg. reflexivity.
Qed.

(** With the constant replaced and the crawl request failing,
    [simple_crawler]'s driver ends normally. *)
Lemma simple_crawler_main_survives (net : Transport) (timestamp : Z)
  (API_KEY : string) (l : log) :
  String.eqb API_KEY "YOUR_API_KEY_HERE" = false ->
  (forall h, failing (net h (simple_crawler.post_request API_KEY
                               "https://www.wikipedia.org/"
                               "http://localhost:3002"))) ->
  fst (simple_crawler.main_with net timestamp API_KEY l) = Ret tt.
Proof.
  intros Hkey Hcrawl. unfold simple_crawler.main_with.
  rewrite Hkey. cbn [when]. do 3 step.
  match goal with
  | |- context [bind (simple_crawler.crawl_with_api_key _ ?k ?u ?b) _ ?L] =>
      destruct (crawl_with_api_key_failing net k u b L (Hcrawl _)) as (m & E)
  end.
  erewrite bind_run; [| exact E].
  reflexivity.
Qed.




(** ** The text of a saved file *)

Lemma append_assoc (a b c : string) : (a ++ b) ++ c = a ++ (b ++ c).
Proof. induction a as [|x a IH]; cbn; [reflexivity | now rewrite IH]. Qed.

Lemma append_empty_r (a : string) : a ++ EmptyString = a.
Proof. induction a as [|x a IH]; cbn; [reflexivity | now rewrite IH]. Qed.

(** *** White space *)

Lemma skip_ws_spaces (n : nat) (s : string) :
  skip_ws (str_times " " n ++ s) = skip_ws s.
Proof. induction n as [|n IH]; cbn; [reflexivity | exact IH]. Qed.

Lemma skip_ws_newline_indent (level : nat) (s : string) :
  skip_ws (newline_indent level ++ s) = skip_ws s.
Proof.
  unfold newline_indent. rewrite append_assoc. cbn. apply skip_ws_spaces.
Qed.

(** *** String literals *)

Lemma scanstring_escape_char (c : ascii) (rest : string) :
  scanstring (escape_char c ++ rest) = push c (scanstring rest).
Proof.
  destruct c as [[|] [|] [|] [|] [|] [|] [|] [|]]; reflexivity.
Qed.

Lemma scanstring_escape (s rest : string) :
  scanstring (escape s ++ String quote rest) = Some (s, rest).
Proof.
  induction s as [|c s IH].
  - reflexivity.
  - cbn [escape]. rewrite append_assoc, scanstring_escape_char, IH. reflexivity.
Qed.

Lemma scanstring_encode (s rest : string) :
  scanstring (tail (encode_basestring s ++ rest)) = Some (s, rest).
Proof.
  unfold encode_basestring. cbn [append tail]. rewrite append_assoc.
  apply scanstring_escape.
Qed.

(** *** Integers *)

Lemma unorm_leading (d : Decimal.uint) :
  Decimal.unorm d = Decimal.zero \/ leading_nonzero (Decimal.unorm d).
Proof.
  induction d; cbn; auto.
Qed.

Lemma to_uint_leading (p : positive) : leading_nonzero (Pos.to_uint p).
Proof.
  assert (E : Pos.to_uint p = Decimal.unorm (Pos.to_uint p)).
  { pose proof (DecimalPos.Unsigned.to_of (Pos.to_uint p)) as H.
    rewrite DecimalPos.Unsigned.of_to in H. exact H. }
  destruct (unorm_leading (Pos.to_uint p)) as [H | H].
  - rewrite <- E in H. destruct (DecimalPos.Unsigned.to_uint_nonzero p H).
  - rewrite <- E in H. exact H.
Qed.

Lemma span_digits_numeral (d : Decimal.uint) (rest : string) :
  follow rest ->
  span_digits (NilEmpty.string_of_uint d ++ rest)
  = (NilEmpty.string_of_uint d, rest).
Proof.
  intros H. induction d; cbn; try (rewrite IHd; reflexivity).
  destruct H as [-> | [[r ->] | [r ->]]]; reflexivity.
Qed.

Lemma scan_numeral (d : Decimal.uint) (rest : string) (negative : bool) :
  leading_nonzero d ->
  follow rest ->
  (let (ds, rest') :=
     if next_is "0" (NilEmpty.string_of_uint d ++ rest)
     then ("0", tail (NilEmpty.string_of_uint d ++ rest))
     else span_digits (NilEmpty.string_of_uint d ++ rest) in
   match ds with
   | EmptyString => None
   | _ =>
       if next_is "." rest' || next_is "e" rest' || next_is "E" rest' then None
       else
         match NilEmpty.uint_of_string ds with
         | Some d' =>
             Some (if negative then Z.opp (Z.of_uint d') else Z.of_uint d', rest')
         | None => None
         end
   end)
  = Some (if negative then Z.opp (Z.of_uint d) else Z.of_uint d, rest).
Proof.
  intros Hd Hrest.
  assert (Hnz : next_is "0" (NilEmpty.string_of_uint d ++ rest) = false)
    by (destruct d; cbn in Hd; try contradiction; reflexivity).
  rewrite Hnz, (span_digits_numeral d rest Hrest).
  assert (Hne : exists c r, NilEmpty.string_of_uint d = String c r)
    by (destruct d; cbn in Hd; try contradiction; eexists; eexists; reflexivity).
  destruct Hne as (c & r & E). rewrite E at 1.
  assert (Hfrac : next_is "." rest || next_is "e" rest || next_is "E" rest = false)
    by (destruct Hrest as [-> | [[r' ->] | [r' ->]]]; reflexivity).
  rewrite Hfrac, NilEmpty.usu. reflexivity.
Qed.

Lemma scan_int_str_of_Z (n : Z) (rest : string) :
  follow rest ->
  scan_int (str_of_Z n ++ rest) = Some (n, rest).
Proof.
  intros Hrest. destruct n as [|p|p].
  - cbn. destruct Hrest as [-> | [[r' ->] | [r' ->]]]; reflexivity.
  - pose proof (to_uint_leading p) as Hd.
    pose proof (DecimalZ.of_to (Z.pos p)) as Hz. cbn in Hz.
    unfold str_of_Z, scan_int. cbn [Z.to_int NilZero.string_of_int].
    assert (E : NilZero.string_of_uint (Pos.to_uint p)
                = NilEmpty.string_of_uint (Pos.to_uint p))
      by (destruct (Pos.to_uint p); cbn in Hd; try contradiction; reflexivity).
    rewrite E.
    assert (Hminus : next_is "-" (NilEmpty.string_of_uint (Pos.to_uint p) ++ rest)
                     = false)
      by (destruct (Pos.to_uint p); cbn in Hd; try contradiction; reflexivity).
    rewrite Hminus. cbv zeta.
    rewrite (scan_numeral (Pos.to_uint p) rest false Hd Hrest).
    rewrite Hz. reflexivity.
  - pose proof (to_uint_leading p) as Hd.
    pose proof (DecimalZ.of_to (Z.neg p)) as Hz. cbn in Hz.
    unfold str_of_Z, scan_int. cbn [Z.to_int NilZero.string_of_int].
    assert (E : NilZero.string_of_uint (Pos.to_uint p)
                = NilEmpty.string_of_uint (Pos.to_uint p))
      by (destruct (Pos.to_uint p); cbn in Hd; try contradiction; reflexivity).
    rewrite E. cbn [append next_is tail]. cbv zeta.
    change (Ascii.eqb "-" "-") with true. cbv iota.
    rewrite (scan_numeral (Pos.to_uint p) rest true Hd Hrest).
    rewrite Hz. reflexivity.
Qed.

Lemma str_of_Z_head (n : Z) :
  exists c r, str_of_Z n = String c r
              /\ is_digit c || Ascii.eqb c "-" = true.
Proof.
  destruct n as [|p|p].
  - exists "0"%char, EmptyString. split; reflexivity.
  - pose proof (to_uint_leading p) as Hd.
    unfold str_of_Z. cbn [Z.to_int NilZero.string_of_int].
    destruct (Pos.to_uint p); cbn in Hd; try contradiction;
      eexists; eexists; (split; [reflexivity | reflexivity]).
  - unfold str_of_Z. cbn [Z.to_int NilZero.string_of_int].
    eexists; eexists; (split; [reflexivity | reflexivity]).
Qed.

(** *** Dicts *)

Lemma dict_set_fresh (k : string) (v : json) (kvs : list (string * json)) :
  existsb (String.eqb k) (map fst kvs) = false ->
  dict_set k v kvs = (kvs ++ [(k, v)])%list.
Proof.
  induction kvs as [|[k' v'] kvs IH]; cbn; intros H.
  - reflexivity.
  - apply orb_false_iff in H. destruct H as [H1 H2].
    rewrite H1, (IH H2). reflexivity.
Qed.

Lemma distinct_snoc (ks : list string) (k : string) :
  distinct (ks ++ [k])%list = distinct ks && negb (existsb (String.eqb k) ks).
Proof.
  induction ks as [|a ks IH]; cbn.
  - reflexivity.
  - rewrite IH, existsb_app. cbn. rewrite orb_false_r.
    rewrite (String.eqb_sym a k).
    destruct (existsb (String.eqb a) ks), (String.eqb k a),
      (distinct ks), (existsb (String.eqb k) ks); reflexivity.
Qed.

Lemma fold_dict_set (pairs acc : list (string * json)) :
  distinct (map fst (acc ++ pairs)%list) = true ->
  fold_left (fun d kv => dict_set (fst kv) (snd kv) d) pairs acc
  = (acc ++ pairs)%list.
Proof.
  revert acc. induction pairs as [|[k v] pairs IH]; intros acc H; cbn.
  - now rewrite List.app_nil_r.
  - assert (E : (acc ++ (k, v) :: pairs = (acc ++ [(k, v)]) ++ pairs)%list)
      by (rewrite <- List.app_assoc; reflexivity).
    rewrite E in H |- *.
    assert (Hk : existsb (String.eqb k) (map fst acc) = false).
    { rewrite map_app in H. 
      assert (Hd : distinct (map fst (acc ++ [(k, v)])%list) = true).
      { clear - H. revert H. generalize (map fst (acc ++ [(k, v)])%list) as a.
        induction a as [|x a IHa]; cbn; intros H; [reflexivity |].
        apply andb_true_iff in H. destruct H as [H1 H2].
        rewrite existsb_app in H1. apply negb_true_iff, orb_false_iff in H1.
        destruct H1 as [H1 _]. rewrite H1, (IHa H2). reflexivity. }
      rewrite map_app in Hd. cbn in Hd. rewrite distinct_snoc in Hd.
      apply andb_true_iff in Hd. destruct Hd as [_ Hd].
      now apply negb_true_iff in Hd. }
    rewrite (dict_set_fresh k v acc Hk). apply IH. exact H.
Qed.

Lemma dict_of_pairs_distinct (kvs : list (string * json)) :
  distinct (map fst kvs) = true -> dict_of_pairs kvs = kvs.
Proof. intros H. unfold dict_of_pairs. now rewrite fold_dict_set. Qed.

(** *** The first character of a value *)

Lemma encode_opens_value (level : nat) (v : json) (rest : string) :
  opens_value (encode level v ++ rest).
Proof.
  unfold opens_value.
  destruct v as [| [|] | n | s | [|x xs] | [|[k x] kvs]]; cbn [encode];
    try (cbn; eexists; eexists; repeat split; reflexivity).
  destruct n as [|p|p].
  - cbn. eexists; eexists; repeat split; reflexivity.
  - pose proof (to_uint_leading p) as Hd.
    unfold str_of_Z. cbn [Z.to_int NilZero.string_of_int].
    destruct (Pos.to_uint p); cbn in Hd; try contradiction;
      cbn; eexists; eexists; repeat split; reflexivity.
  - unfold str_of_Z. cbn [Z.to_int NilZero.string_of_int].
    cbn. eexists; eexists; repeat split; reflexivity.
Qed.

Lemma skip_ws_opens (s : string) : opens_value s -> skip_ws s = s.
Proof. intros (c & r & -> & H & _). cbn. now rewrite H. Qed.

Lemma next_is_opens (s : string) :
  opens_value s -> next_is "]" s = false /\ next_is "}" s = false.
Proof. intros (c & r & -> & _ & H1 & H2). cbn. auto. Qed.

(** *** One step of each scanner *)

Lemma scan_items_step (fuel : nat) (s : string) :
  scan_items (S fuel) s
  = match scan_value fuel s with
    | Some (v, r) =>
        let r := skip_ws r in
        if next_is "]" r then Some ([v], tail r)
        else if next_is "," r then
          match scan_items fuel (skip_ws (tail r)) with
          | Some (vs, r') => Some (v :: vs, r')
          | None => None
          end
        else None
    | None => None
    end.
Proof. reflexivity. Qed.

Lemma scan_members_step (fuel : nat) (s : string) :
  scan_members (S fuel) s
  = if next_is quote s then
      match scanstring (tail s) with
      | Some (k, r) =>
          let r := skip_ws r in
          if next_is ":" r then
            match scan_value fuel (skip_ws (tail r)) with
            | Some (v, r) =>
                let r := skip_ws r in
                if next_is "}" r then Some ([(k, v)], tail r)
                else if next_is "," r then
                  match scan_members fuel (skip_ws (tail r)) with
                  | Some (kvs, r') => Some ((k, v) :: kvs, r')
                  | None => None
                  end
                else None
            | None => None
            end
          else None
      | None => None
      end
    else None.
Proof. reflexivity. Qed.

Lemma scan_value_array (fuel : nat) (rest : string) :
  scan_value (S fuel) (String "[" rest)
  = let r := skip_ws rest in
    if next_is "]" r then Some (JArr [], tail r)
    else
      match scan_items fuel r with
      | Some (xs, r') => Some (JArr xs, r')
      | None => None
      end.
Proof. reflexivity. Qed.

Lemma scan_value_object (fuel : nat) (rest : string) :
  scan_value (S fuel) (String "{" rest)
  = let r := skip_ws rest in
    if next_is "}" r then Some (JObj [], tail r)
    else
      match scan_members fuel r with
      | Some (pairs, r') => Some (JObj (dict_of_pairs pairs), r')
      | None => None
      end.
Proof. reflexivity. Qed.

Lemma scan_value_number (fuel : nat) (c : ascii) (rest : string) :
  is_digit c || Ascii.eqb c "-" = true ->
  scan_value (S fuel) (String c rest)
  = match scan_int (String c rest) with
    | Some (n, r) => Some (JNum n, r)
    | None => None
    end.
Proof. intros H. cbn [scan_value]. rewrite H. reflexivity. Qed.

Lemma scan_value_string (fuel : nat) (rest : string) :
  scan_value (S fuel) (String quote rest)
  = match scanstring rest with
    | Some (str, r) => Some (JStr str, r)
    | None => None
    end.
Proof. reflexivity. Qed.

(** *** Reading back what [encode] writes *)

Lemma follow_newline_indent (level : nat) (s : string) :
  follow (newline_indent level ++ s).
Proof. right. right. unfold newline_indent. cbn. eexists. reflexivity. Qed.

Lemma follow_comma (s : string) : follow (String "," s).
Proof. right. left. eexists. reflexivity. Qed.

Lemma scan_items_encode (xs : list json) :
  Forall reads_back xs ->
  forallb well_formed xs = true ->
  forall x level outer fuel rest,
    reads_back x -> well_formed x = true ->
    S (need x + fold_right (fun y n => S (need y + n)) 0 xs) <= fuel ->
    scan_items fuel
      (encode level x
       ++ join_items (encode level) (String "," (newline_indent level)) xs
       ++ newline_indent outer ++ String "]" rest)
    = Some (x :: xs, rest).
Proof.
  induction 1 as [|y ys Hy Hys IH]; intros Hwf x level outer fuel rest Hx Hwx Hfuel;
    (destruct fuel as [|fuel]; [lia |]); rewrite scan_items_step.
  - cbn [join_items append].
    rewrite (Hx Hwx level fuel _ ltac:(cbn in Hfuel; lia)
               (follow_newline_indent outer _)).
    cbv zeta. rewrite skip_ws_newline_indent. reflexivity.
  - cbn [forallb] in Hwf. apply andb_true_iff in Hwf. destruct Hwf as [Hwy Hwys].
    cbn [fold_right] in Hfuel.
    cbn [join_items]. rewrite !append_assoc. cbn [append].
    rewrite (Hx Hwx level fuel _ ltac:(lia) (follow_comma _)).
    cbv zeta. cbn [skip_ws is_ws next_is tail Ascii.eqb Bool.eqb orb].
    rewrite skip_ws_newline_indent.
    rewrite (skip_ws_opens _ (encode_opens_value level y _)).
    rewrite (IH Hwys y level outer fuel rest Hy Hwy ltac:(lia)).
    reflexivity.
Qed.

Lemma next_is_quote_encode (k rest : string) :
  next_is quote (encode_basestring k ++ rest) = true.
Proof. reflexivity. Qed.

Lemma scan_members_encode (kvs : list (string * json)) :
  Forall (fun kv => reads_back (snd kv)) kvs ->
  forallb (fun kv => well_formed (snd kv)) kvs = true ->
  forall k x level outer fuel rest,
    reads_back x -> well_formed x = true ->
    S (need x + fold_right (fun kv n => S (need (snd kv) + n)) 0 kvs) <= fuel ->
    scan_members fuel
      (encode_basestring k ++ String ":" (String " "
         (encode level x
          ++ join_members (encode level) (String "," (newline_indent level)) kvs
          ++ newline_indent outer ++ String "}" rest)))
    = Some ((k, x) :: kvs, rest).
Proof.
  induction 1 as [|[k' y] ys Hy Hys IH];
    intros Hwf k x level outer fuel rest Hx Hwx Hfuel;
    (destruct fuel as [|fuel]; [lia |]);
    rewrite scan_members_step, next_is_quote_encode.
  - rewrite scanstring_encode.
    cbv zeta. cbn [skip_ws is_ws next_is tail Ascii.eqb Bool.eqb orb].
    rewrite (skip_ws_opens _ (encode_opens_value level x _)).
    cbn [join_members append].
    rewrite (Hx Hwx level fuel _ ltac:(cbn in Hfuel; lia)
               (follow_newline_indent outer _)).
    rewrite skip_ws_newline_indent. reflexivity.
  - cbn [forallb snd] in Hwf. apply andb_true_iff in Hwf.
    destruct Hwf as [Hwy Hwys]. cbn [fold_right snd] in Hfuel. cbn [snd] in Hy.
    rewrite scanstring_encode.
    cbv zeta. cbn [skip_ws is_ws next_is tail Ascii.eqb Bool.eqb orb].
    rewrite (skip_ws_opens _ (encode_opens_value level x _)).
    cbn [join_members]. rewrite !append_assoc. cbn [append].
    rewrite (Hx Hwx level fuel _ ltac:(lia) (follow_comma _)).
    cbn [skip_ws is_ws next_is tail Ascii.eqb Bool.eqb orb].
    rewrite skip_ws_newline_indent.
    assert (Ho : opens_value
                   (encode_basestring k' ++ String ":" (String " "
                      (encode level y
                       ++ join_members (encode level)
                            (String "," (newline_indent level)) ys
                       ++ newline_indent outer ++ String "}" rest))))
      by (eexists; eexists; repeat split; reflexivity).
    rewrite (skip_ws_opens _ Ho).
    rewrite (IH Hwys k' y level outer fuel rest Hy Hwy ltac:(lia)).
    reflexivity.
Qed.

Theorem scan_value_encode (v : json) : reads_back v.
Proof.
  induction v as [| b | n | s | xs IH | kvs IH] using json_nested_ind;
    intros Hwf level fuel rest Hfuel Hrest;
    (destruct fuel as [|fuel]; [cbn in Hfuel; lia |]).
  - destruct Hrest as [-> | [[r ->] | [r ->]]]; reflexivity.
  - destruct b; destruct Hrest as [-> | [[r ->] | [r ->]]]; reflexivity.
  - cbn [encode].
    destruct (str_of_Z_head n) as (c & r & E & Hc).
    pose proof (scan_int_str_of_Z n rest Hrest) as Hscan.
    rewrite E in Hscan |- *. cbn [append] in Hscan |- *.
    rewrite (scan_value_number fuel c _ Hc), Hscan. reflexivity.
  - cbn [encode]. unfold encode_basestring. cbn [append].
    rewrite scan_value_string, append_assoc. cbn [append].
    rewrite scanstring_escape. reflexivity.
  - destruct xs as [|x xs].
    + reflexivity.
    + cbn [well_formed forallb] in Hwf. apply andb_true_iff in Hwf.
      destruct Hwf as [Hwx Hwxs]. inversion IH as [|? ? Hx Hxs]; subst.
      cbn [need fold_right] in Hfuel.
      cbn [encode]. rewrite !append_assoc. cbn [append].
      rewrite scan_value_array. cbv zeta.
      rewrite skip_ws_newline_indent.
      rewrite (skip_ws_opens _ (encode_opens_value (S level) x _)).
      rewrite (proj1 (next_is_opens _ (encode_opens_value (S level) x _))).
      rewrite (scan_items_encode xs Hxs Hwxs x (S level) level fuel rest Hx Hwx
                 ltac:(lia)).
      reflexivity.
  - destruct kvs as [|[k x] kvs].
    + reflexivity.
    + pose proof Hwf as Hwf'.
      cbn [well_formed forallb map fst snd] in Hwf. apply andb_true_iff in Hwf.
      destruct Hwf as [Hdist Hwf]. apply andb_true_iff in Hwf.
      destruct Hwf as [Hwx Hwxs]. inversion IH as [|? ? Hx Hxs]; subst.
      cbn [snd] in Hx.
      cbn [need fold_right snd] in Hfuel.
      cbn [encode]. rewrite !append_assoc. cbn [append].
      rewrite scan_value_object. cbv zeta.
      rewrite skip_ws_newline_indent.
      assert (Ho : opens_value
                     (encode_basestring k ++ String ":" (String " "
                        (encode (S level) x
                         ++ join_members (encode (S level))
                              (String "," (newline_indent (S level))) kvs
                         ++ newline_indent level ++ String "}" rest))))
        by (eexists; eexists; repeat split; reflexivity).
      rewrite (skip_ws_opens _ Ho).
      rewrite (proj2 (next_is_opens _ Ho)).
      rewrite (scan_members_encode kvs Hxs Hwxs k x (S level) level fuel rest
                 Hx Hwx ltac:(lia)).
      rewrite (dict_of_pairs_distinct ((k, x) :: kvs) Hdist).
      reflexivity.
Qed.

(** *** Enough fuel *)

Lemma length_newline_indent (level : nat) :
  1 <= String.length (newline_indent level).
Proof. unfold newline_indent. cbn. lia. Qed.

Lemma need_le_length (v : json) :
  forall level, need v <= String.length (encode level v).
Proof.
  induction v as [| b | n | s | xs IH | kvs IH] using json_nested_ind;
    intros level.
  - cbn. lia.
  - destruct b; cbn; lia.
  - cbn [need encode]. destruct (str_of_Z_head n) as (c & r & E & _).
    rewrite E. cbn. lia.
  - cbn. lia.
  - destruct xs as [|x xs]; [cbn; lia |].
    inversion IH as [|? ? Hx Hxs]; subst.
    cbn [need fold_right encode]. rewrite !length_append.
    pose proof (Hx (S level)). pose proof (length_newline_indent (S level)).
    assert (Hrest : fold_right (fun y n => S (need y + n)) 0 xs
                    <= String.length
                         (join_items (encode (S level))
                            (String "," (newline_indent (S level))) xs)).
    { clear - Hxs. induction Hxs as [|y ys Hy _ IHys]; cbn [fold_right join_items].
      - cbn. lia.
      - rewrite !length_append. pose proof (Hy (S level)). cbn [String.length append].
        lia. }
    cbn [String.length append]. lia.
  - destruct kvs as [|[k x] kvs]; [cbn; lia |].
    inversion IH as [|? ? Hx Hxs]; subst. cbn [snd] in Hx.
    cbn [need fold_right encode snd]. rewrite !length_append.
    pose proof (Hx (S level)). pose proof (length_newline_indent (S level)).
    assert (Hrest : fold_right (fun kv n => S (need (snd kv) + n)) 0 kvs
                    <= String.length
                         (join_members (encode (S level))
                            (String "," (newline_indent (S level))) kvs)).
    { clear - Hxs.
      induction Hxs as [|[k' y] ys Hy _ IHys]; cbn [fold_right join_members snd].
      - cbn. lia.
      - rewrite !length_append. cbn [snd] in Hy. pose proof (Hy (S level)).
        cbn [String.length append]. lia. }
    cbn [String.length append]. lia.
Qed.

(** The text [json.dump] writes reads back as the document written. *)
Theorem json_loads_dumps (doc : json) :
  well_formed doc = true -> json_loads (json_dumps doc) = Some doc.
Proof.
  intros Hwf. unfold json_loads, json_dumps.
  pose proof (encode_opens_value 0 doc EmptyString) as Ho.
  rewrite append_empty_r in Ho. rewrite (skip_ws_opens _ Ho).
  pose proof (scan_value_encode doc Hwf 0 (String.length (encode 0 doc))
                EmptyString (need_le_length doc 0) (or_introl eq_refl)) as H.
  rewrite append_empty_r in H. rewrite H. reflexivity.
Qed.

(** * The runs of the drivers and further properties *)

(** ** What the blocks of the drivers add to the log *)

Lemma requests_of_app (evs l : log) :
  forallb (fun e => negb (match e with Send _ _ => true | _ => false end)) evs
  = true ->
  requests_of (evs ++ l)%list = requests_of l.
Proof.
  induction evs as [|e evs IH]; cbn; intros H; [reflexivity |].
  apply andb_true_iff in H. destruct H as [He H].
  destruct e; cbn in He; try discriminate; auto.
Qed.

Lemma forallb_weaken {A} (p q : A -> bool) (xs : list A) :
  (forall x, p x = true -> q x = true) ->
  forallb p xs = true -> forallb q xs = true.
Proof.
  intros Hpq. induction xs as [|x xs IH]; cbn; [reflexivity |].
  intros H. apply andb_true_iff in H. destruct H as [Hx H].
  rewrite (Hpq x Hx), (IH H). reflexivity.
Qed.

Lemma requests_of_outputs (evs l : log) :
  forallb is_output evs = true -> requests_of (evs ++ l)%list = requests_of l.
Proof.
  intros H. apply requests_of_app.
  revert H. apply forallb_weaken. intros [] E; cbn in *; congruence.
Qed.

Lemma files_of_prints (evs l : log) :
  forallb is_print evs = true -> files_of (evs ++ l)%list = files_of l.
Proof.
  induction evs as [|e evs IH]; cbn; intros H; [reflexivity |].
  apply andb_true_iff in H. destruct H as [He H].
  destruct e; cbn in He; try discriminate; auto.
Qed.

Lemma key_writes_outputs (evs l : log) :
  forallb is_output evs = true -> key_writes (evs ++ l)%list = key_writes l.
Proof.
  induction evs as [|e evs IH]; cbn; intros H; [reflexivity |].
  apply andb_true_iff in H. destruct H as [He H].
  destruct e; cbn in He; try discriminate; auto.
Qed.

Lemma is_print_is_output (e : event) : is_print e = true -> is_output e = true.
Proof. destruct e; cbn; congruence. Qed.

Section AddsOnly.

Variable ok : event -> bool.

Lemma adds_only_ret {A} (a : A) : adds_only ok (ret a).
Proof. intros l. exists []. split; reflexivity. Qed.

Lemma adds_only_raise {A} (e : exn) : adds_only ok (raise (A:=A) e).
Proof. intros l. exists []. split; reflexivity. Qed.

Lemma adds_only_emit (e : event) : ok e = true -> adds_only ok (emit e).
Proof. intros H l. exists [e]. cbn. rewrite H. split; reflexivity. Qed.

Lemma adds_only_bind {A B} (m : M log A) (k : A -> M log B) :
  adds_only ok m -> (forall a, adds_only ok (k a)) -> adds_only ok (bind m k).
Proof.
  intros Hm Hk l. unfold bind.
  destruct (Hm l) as (evs & E & Hevs).
  destruct (m l) as [[a | e] l1]; cbn in E; subst l1.
  - destruct (Hk a (evs ++ l)%list) as (evs' & E' & Hevs').
    exists (evs' ++ evs)%list. rewrite E', <- List.app_assoc, forallb_app, Hevs, Hevs'.
    split; reflexivity.
  - exists evs. split; [reflexivity | exact Hevs].
Qed.

Lemma adds_only_try_except {A} (body : M log A)
  (handler : exn -> option (M log A)) :
  adds_only ok body ->
  (forall e h, handler e = Some h -> adds_only ok h) ->
  adds_only ok (try_except body handler).
Proof.
  intros Hm Hh l. unfold try_except.
  destruct (Hm l) as (evs & E & Hevs).
  destruct (body l) as [[a | e] l1]; cbn in E; subst l1.
  - exists evs. split; [reflexivity | exact Hevs].
  - destruct (handler e) as [h |] eqn:Eh.
    + destruct (Hh e h Eh (evs ++ l)%list) as (evs' & E' & Hevs').
      exists (evs' ++ evs)%list.
      rewrite E', <- List.app_assoc, forallb_app, Hevs, Hevs'.
      split; reflexivity.
    + exists evs. split; [reflexivity | exact Hevs].
Qed.

Lemma adds_only_when (b : bool) (m : M log unit) :
  adds_only ok m -> adds_only ok (when b m).
Proof. intros H. destruct b; [exact H | apply adds_only_ret]. Qed.

Lemma adds_only_py_contains key v : adds_only ok (py_contains key v).
Proof. destruct v; first [apply adds_only_ret | apply adds_only_raise]. Qed.

Lemma adds_only_py_getitem v key : adds_only ok (py_getitem v key).
Proof.
  destruct v; cbn; try apply adds_only_raise.
  destruct (dict_lookup key kvs); [apply adds_only_ret | apply adds_only_raise].
Qed.

Lemma adds_only_py_get data key default : adds_only ok (py_get data key default).
Proof.
  destruct data; cbn; try apply adds_only_raise.
  destruct (dict_lookup key kvs); apply adds_only_ret.
Qed.

Lemma adds_only_py_len v : adds_only ok (py_len v).
Proof. destruct v; first [apply adds_only_ret | apply adds_only_raise]. Qed.

Lemma adds_only_py_slice_to v n : adds_only ok (py_slice_to v n).
Proof. destruct v; first [apply adds_only_ret | apply adds_only_raise]. Qed.

Lemma adds_only_py_add_str v s : adds_only ok (py_add_str v s).
Proof. destruct v; first [apply adds_only_ret | apply adds_only_raise]. Qed.

Lemma adds_only_py_first v : adds_only ok (py_first v).
Proof.
  destruct v as [| | | s | xs |]; try apply adds_only_raise.
  - destruct s; [apply adds_only_raise | apply adds_only_ret].
  - destruct xs; [apply adds_only_raise | apply adds_only_ret].
Qed.

Lemma adds_only_py_iter v : adds_only ok (py_iter v).
Proof. destruct v; first [apply adds_only_ret | apply adds_only_raise]. Qed.

Lemma adds_only_raise_for_status r : adds_only ok (raise_for_status r).
Proof.
  unfold raise_for_status.
  destruct (_ && _); [apply adds_only_raise |].
  destruct (_ && _); [apply adds_only_raise | apply adds_only_ret].
Qed.

Lemma adds_only_response_json r : adds_only ok (response_json r).
Proof.
  unfold response_json.
  destruct (resp_json r); first [apply adds_only_ret | apply adds_only_raise].
Qed.

End AddsOnly.

Lemma adds_only_print (ok : event -> bool) (line : list frag) :
  ok (Print line) = true -> adds_only ok (print line).
Proof. apply adds_only_emit. Qed.

Lemma adds_only_weaken {A} (p q : event -> bool) (m : M log A) :
  (forall e, p e = true -> q e = true) -> adds_only p m -> adds_only q m.
Proof.
  intros Hpq Hm l. destruct (Hm l) as (evs & E & Hevs).
  exists evs. split; [exact E | exact (forallb_weaken p q evs Hpq Hevs)].
Qed.

Create HintDb quiet.
#[local] Hint Resolve adds_only_ret adds_only_raise adds_only_when
  adds_only_py_contains adds_only_py_getitem adds_only_py_get adds_only_py_len
  adds_only_py_slice_to adds_only_py_add_str adds_only_py_first
  adds_only_py_iter adds_only_raise_for_status adds_only_response_json : quiet.

(** Walks through a block of a driver: binds, conditionals and the
    operations above. *)
Ltac quiet :=
  repeat first
    [ apply adds_only_bind; [| intro]
    | apply adds_only_when
    | apply adds_only_print; reflexivity
    | apply adds_only_emit; reflexivity
    | match goal with
      | |- adds_only _ (if ?b then _ else _) => destruct b
      | |- adds_only _ (let (_, _) := ?r in _) => destruct r
      end
    | solve [eauto with quiet] ].

Lemma print_sections_only_prints (sections : list json) :
  forall i, adds_only is_print (crawlio_client.print_sections i sections).
Proof.
  induction sections as [|x xs IH]; intros i; cbn [crawlio_client.print_sections].
  - apply adds_only_ret.
  - quiet.
Qed.

Lemma text_preview_only_prints (text : json) :
  adds_only is_print (crawlio_client.text_preview text).
Proof. unfold crawlio_client.text_preview. quiet. Qed.

(** Printing the summary adds printed lines and nothing else, for every
    document and also when it raises. *)
Lemma print_summary_only_prints (crawl_result : json) :
  adds_only is_print (crawlio_client.print_summary crawl_result).
Proof.
  unfold crawlio_client.print_summary.
  quiet; first [apply text_preview_only_prints | apply print_sections_only_prints].
Qed.

Lemma save_results_run (timestamp : Z) (doc : json) (l : log) :
  crawlio_client.save_results timestamp doc l
  = (Ret tt,
     Print [Lit (nl ++ "Full results saved to: ");
            Lit ("crawl_result_" ++ str_of_Z timestamp ++ ".json")]
     :: WriteFile ("crawl_result_" ++ str_of_Z timestamp ++ ".json")
          (json_dumps doc)
     :: l).
Proof. reflexivity. Qed.

(** What [if crawl_result: ...] leaves behind: no request, and at most the
    one file, which holds the text of the document. *)
Lemma summarize_and_save_effects (timestamp : Z) (doc : json) (l : log) :
  requests_of (snd (crawlio_client.summarize_and_save timestamp doc l))
  = requests_of l
  /\ (files_of (snd (crawlio_client.summarize_and_save timestamp doc l))
      = files_of l
      \/ (truthy doc = true
          /\ fst (crawlio_client.summarize_and_save timestamp doc l) = Ret tt
          /\ files_of (snd (crawlio_client.summarize_and_save timestamp doc l))
             = ("crawl_result_" ++ str_of_Z timestamp ++ ".json", json_dumps doc)
               :: files_of l)).
Proof.
  unfold crawlio_client.summarize_and_save.
  destruct (truthy doc) eqn:Htrue; cbn [when].
  - unfold bind.
    destruct (print_summary_only_prints doc l) as (evs & E & Hevs).
    destruct (crawlio_client.print_summary doc l) as [[[] | e] l1];
      cbn [snd] in E; subst l1.
    + rewrite save_results_run. cbn [fst snd requests_of files_of].
      rewrite (requests_of_outputs evs l
                 (forallb_weaken _ _ evs is_print_is_output Hevs)).
      rewrite (files_of_prints evs l Hevs).
      split; [reflexivity |]. right. repeat split.
    + cbn [snd].
      rewrite (requests_of_outputs evs l
                 (forallb_weaken _ _ evs is_print_is_output Hevs)).
      rewrite (files_of_prints evs l Hevs). auto.
  - cbn. auto.
Qed.

Lemma prints_only (lines : list (list frag)) :
  forallb is_print (map Print lines) = true.
Proof. induction lines as [|x xs IH]; cbn; auto. Qed.

Lemma requests_of_lines (lines : list (list frag)) (l : log) :
  requests_of (map Print lines ++ l)%list = requests_of l.
Proof.
  apply requests_of_outputs.
  exact (forallb_weaken _ _ _ is_print_is_output (prints_only lines)).
Qed.

Lemma files_of_lines (lines : list (list frag)) (l : log) :
  files_of (map Print lines ++ l)%list = files_of l.
Proof. apply files_of_prints, prints_only. Qed.

(** ** One request for each call *)

Section Effects.

Variable net : Transport.

(** [register_user] sends its request once, whatever comes back, and
    writes no file. *)
Lemma register_user_effects (c : CrawlioClient) (l : log)
  (email password first_name last_name : string) :
  requests_of (out (snd (register_user net email password first_name last_name
                           (mkState c l))))
  = register_request c email password first_name last_name :: requests_of l
  /\ files_of (out (snd (register_user net email password first_name last_name
                           (mkState c l))))
     = files_of l.
Proof.
  destruct (net (requests_of l)
              (register_request c email password first_name last_name))
    as [r | msg resp] eqn:Hnet.
  - destruct (failing_or_ok r) as [Hbad | Hok].
    + destruct (register_user_failing net c l email password first_name last_name)
        as (m & lines & E).
      { rewrite Hnet. exact Hbad. }
      rewrite E. cbn [snd out]. rewrite requests_of_lines, files_of_lines.
      split; reflexivity.
    + destruct (resp_json r) as [doc | m | m | m] eqn:Hjson.
      * destruct (is_dict_or_not doc) as [[kvs ->] | Hdoc].
        -- rewrite (register_user_dict net c l email password first_name
                      last_name r kvs Hnet Hok Hjson).
           cbn [snd out]. destruct (truthy (key_of kvs)); split; reflexivity.
        -- destruct (register_user_not_a_dict net c l email password first_name
                       last_name r doc Hnet Hok Hjson Hdoc) as (m & E).
           rewrite E. split; reflexivity.
      * rewrite (register_user_undecodable net c l email password first_name
                   last_name r m Hnet Hok Hjson).
        split; reflexivity.
      * rewrite (register_user_decode_error net c l email password first_name
                   last_name r (ValueError m) Hnet Hok);
          [split; reflexivity | now rewrite Hjson].
      * rewrite (register_user_decode_error net c l email password first_name
                   last_name r (RecursionError m) Hnet Hok);
          [split; reflexivity | now rewrite Hjson].
  - destruct (register_user_failing net c l email password first_name last_name)
      as (m & lines & E).
    { rewrite Hnet. exact I. }
    rewrite E. cbn [snd out]. rewrite requests_of_lines, files_of_lines.
    split; reflexivity.
Qed.

(** When [register_user] returns [True], the client holds the key the
    service sent, and that key is true. *)
Lemma register_user_true (c : CrawlioClient) (l : log)
  (email password first_name last_name : string) :
  fst (register_user net email password first_name last_name (mkState c l))
  = Ret true ->
  exists key,
    truthy key = true
    /\ self (snd (register_user net email password first_name last_name
                    (mkState c l)))
       = mkClient (base_url c) key (session c).
Proof.
  destruct (net (requests_of l)
              (register_request c email password first_name last_name))
    as [r | msg resp] eqn:Hnet.
  - destruct (failing_or_ok r) as [Hbad | Hok].
    + destruct (register_user_failing net c l email password first_name last_name)
        as (m & lines & E).
      { rewrite Hnet. exact Hbad. }
      rewrite E. cbn. discriminate.
    + destruct (resp_json r) as [doc | m | m | m] eqn:Hjson.
      * destruct (is_dict_or_not doc) as [[kvs ->] | Hdoc].
        -- rewrite (register_user_dict net c l email password first_name
                      last_name r kvs Hnet Hok Hjson).
           cbn [fst snd self]. intros [= H]. exists (key_of kvs). auto.
        -- destruct (register_user_not_a_dict net c l email password first_name
                       last_name r doc Hnet Hok Hjson Hdoc) as (m & E).
           rewrite E. cbn. discriminate.
      * rewrite (register_user_undecodable net c l email password first_name
                   last_name r m Hnet Hok Hjson).
        cbn. discriminate.
      * rewrite (register_user_decode_error net c l email password first_name
                   last_name r (ValueError m) Hnet Hok);
          [cbn; discriminate | now rewrite Hjson].
      * rewrite (register_user_decode_error net c l email password first_name
                   last_name r (RecursionError m) Hnet Hok);
          [cbn; discriminate | now rewrite Hjson].
  - destruct (register_user_failing net c l email password first_name last_name)
      as (m & lines & E).
    { rewrite Hnet. exact I. }
    rewrite E. cbn. discriminate.
Qed.

(** With a key, [crawl_url] sends its request once, writes no file and
    leaves the client as it was, whatever comes back and whether the call
    returns or raises. *)
Lemma crawl_url_log (c : CrawlioClient) (l : log) (url : string)
  (options : json) :
  truthy (api_key c) = true ->
  self (snd (crawl_url net url options (mkState c l))) = c
  /\ requests_of (out (snd (crawl_url net url options (mkState c l))))
     = crawl_request c url options :: requests_of l
  /\ files_of (out (snd (crawl_url net url options (mkState c l))))
     = files_of l.
Proof.
  intros Hkey.
  destruct (net (requests_of l) (crawl_request c url options))
    as [r | msg resp] eqn:Hnet.
  - destruct (failing_or_ok r) as [Hbad | Hok].
    + destruct (crawl_url_failing net c l url options Hkey) as (m & lines & E).
      { rewrite Hnet. exact Hbad. }
      rewrite E. cbn [snd self out].
      rewrite requests_of_lines, files_of_lines. repeat split.
    + destruct (resp_json r) as [doc | m | m | m] eqn:Hjson.
      * rewrite (crawl_url_decoded net c l url options r doc Hkey Hnet Hok Hjson).
        repeat split.
      * rewrite (crawl_url_undecodable net c l url options r m Hkey Hnet Hok Hjson).
        repeat split.
      * rewrite (crawl_url_decode_error net c l url options r (ValueError m)
                   Hkey Hnet Hok); [repeat split | now rewrite Hjson].
      * rewrite (crawl_url_decode_error net c l url options r (RecursionError m)
                   Hkey Hnet Hok); [repeat split | now rewrite Hjson].
  - destruct (crawl_url_failing net c l url options Hkey) as (m & lines & E).
    { rewrite Hnet. exact I. }
    rewrite E. cbn [snd self out].
    rewrite requests_of_lines, files_of_lines. repeat split.
Qed.

Lemma get_crawl_history_log (c : CrawlioClient) (l : log) :
  truthy (api_key c) = true ->
  self (snd (get_crawl_history net (mkState c l))) = c
  /\ requests_of (out (snd (get_crawl_history net (mkState c l))))
     = history_request c :: requests_of l
  /\ files_of (out (snd (get_crawl_history net (mkState c l))))
     = files_of l.
Proof.
  intros Hkey.
  destruct (net (requests_of l) (history_request c)) as [r | msg resp] eqn:Hnet.
  - destruct (failing_or_ok r) as [Hbad | Hok].
    + destruct (get_crawl_history_failing net c l Hkey) as (m & E).
      { rewrite Hnet. exact Hbad. }
      rewrite E. repeat split.
    + destruct (resp_json r) as [doc | m | m | m] eqn:Hjson.
      * rewrite (get_crawl_history_decoded net c l r doc Hkey Hnet Hok Hjson).
        repeat split.
      * rewrite (get_crawl_history_undecodable net c l r m Hkey Hnet Hok Hjson).
        repeat split.
      * rewrite (get_crawl_history_decode_error net c l r (ValueError m)
                   Hkey Hnet Hok); [repeat split | now rewrite Hjson].
      * rewrite (get_crawl_history_decode_error net c l r (RecursionError m)
                   Hkey Hnet Hok); [repeat split | now rewrite Hjson].
  - destruct (get_crawl_history_failing net c l Hkey) as (m & E).
    { rewrite Hnet. exact I. }
    rewrite E. repeat split.
Qed.

End Effects.

(** ** The requests of a whole run *)

Lemma bind_raise {S A B} (m : M S A) (k : A -> M S B) (s s' : S) (e : exn) :
  m s = (Raise e, s') -> bind m k s = (Raise e, s').
Proof. intros E. unfold bind. rewrite E. reflexivity. Qed.

Lemma call_raise {A} (c : CrawlioClient) (m : M cstate A) (l : log)
  (e : exn) (s : cstate) :
  m (mkState c l) = (Raise e, s) -> call c m l = (Raise e, out s).
Proof. intros E. unfold call. rewrite E. reflexivity. Qed.

(** X13: Every run of [crawlio_client.main], whatever the service answers and
    however the run ends (normally, by [sys.exit] or by an error): the
    requests it sends are the registration, then the crawl, then the
    history, each once and in this order, and it stops after any of them.
    The crawl and the history are sent only after [register_user] returned
    [True], with the key it stored, which is true. *)
Theorem crawlio_client_main_trace (net : Transport) (timestamp : Z)
  (fresh : Session) (l : log) :
  let reg := register_request (init "http://localhost:3002" fresh)
               (demo_email timestamp) "testpass123" "Test" "User" in
  let registration := register_user net (demo_email timestamp) "testpass123"
                        "Test" "User"
                        (mkState (init "http://localhost:3002" fresh)
                           (before_registration l)) in
  let c1 := self (snd registration) in
  let crawl := crawl_request c1 "https://www.wikipedia.org/" crawl_options in
  let final := snd (crawlio_client.main net timestamp fresh l) in
  requests_of final = reg :: requests_of l
  \/ (fst registration = Ret true
      /\ truthy (api_key c1) = true
      /\ base_url c1 = "http://localhost:3002"
      /\ (requests_of final = crawl :: reg :: requests_of l
          \/ requests_of final
             = history_request c1 :: crawl :: reg :: requests_of l)).
Proof.
  cbv zeta. unfold crawlio_client.main. rewrite init_default. do 4 step.
  pose proof (register_user_effects net
                (mkClient "http://localhost:3002" JNull fresh)
                (before_registration l)
                (demo_email timestamp) "testpass123" "Test" "User") as [Hreq _].
  pose proof (register_user_true net
                (mkClient "http://localhost:3002" JNull fresh)
                (before_registration l)
                (demo_email timestamp) "testpass123" "Test" "User") as Htrue.
  unfold before_registration, demo_email in *.
  cbn [requests_of] in Hreq.
  destruct (register_user net _ _ _ _ _) as [[[|] | e] s1] eqn:E1;
    cbn [fst snd] in *.
  - (* registered *)
    destruct (Htrue eq_refl) as (key & Hkey & Hself). cbn [base_url session] in Hself.
    erewrite bind_run; [| apply call_run; exact E1].
    rewrite Hself. cbn [negb when api_key base_url]. do 3 step.
    right. split; [reflexivity | split; [exact Hkey | split; [reflexivity |]]].
    destruct (crawl_url_log net (mkClient "http://localhost:3002" key fresh)
                (Print [Lit (str_times "-" 20)]
                 :: Print [Lit (nl ++ "2. Website Crawling")] :: out s1)
                "https://www.wikipedia.org/" crawl_options Hkey)
      as (Hself2 & Hreq2 & _).
    cbn [requests_of] in Hreq2.
    destruct (crawl_url net _ _ _) as [[doc | e] s2] eqn:E2;
      cbn [snd] in Hself2, Hreq2.
    + erewrite bind_run; [| apply call_run; exact E2].
      rewrite Hself2.
      destruct (summarize_and_save_effects timestamp doc (out s2)) as [Hreq3 _].
      destruct (crawlio_client.summarize_and_save timestamp doc (out s2))
        as [[[] | e] l3] eqn:E3; cbn [snd] in Hreq3.
      * erewrite bind_run; [| exact E3]. do 2 step.
        destruct (get_crawl_history_log net
                    (mkClient "http://localhost:3002" key fresh)
                    (Print [Lit (str_times "-" 15)]
                     :: Print [Lit (nl ++ "3. Crawl History")] :: l3) Hkey)
          as (Hself4 & Hreq4 & _).
        cbn [requests_of] in Hreq4.
        destruct (get_crawl_history net _) as [[history | e] s4] eqn:E4;
          cbn [snd] in Hself4, Hreq4.
        -- erewrite bind_run; [| apply call_run; exact E4].
           rewrite Hself4. right.
           match goal with
           | |- context [snd (?m (out s4))] =>
               assert (Hq : adds_only is_print m) by quiet;
               destruct (Hq (out s4)) as (evs & E & Hevs); rewrite E
           end.
           rewrite (requests_of_outputs evs (out s4)
                      (forallb_weaken _ _ evs is_print_is_output Hevs)).
           rewrite Hreq4, Hreq3, Hreq2, Hreq. reflexivity.
        -- erewrite bind_raise; [| apply call_raise; exact E4].
           cbn [snd]. right. rewrite Hreq4, Hreq3, Hreq2, Hreq. reflexivity.
      * erewrite bind_raise; [| exact E3]. cbn [snd]. left.
        rewrite Hreq3, Hreq2, Hreq. reflexivity.
    + erewrite bind_raise; [| apply call_raise; exact E2].
      cbn [snd]. left. rewrite Hreq2, Hreq. reflexivity.
  - (* registration reported failure *)
    erewrite bind_run; [| apply call_run; exact E1].
    left. cbn. exact Hreq.
  - (* registration raised *)
    erewrite bind_raise; [| apply call_raise; exact E1].
    left. cbn. exact Hreq.
Qed.

Lemma try_except_bind_ret {S A B} (m : M S A) (k : A -> M S B)
  (h : exn -> option (M S B)) (s s' : S) (a : A) :
  m s = (Ret a, s') -> try_except (bind m k) h s = try_except (k a) h s'.
Proof. intros E. unfold try_except, bind. rewrite E. reflexivity. Qed.

Lemma try_except_bind_raise {S A B} (m : M S A) (k : A -> M S B)
  (h : exn -> option (M S B)) (s s' : S) (e : exn) :
  m s = (Raise e, s') ->
  try_except (bind m k) h s
  = match h e with
    | Some handler => handler s'
    | None => (Raise e, s')
    end.
Proof. intros E. unfold try_except, bind. rewrite E. reflexivity. Qed.

(** [crawl_with_api_key] sends its request once, whatever comes back and
    whether it returns or raises, and writes no file. *)
Lemma crawl_with_api_key_effects (net : Transport) (api_key url base : string)
  (l : log) :
  requests_of (snd (simple_crawler.crawl_with_api_key net api_key url base l))
  = simple_crawler.post_request api_key url base :: requests_of l
  /\ files_of (snd (simple_crawler.crawl_with_api_key net api_key url base l))
     = files_of l.
Proof.
  unfold simple_crawler.crawl_with_api_key.
  erewrite try_except_bind_ret; [| reflexivity].
  destruct (net (requests_of l) (simple_crawler.post_request api_key url base))
    as [r | msg resp] eqn:Hnet.
  - erewrite try_except_bind_ret;
      [| unfold send; cbn [requests_of]; rewrite Hnet; reflexivity].
    match goal with
    | |- context [snd (?m ?l0)] =>
        assert (Hq : adds_only is_print m);
        [| destruct (Hq l0) as (evs & E & Hevs); rewrite E ]
    end.
    { apply adds_only_try_except.
      - unfold simple_crawler.text_preview. quiet.
      - intros e h. destruct e; cbn; intros [= <-]. quiet. }
    rewrite (requests_of_outputs evs _
               (forallb_weaken _ _ evs is_print_is_output Hevs)).
    rewrite (files_of_prints evs _ Hevs). split; reflexivity.
  - erewrite try_except_bind_raise;
      [| unfold send; cbn [requests_of]; rewrite Hnet; reflexivity].
    split; reflexivity.
Qed.

(** X15: Every run of [simple_crawler]'s driver with the constant replaced
    sends the crawl request once, with the key in the header [x-api-key],
    whatever comes back and however the run ends. *)
Theorem simple_crawler_main_trace (net : Transport) (timestamp : Z)
  (API_KEY : string) (l : log) :
  String.eqb API_KEY "YOUR_API_KEY_HERE" = false ->
  exists req,
    requests_of (snd (simple_crawler.main_with net timestamp API_KEY l))
    = req :: requests_of l
    /\ req = simple_crawler.post_request API_KEY "https://www.wikipedia.org/"
               "http://localhost:3002"
    /\ dict_lookup "x-api-key" (req_headers req) = Some (JStr API_KEY).
Proof.
  intros Hkey. eexists. split; [| split; reflexivity].
  unfold simple_crawler.main_with. rewrite Hkey. cbn [when].
  do 3 step.
  destruct (crawl_with_api_key_effects net API_KEY "https://www.wikipedia.org/"
              "http://localhost:3002"
              (Print [Lit (str_times "=" 40)]
               :: Print [Lit "Simple Crawlio API Client"] :: l))
    as [Hreq _].
  cbn [requests_of] in Hreq.
  destruct (simple_crawler.crawl_with_api_key net API_KEY _ _ _)
    as [[doc | e] l1] eqn:E1; cbn [snd] in Hreq.
  - erewrite bind_run; [| exact E1].
    unfold simple_crawler.save_if_any. destruct (truthy doc); cbn; exact Hreq.
  - erewrite bind_raise; [| exact E1]. cbn. exact Hreq.
Qed.

(** X14: Every run of [crawl_wiki.main], however it ends: it assigns the key
    once, sends the crawl request once with that key, and writes no file. *)
Theorem crawl_wiki_main_trace (net : Transport) (fresh : Session) (l : log) :
  let client := mkClient "http://localhost:3002"
                  (JStr "0IsGoeQuG0jpWgG5ehwPkRMDWgmfyzjv") fresh in
  let final := snd (crawl_wiki.main net fresh l) in
  requests_of final
  = crawl_request client "https://www.wikipedia.org/" crawl_options
    :: requests_of l
  /\ files_of final = files_of l
  /\ key_writes final = S (key_writes l).
Proof.
  cbv zeta. unfold crawl_wiki.main. rewrite init_default. do 2 step.
  destruct (crawl_url_log net
              (mkClient "http://localhost:3002"
                 (JStr "0IsGoeQuG0jpWgG5ehwPkRMDWgmfyzjv") fresh)
              (Print [Lit "Crawling https://www.wikipedia.org/ using existing API key..."]
               :: SetApiKey (JStr "0IsGoeQuG0jpWgG5ehwPkRMDWgmfyzjv") :: l)
              "https://www.wikipedia.org/" crawl_options eq_refl)
    as (Hself2 & Hreq2 & Hfiles2).
  pose proof (crawl_url_frame net
                (mkState (mkClient "http://localhost:3002"
                            (JStr "0IsGoeQuG0jpWgG5ehwPkRMDWgmfyzjv") fresh)
                   (Print [Lit "Crawling https://www.wikipedia.org/ using existing API key..."]
                    :: SetApiKey (JStr "0IsGoeQuG0jpWgG5ehwPkRMDWgmfyzjv") :: l))
                "https://www.wikipedia.org/" crawl_options) as [_ Hkeys].
  cbn [requests_of files_of key_writes out] in Hreq2, Hfiles2, Hkeys.
  destruct (crawl_url net _ _ _) as [[doc | e] s2] eqn:E2;
    cbn [snd] in Hself2, Hreq2, Hfiles2, Hkeys.
  - erewrite bind_run; [| apply call_run; exact E2].
    rewrite Hself2.
    match goal with
    | |- context [snd (?m (out s2))] =>
        assert (Hq : adds_only is_print m);
        [| destruct (Hq (out s2)) as (evs & E & Hevs); rewrite E ]
    end.
    { unfold crawl_wiki.text_preview. quiet. }
    rewrite (requests_of_outputs evs (out s2)
               (forallb_weaken _ _ evs is_print_is_output Hevs)).
    rewrite (files_of_prints evs (out s2) Hevs).
    rewrite (key_writes_outputs evs (out s2)
               (forallb_weaken _ _ evs is_print_is_output Hevs)).
    rewrite Hreq2, Hfiles2, Hkeys. repeat split.
  - erewrite bind_raise; [| apply call_raise; exact E2].
    cbn [snd]. rewrite Hreq2, Hfiles2, Hkeys. repeat split.
Qed.

Lemma simple_crawler_main_trace_witness :
  exists req,
    requests_of (snd (simple_crawler.main_with net_down 1700000000 "k-123" []))
    = [req]
    /\ req = simple_crawler.post_request "k-123" "https://www.wikipedia.org/"
               "http://localhost:3002"
    /\ dict_lookup "x-api-key" (req_headers req) = Some (JStr "k-123").
Proof.
  exact (simple_crawler_main_trace net_down 1700000000 "k-123" [] eq_refl).
Defined.

(** ** The crawl result and the saved file *)

Section Calm.

Lemma no_request_error_ret {A} (a : A) : no_request_error (ret a).
Proof. intros l. exact I. Qed.

Lemma no_request_error_raise {A} (e : exn) :
  is_request_error e = false -> no_request_error (raise (A:=A) e).
Proof. intros H l. exact H. Qed.

Lemma no_request_error_print (line : list frag) : no_request_error (print line).
Proof. intros l. exact I. Qed.

Lemma no_request_error_bind {A B} (m : M log A) (k : A -> M log B) :
  no_request_error m -> (forall a, no_request_error (k a)) ->
  no_request_error (bind m k).
Proof.
  intros Hm Hk l. unfold bind. specialize (Hm l).
  destruct (m l) as [[a | e] l1]; cbn in *; [apply Hk | exact Hm].
Qed.

Lemma no_request_error_when (b : bool) (m : M log unit) :
  no_request_error m -> no_request_error (when b m).
Proof. intros H. destruct b; [exact H | apply no_request_error_ret]. Qed.

Lemma no_request_error_py_contains key v : no_request_error (py_contains key v).
Proof.
  destruct v;
    first [apply no_request_error_ret | apply no_request_error_raise; reflexivity].
Qed.

Lemma no_request_error_py_getitem v key : no_request_error (py_getitem v key).
Proof.
  destruct v; cbn; try (apply no_request_error_raise; reflexivity).
  destruct (dict_lookup key kvs);
    [apply no_request_error_ret | apply no_request_error_raise; reflexivity].
Qed.

Lemma no_request_error_py_get data key default :
  no_request_error (py_get data key default).
Proof.
  destruct data; cbn; try (apply no_request_error_raise; reflexivity).
  destruct (dict_lookup key kvs); apply no_request_error_ret.
Qed.

Lemma no_request_error_py_slice_to v n : no_request_error (py_slice_to v n).
Proof.
  destruct v;
    first [apply no_request_error_ret | apply no_request_error_raise; reflexivity].
Qed.

Lemma no_request_error_py_add_str v s : no_request_error (py_add_str v s).
Proof.
  destruct v;
    first [apply no_request_error_ret | apply no_request_error_raise; reflexivity].
Qed.

Lemma settles_ret {A} (v : A) : settles v (ret v).
Proof. intros l. reflexivity. Qed.

Lemma settles_bind {A B} (v : B) (m : M log A) (k : A -> M log B) :
  no_request_error m -> (forall a, settles v (k a)) -> settles v (bind m k).
Proof.
  intros Hm Hk l. unfold bind. specialize (Hm l).
  destruct (m l) as [[a | e] l1]; cbn in *; [apply Hk | exact Hm].
Qed.

(** A handler for [RequestException] is not entered by a block that
    raises none. *)
Lemma try_except_settles {A} (v : A) (m : M log A)
  (h : string -> option Response -> M log A) (l : log) :
  settles v m -> try_except m (except_RequestException h) l = m l.
Proof.
  intros H. unfold try_except. specialize (H l).
  destruct (m l) as [[a | e] l1]; cbn in *; [reflexivity |].
  destruct e; cbn in *; try reflexivity. discriminate H.
Qed.

End Calm.

Create HintDb calm.
#[local] Hint Resolve no_request_error_ret no_request_error_print
  no_request_error_when no_request_error_py_contains
  no_request_error_py_getitem no_request_error_py_get
  no_request_error_py_slice_to no_request_error_py_add_str settles_ret : calm.

(** Walks through a block that handles a document. *)
Ltac calm :=
  repeat first
    [ apply settles_bind; [| intro]
    | apply no_request_error_bind; [| intro]
    | apply no_request_error_when
    | match goal with
      | |- no_request_error (if ?b then _ else _) => destruct b
      end
    | solve [eauto with calm] ].

(** On a success response [crawl_with_api_key] returns the decoded
    document, unless a line of its summary raises; it prints and sends its
    one request, and writes no file. *)
Lemma crawl_with_api_key_decoded (net : Transport) (api_key url base : string)
  (l : log) (r : Response) (doc : json) :
  net (requests_of l) (simple_crawler.post_request api_key url base)
  = Responded r ->
  resp_ok r = true ->
  resp_json r = Decoded doc ->
  exists l1,
    files_of l1 = files_of l
    /\ (simple_crawler.crawl_with_api_key net api_key url base l = (Ret doc, l1)
        \/ exists e,
             simple_crawler.crawl_with_api_key net api_key url base l
             = (Raise e, l1)).
Proof.
  intros Hnet Hok Hjson.
  pose proof (crawl_with_api_key_effects net api_key url base l) as [_ Hfiles].
  revert Hfiles. unfold simple_crawler.crawl_with_api_key.
  erewrite try_except_bind_ret; [| reflexivity].
  erewrite try_except_bind_ret;
    [| unfold send; cbn [requests_of]; rewrite Hnet; reflexivity].
  erewrite try_except_bind_ret; [| apply raise_for_status_ok; exact Hok].
  erewrite try_except_bind_ret;
    [| unfold response_json; rewrite Hjson; reflexivity].
  erewrite try_except_bind_ret; [| reflexivity].
  match goal with
  | |- context [try_except ?m _ ?l0] =>
      assert (Hs : settles doc m);
      [| rewrite (try_except_settles doc m _ l0 Hs);
         specialize (Hs l0); destruct (m l0) as [[a | e] l1] ]
  end.
  { unfold simple_crawler.text_preview. calm. }
  - cbn in Hs. subst a. cbn [snd]. intros Hfiles.
    exists l1. split; [exact Hfiles | left; reflexivity].
  - cbn [snd]. intros Hfiles.
    exists l1. split; [exact Hfiles | right; exists e; reflexivity].
Qed.

(** The files of a run of [simple_crawler]'s driver on a success response:
    those of the statement [if result: ...] on the decoded document, unless
    the crawl raised. *)
Lemma simple_crawler_main_files (net : Transport) (timestamp : Z)
  (API_KEY : string) (l : log) (r : Response) (doc : json) :
  String.eqb API_KEY "YOUR_API_KEY_HERE" = false ->
  net (requests_of l)
    (simple_crawler.post_request API_KEY "https://www.wikipedia.org/"
       "http://localhost:3002")
  = Responded r ->
  resp_ok r = true ->
  resp_json r = Decoded doc ->
  exists l1,
    files_of l1 = files_of l
    /\ (simple_crawler.main_with net timestamp API_KEY l
        = simple_crawler.save_if_any timestamp doc l1
        \/ exists e,
             simple_crawler.main_with net timestamp API_KEY l = (Raise e, l1)).
Proof.
  intros Hkey Hnet Hok Hjson.
  unfold simple_crawler.main_with. rewrite Hkey. cbn [when]. do 3 step.
  destruct (crawl_with_api_key_decoded net API_KEY "https://www.wikipedia.org/"
              "http://localhost:3002"
              (Print [Lit (str_times "=" 40)]
               :: Print [Lit "Simple Crawlio API Client"] :: l) r doc
              Hnet Hok Hjson)
    as (l1 & Hfiles & [E | [e E]]); exists l1; (split; [exact Hfiles |]).
  - left. erewrite bind_run; [| exact E]. reflexivity.
  - right. exists e. erewrite bind_raise; [| exact E]. reflexivity.
Qed.

(** The files of a run of [crawlio_client.main] in which the registration
    and the crawl succeed: those of the statement [if crawl_result: ...] on
    the document the crawl returned. *)
Lemma crawlio_client_main_files (net : Transport) (timestamp : Z)
  (fresh : Session) (l : log) (registered r : Response)
  (kvs : list (string * json)) (doc : json) :
  let client := mkClient "http://localhost:3002" (key_of kvs) fresh in
  let register := register_request (init "http://localhost:3002" fresh)
                    (demo_email timestamp) "testpass123" "Test" "User" in
  net (requests_of l) register = Responded registered ->
  resp_ok registered = true ->
  resp_json registered = Decoded (JObj kvs) ->
  truthy (key_of kvs) = true ->
  net (register :: requests_of l)
    (crawl_request client "https://www.wikipedia.org/" crawl_options)
  = Responded r ->
  resp_ok r = true ->
  resp_json r = Decoded doc ->
  exists l2,
    files_of l2 = files_of l
    /\ files_of (snd (crawlio_client.main net timestamp fresh l))
       = files_of (snd (crawlio_client.summarize_and_save timestamp doc l2)).
Proof.
  cbv zeta. rewrite init_default.
  intros Hnet0 Hok0 Hjson0 Hkey Hnet Hok Hjson.
  unfold crawlio_client.main. rewrite init_default. do 4 step.
  erewrite bind_run;
    [| apply call_run;
       apply (register_user_dict net _ _ _ _ _ _ registered kvs);
       [exact Hnet0 | exact Hok0 | exact Hjson0] ].
  rewrite Hkey. cbn [self out negb when app base_url session]. do 3 step.
  erewrite bind_run;
    [| apply call_run;
       apply (crawl_url_decoded net _ _ _ _ r doc);
       [exact Hkey | exact Hnet | exact Hok | exact Hjson] ].
  cbn [self out].
  match goal with
  | |- context [snd (bind _ _ ?l2)] =>
      exists l2; split; [reflexivity |];
      destruct (crawlio_client.summarize_and_save timestamp doc l2)
        as [[[] | e] l3] eqn:E3
  end.
  - erewrite bind_run; [| exact E3]. do 2 step.
    destruct (get_crawl_history_log net
                (mkClient "http://localhost:3002" (key_of kvs) fresh)
                (Print [Lit (str_times "-" 15)]
                 :: Print [Lit (nl ++ "3. Crawl History")] :: l3) Hkey)
      as (Hself4 & _ & Hfiles4).
    cbn [files_of] in Hfiles4.
    destruct (get_crawl_history net _) as [[history | e] s4] eqn:E4;
      cbn [snd] in Hself4, Hfiles4.
    + erewrite bind_run; [| apply call_run; exact E4].
      rewrite Hself4.
      match goal with
      | |- context [snd (?m (out s4))] =>
          assert (Hq : adds_only is_print m) by quiet;
          destruct (Hq (out s4)) as (evs & E & Hevs); rewrite E
      end.
      rewrite (files_of_prints evs (out s4) Hevs). exact Hfiles4.
    + erewrite bind_raise; [| apply call_raise; exact E4].
      cbn [snd]. exact Hfiles4.
  - erewrite bind_raise; [| exact E3]. reflexivity.
Qed.

(** What the statement [if crawl_result: ...] writes. *)
Lemma summarize_and_save_files (timestamp : Z) (doc : json) (l : log) :
  (truthy doc = true ->
   (forall l0, fst (crawlio_client.print_summary doc l0) = Ret tt) ->
   files_of (snd (crawlio_client.summarize_and_save timestamp doc l))
   = ("crawl_result_" ++ str_of_Z timestamp ++ ".json", json_dumps doc)
     :: files_of l)
  /\ ((forall l0, exists e, fst (crawlio_client.print_summary doc l0) = Raise e) ->
      files_of (snd (crawlio_client.summarize_and_save timestamp doc l))
      = files_of l)
  /\ (truthy doc = false ->
      files_of (snd (crawlio_client.summarize_and_save timestamp doc l))
      = files_of l).
Proof.
  destruct (summarize_and_save_effects timestamp doc l)
    as [_ [Hsame | (Htrue & Hret & Hfile)]].
  - split; [| split]; try (intros; exact Hsame).
    intros Htrue Hsum. exfalso.
    revert Hsame. unfold crawlio_client.summarize_and_save.
    rewrite Htrue. cbn [when]. unfold bind.
    specialize (Hsum l).
    destruct (print_summary_only_prints doc l) as (evs & E & Hevs).
    destruct (crawlio_client.print_summary doc l) as [[[] | e] l1];
      cbn [fst snd] in *; [| discriminate Hsum].
    subst l1. rewrite save_results_run. cbn [snd files_of].
    rewrite (files_of_prints evs l Hevs).
    intros H. apply (f_equal (@List.length _)) in H. cbn in H. lia.
  - split; [| split].
    + intros _ _. exact Hfile.
    + intros Hraise. exfalso. destruct (Hraise l) as [e He].
      revert Hret. unfold crawlio_client.summarize_and_save.
      rewrite Htrue. cbn [when]. unfold bind.
      destruct (crawlio_client.print_summary doc l) as [[[] | e'] l1];
        cbn [fst] in *; [discriminate He | discriminate].
    + intros Hfalse. rewrite Hfalse in Htrue. discriminate Htrue.
Qed.




(** Two runs from end to end: the file a driver leaves behind holds the
    text of the document the service sent, and reads back as it. *)
Lemma saved_file_of_a_run :
  let doc := JObj [("data", JObj [("text", JStr "Hello");
                                  ("sections", JArr [JObj [("title", JStr "Top")]])]);
                   ("metadata", JObj [("finalUrl", JStr "https://www.wikipedia.org/");
                                      ("loadTime", JNum 12)])] in
  let net := net_by_url (Decoded (JObj [("api_key", JStr "k-123")]))
               (Decoded doc) in
  files_of (snd (crawlio_client.main net 1700000000 (SessionHandle 0) []))
  = [("crawl_result_1700000000.json", json_dumps doc)]
  /\ files_of (snd (simple_crawler.main_with net 1700000000 "k-123" []))
     = [("simple_crawl_1700000000.json", json_dumps doc)]
  /\ json_loads (json_dumps doc) = Some doc.
Proof. cbv zeta. repeat split; vm_compute; reflexivity. Qed.

(** ** The requests of the three methods *)

(** X5: [register_user] sends one request for every call, whatever the four
    strings are and whatever comes back: a POST to the registration path
    with the four strings in the body and no header of its own. *)
Theorem register_user_sends_one_request (net : Transport) (c : CrawlioClient)
  (l : log) (email password first_name last_name : string) :
  requests_of (out (snd (register_user net email password first_name last_name
                           (mkState c l))))
  = mkRequest POST (base_url c ++ "/api/auth/register")
      (Some (JObj [("email", JStr email); ("password", JStr password);
                   ("first_name", JStr first_name);
                   ("last_name", JStr last_name)]))
      []
    :: requests_of l.
Proof. exact (proj1 (register_user_effects net c l email password first_name last_name)). Qed.

(** X6: With a key, [crawl_url] sends one request for every call, whatever
    comes back and however the call ends: a POST to the crawl path that
    carries the key in the header [x-api-key]; the options are part of the
    body only when they are true, so an empty dict is left out like [None]. *)
Theorem crawl_url_sends_one_request (net : Transport) (c : CrawlioClient)
  (l : log) (url : string) (options : json) :
  truthy (api_key c) = true ->
  requests_of (out (snd (crawl_url net url options (mkState c l))))
  = mkRequest POST (base_url c ++ "/api/crawl/url")
      (Some (if truthy options
             then JObj [("url", JStr url); ("options", options)]
             else JObj [("url", JStr url)]))
      [("Content-Type", JStr "application/json");
       ("x-api-key", api_key c)]
    :: requests_of l
  /\ (truthy options = false ->
      crawl_url net url options (mkState c l)
      = crawl_url net url JNull (mkState c l)).
Proof.
  intros Hkey. split.
  - exact (proj1 (proj2 (crawl_url_log net c l url options Hkey))).
  - intros Hopt. unfold crawl_url, crawl_request. rewrite Hopt. reflexivity.
Qed.

Lemma crawl_url_sends_one_request_witness :
  requests_of (out (snd (crawl_url net_down "https://www.wikipedia.org/"
                           (JObj []) (mkState (demo_client (JStr "k-123")) []))))
  = [mkRequest POST "http://localhost:3002/api/crawl/url"
       (Some (JObj [("url", JStr "https://www.wikipedia.org/")]))
       [("Content-Type", JStr "application/json");
        ("x-api-key", JStr "k-123")]].
Proof.
  exact (proj1 (crawl_url_sends_one_request net_down
                  (demo_client (JStr "k-123")) []
                  "https://www.wikipedia.org/" (JObj []) eq_refl)).
Defined.

(** X7: With a key, [get_crawl_history] sends one request for every call,
    whatever comes back and however the call ends: a GET to the history
    path with the key in the header [x-api-key] and no body. *)
Theorem get_crawl_history_sends_one_request (net : Transport)
  (c : CrawlioClient) (l : log) :
  truthy (api_key c) = true ->
  requests_of (out (snd (get_crawl_history net (mkState c l))))
  = mkRequest GET (base_url c ++ "/api/crawl/history") None
      [("x-api-key", api_key c)]
    :: requests_of l.
Proof.
  intros Hkey.
  exact (proj1 (proj2 (get_crawl_history_log net c l Hkey))).
Qed.

Lemma get_crawl_history_sends_one_request_witness :
  requests_of (out (snd (get_crawl_history net_down
                           (mkState (demo_client (JStr "k-123")) []))))
  = [mkRequest GET "http://localhost:3002/api/crawl/history" None
       [("x-api-key", JStr "k-123")]].
Proof.
  exact (get_crawl_history_sends_one_request net_down
           (demo_client (JStr "k-123")) [] eq_refl).
Defined.

(** ** What is printed for a failure status *)

Lemma report_response_of_failure (r : Response) (s : cstate) :
  (400 <= status_code r < 600)%Z -> report_response (Some r) s = (Ret tt, s).
Proof.
  intros H. unfold report_response, resp_ok.
  assert (E : ((400 <=? status_code r) && (status_code r <? 600))%Z = true).
  { apply andb_true_iff. rewrite Z.leb_le, Z.ltb_lt. exact H. }
  rewrite E. reflexivity.
Qed.

(** X8: For a 4xx or 5xx response [register_user] and [crawl_url] print one
    line after the request: the text of the status error.  The lines
    [Error details] and [Response] of the handler are not printed, because
    a response with such a status is false. *)
Theorem failure_status_is_reported_in_one_line (net : Transport)
  (c : CrawlioClient) (l : log) (url : string) (options : json)
  (email password first_name last_name : string) (r : Response) :
  (400 <= status_code r < 600)%Z ->
  (net (requests_of l) (register_request c email password first_name last_name)
   = Responded r ->
   register_user net email password first_name last_name (mkState c l)
   = (Ret false,
      mkState c
        (Print [Lit "Registration failed: "; Lit (http_error_text r)]
         :: Send (Some (session c))
              (register_request c email password first_name last_name)
         :: Print [Lit "Registering user: "; Lit email] :: l)))
  /\ (truthy (api_key c) = true ->
      net (requests_of l) (crawl_request c url options) = Responded r ->
      crawl_url net url options (mkState c l)
      = (Ret JNull,
         mkState c
           (Print [Lit "Crawling failed: "; Lit (http_error_text r)]
            :: Send (Some (session c)) (crawl_request c url options)
            :: Print [Lit "Crawling: "; Lit url] :: l))).
Proof.
  intros Hstatus. split.
  - intros Hnet. unfold register_user. run. rewrite Hnet. cbn.
    rewrite (raise_for_status_text r _ Hstatus). cbn.
    rewrite (report_response_of_failure r _ Hstatus). reflexivity.
  - intros Hkey Hnet. unfold crawl_url. run. rewrite Hkey. cbn.
    rewrite Hnet. cbn.
    rewrite (raise_for_status_text r _ Hstatus). cbn.
    rewrite (report_response_of_failure r _ Hstatus). reflexivity.
Qed.

Lemma failure_status_is_reported_in_one_line_witness :
  crawl_url (respond 404 (Decoded (JObj [("error", JStr "no such page")])))
    "https://www.wikipedia.org/" crawl_options
    (mkState (demo_client (JStr "k-123")) [])
  = (Ret JNull,
     mkState (demo_client (JStr "k-123"))
       [Print [Lit "Crawling failed: ";
               Lit "404 Client Error: - for url: http://localhost:3002/api/crawl/url"];
        Send (Some (SessionHandle 0))
          (crawl_request (demo_client (JStr "k-123"))
             "https://www.wikipedia.org/" crawl_options);
        Print [Lit "Crawling: "; Lit "https://www.wikipedia.org/"]]).
Proof.
  apply (proj2 (failure_status_is_reported_in_one_line
                  (respond 404 (Decoded (JObj [("error", JStr "no such page")])))
                  (demo_client (JStr "k-123")) []
                  "https://www.wikipedia.org/" crawl_options
                  "a@example.com" "pw" "A" "B"
                  (mkResponse 404 "-" "http://localhost:3002/api/crawl/url" "-"
                     (Decoded (JObj [("error", JStr "no such page")])))
                  ltac:(cbn; lia))).
  - reflexivity.
  - reflexivity.
Defined.

(** ** Registration: bodies of the wrong shape, and what follows success *)

(** X9: A success response whose body decodes to something other than an
    object makes [register_user] raise [AttributeError]: the error leaves
    the method, after the request and before any assignment of the key. *)
Theorem register_user_raises_on_a_body_that_is_no_dict (net : Transport)
  (c : CrawlioClient) (l : log)
  (email password first_name last_name : string) (r : Response) (doc : json) :
  net (requests_of l) (register_request c email password first_name last_name)
  = Responded r ->
  resp_ok r = true ->
  resp_json r = Decoded doc ->
  (forall kvs, doc <> JObj kvs) ->
  exists msg,
    fst (register_user net email password first_name last_name (mkState c l))
    = Raise (AttributeError msg)
    /\ self (snd (register_user net email password first_name last_name
                    (mkState c l))) = c
    /\ key_writes (out (snd (register_user net email password first_name
                               last_name (mkState c l))))
       = key_writes l.
Proof.
  intros Hnet Hok Hjson Hdoc.
  destruct (register_user_not_a_dict net c l email password first_name last_name
              r doc Hnet Hok Hjson Hdoc) as (msg & E).
  exists msg. rewrite E. repeat split.
Qed.

Lemma register_user_raises_on_a_body_that_is_no_dict_witness :
  exists msg,
    fst (register_user (respond 200 (Decoded (JArr [JStr "k-123"])))
           "a@example.com" "pw" "A" "B" (mkState (demo_client JNull) []))
    = Raise (AttributeError msg)
    /\ self (snd (register_user (respond 200 (Decoded (JArr [JStr "k-123"])))
                    "a@example.com" "pw" "A" "B" (mkState (demo_client JNull) [])))
       = demo_client JNull
    /\ key_writes (out (snd (register_user
                               (respond 200 (Decoded (JArr [JStr "k-123"])))
                               "a@example.com" "pw" "A" "B"
                               (mkState (demo_client JNull) []))))
       = key_writes [].
Proof.
  apply (register_user_raises_on_a_body_that_is_no_dict
           (respond 200 (Decoded (JArr [JStr "k-123"]))) (demo_client JNull) []
           "a@example.com" "pw" "A" "B"
           (mkResponse 200 "-" "http://localhost:3002/api/auth/register" "-"
              (Decoded (JArr [JStr "k-123"])))
           (JArr [JStr "k-123"])).
  - reflexivity.
  - reflexivity.
  - reflexivity.
  - intros kvs H. discriminate H.
Defined.

(** X10: After [register_user] has returned [True], the client holds a key that
    is true, so [crawl_url] and [get_crawl_history] pass their key check:
    each sends one request, which carries that key in the header
    [x-api-key], and leaves the client as it is. *)
Theorem registered_client_passes_the_key_check (net : Transport)
  (c : CrawlioClient) (l : log)
  (email password first_name last_name url : string) (options : json) :
  fst (register_user net email password first_name last_name (mkState c l))
  = Ret true ->
  let s1 := snd (register_user net email password first_name last_name
                   (mkState c l)) in
  truthy (api_key (self s1)) = true
  /\ base_url (self s1) = base_url c
  /\ (self (snd (crawl_url net url options s1)) = self s1
      /\ exists req,
           requests_of (out (snd (crawl_url net url options s1)))
           = req :: requests_of (out s1)
           /\ dict_lookup "x-api-key" (req_headers req)
              = Some (api_key (self s1)))
  /\ (self (snd (get_crawl_history net s1)) = self s1
      /\ exists req,
           requests_of (out (snd (get_crawl_history net s1)))
           = req :: requests_of (out s1)
           /\ dict_lookup "x-api-key" (req_headers req)
              = Some (api_key (self s1))).
Proof.
  intros Htrue. cbv zeta.
  destruct (register_user_true net c l email password first_name last_name Htrue)
    as (key & Hkey & Hself).
  destruct (snd (register_user net email password first_name last_name
                   (mkState c l))) as [c1 l1].
  cbn [self out] in *. subst c1. cbn [api_key base_url].
  split; [exact Hkey | split; [reflexivity |]]. split.
  - destruct (crawl_url_log net (mkClient (base_url c) key (session c)) l1
                url options Hkey) as (Hsame & Hreq & _).
    split; [exact Hsame |].
    eexists. split; [exact Hreq | reflexivity].
  - destruct (get_crawl_history_log net
                (mkClient (base_url c) key (session c)) l1 Hkey)
      as (Hsame & Hreq & _).
    split; [exact Hsame |].
    eexists. split; [exact Hreq | reflexivity].
Qed.

Lemma registered_client_passes_the_key_check_witness :
  truthy (api_key (self (snd (register_user
                                (respond 200 (Decoded (JObj [("api_key", JStr "k-123")])))
                                "a@example.com" "pw" "A" "B"
                                (mkState (demo_client JNull) []))))) = true.
Proof.
  exact (proj1 (registered_client_passes_the_key_check
                  (respond 200 (Decoded (JObj [("api_key", JStr "k-123")])))
                  (demo_client JNull) [] "a@example.com" "pw" "A" "B"
                  "https://www.wikipedia.org/" crawl_options eq_refl)).
Defined.

(** ** The constructor *)

Lemma rstrip_slash_no_slash (s : string) :
  ends_with_slash (rstrip_slash s) = false.
Proof.
  induction s as [|c s IH]; cbn [rstrip_slash].
  - reflexivity.
  - destruct (rstrip_slash s) as [|a r'].
    + destruct (Ascii.eqb c "/") eqn:E; cbn; [reflexivity | exact E].
    + exact IH.
Qed.

Lemma rstrip_slash_slashes (s : string) :
  exists k, s = rstrip_slash s ++ str_times "/" k.
Proof.
  induction s as [|c s [k IH]]; cbn [rstrip_slash].
  - exists 0. reflexivity.
  - destruct (rstrip_slash s) as [|a r'].
    + destruct (Ascii.eqb_spec c "/") as [-> | _].
      * exists (S k). cbn in *. now rewrite <- IH.
      * exists k. cbn in *. now rewrite <- IH.
    + exists k. cbn in *. now rewrite <- IH.
Qed.

Lemma rstrip_slash_fixed (s : string) :
  ends_with_slash s = false -> rstrip_slash s = s.
Proof.
  induction s as [|c s IH]; [reflexivity |].
  intros H. cbn [rstrip_slash]. destruct s as [|a r'].
  - cbn in *. now rewrite H.
  - rewrite (IH H). reflexivity.
Qed.

(** X4: [CrawlioClient(base)]: the stored address is [base] without the
    slashes at its end, however many there are, and [base] itself when it
    ends in none; the key is [None]. *)
Theorem init_strips_the_trailing_slashes (base : string) (fresh : Session) :
  ends_with_slash (base_url (init base fresh)) = false
  /\ (exists k, base = base_url (init base fresh) ++ str_times "/" k)
  /\ (ends_with_slash base = false -> base_url (init base fresh) = base)
  /\ api_key (init base fresh) = JNull
  /\ session (init base fresh) = fresh.
Proof.
  cbn [init base_url api_key session]. repeat split.
  - apply rstrip_slash_no_slash.
  - apply rstrip_slash_slashes.
  - apply rstrip_slash_fixed.
Qed.

(** ** The summary of a crawl result *)

(** X17: The three lines about the metadata show each value as it is and [N/A]
    for a key that is missing (here for a result without a [data] part). *)
Theorem summary_shows_missing_metadata_as_NA (kvs mkvs : list (string * json))
  (l : log) :
  dict_lookup "data" kvs = None ->
  dict_lookup "metadata" kvs = Some (JObj mkvs) ->
  crawlio_client.print_summary (JObj kvs) l
  = (Ret tt,
     Print [Lit "Content Length: ";
            fmt (get_or "contentLength" (JStr "N/A") mkvs); Lit " bytes"]
     :: Print [Lit "Load Time: ";
               fmt (get_or "loadTime" (JStr "N/A") mkvs); Lit "ms"]
     :: Print [Lit "Final URL: "; fmt (get_or "finalUrl" (JStr "N/A") mkvs)]
     :: (summary_head ++ l)%list)
  /\ (dict_lookup "loadTime" mkvs = None ->
      fmt (get_or "loadTime" (JStr "N/A") mkvs) = Lit "N/A").
Proof.
  intros Hdata Hmeta. split.
  - unfold crawlio_client.print_summary, get_or. run.
    repeat (progress (rewrite ?Hdata, ?Hmeta; cbn)).
    destruct (dict_lookup "finalUrl" mkvs); cbn;
      destruct (dict_lookup "loadTime" mkvs); cbn;
      destruct (dict_lookup "contentLength" mkvs); reflexivity.
  - intros H. unfold get_or. rewrite H. reflexivity.
Qed.

Lemma summary_shows_missing_metadata_as_NA_witness :
  crawlio_client.print_summary
    (JObj [("metadata", JObj [("finalUrl", JStr "https://www.wikipedia.org/")])])
    []
  = (Ret tt,
     [Print [Lit "Content Length: "; Lit "N/A"; Lit " bytes"];
      Print [Lit "Load Time: "; Lit "N/A"; Lit "ms"];
      Print [Lit "Final URL: "; Lit "https://www.wikipedia.org/"];
      Print [Lit (str_times "-" 25)];
      Print [Lit (nl ++ "Crawl Results Summary:")]]).
Proof.
  exact (proj1 (summary_shows_missing_metadata_as_NA
                  [("metadata", JObj [("finalUrl", JStr "https://www.wikipedia.org/")])]
                  [("finalUrl", JStr "https://www.wikipedia.org/")] []
                  eq_refl eq_refl)).
Defined.

(** X18: A text field that is [None], a boolean or a number makes the summary
    raise [TypeError] at [len]: the error leaves the block after its two
    opening lines, and the file is not written. *)
Theorem scalar_text_aborts_the_summary (timestamp : Z)
  (kvs dkvs : list (string * json)) (text : json) (l : log) :
  dict_lookup "data" kvs = Some (JObj dkvs) ->
  dict_lookup "text" dkvs = Some text ->
  is_scalar text = true ->
  exists msg,
    crawlio_client.summarize_and_save timestamp (JObj kvs) l
    = (Raise (TypeError msg), (summary_head ++ l)%list)
    /\ files_of (summary_head ++ l)%list = files_of l.
Proof.
  intros Hdata Htext Hscalar.
  assert (Htrue : truthy (JObj kvs) = true)
    by (destruct kvs; [discriminate Hdata | reflexivity]).
  unfold crawlio_client.summarize_and_save. rewrite Htrue. cbn [when].
  unfold crawlio_client.print_summary, crawlio_client.text_preview. run.
  repeat (progress (rewrite ?Hdata, ?Htext; cbn)).
  destruct text; cbn in Hscalar; try discriminate Hscalar;
    cbn; eexists; split; reflexivity.
Qed.

Lemma scalar_text_aborts_the_summary_witness :
  exists msg,
    crawlio_client.summarize_and_save 1700000000
      (JObj [("data", JObj [("text", JNull)])]) []
    = (Raise (TypeError msg), (summary_head ++ [])%list)
    /\ files_of (summary_head ++ [])%list = files_of [].
Proof.
  exact (scalar_text_aborts_the_summary 1700000000
           [("data", JObj [("text", JNull)])] [("text", JNull)] JNull []
           eq_refl eq_refl eq_refl).
Defined.

Lemma print_sections_run (sections : list (list (string * json))) :
  forall i l,
    crawlio_client.print_sections i (map JObj sections) l
    = (Ret tt, (section_lines i sections ++ l)%list).
Proof.
  induction sections as [|x xs IH]; intros i l.
  - reflexivity.
  - cbn [map crawlio_client.print_sections section_lines].
    unfold bind at 1. unfold py_get, section_line, get_or.
    destruct (dict_lookup "title" x) as [title |]; cbn [ret];
      unfold bind at 1; cbn [print emit];
      rewrite IH, <- List.app_assoc; reflexivity.
Qed.

Lemma length_section_lines (sections : list (list (string * json))) :
  forall i, List.length (section_lines i sections) = List.length sections.
Proof.
  induction sections as [|x xs IH]; intros i; cbn [section_lines List.length].
  - reflexivity.
  - rewrite List.length_app, IH. cbn. lia.
Qed.

(** X19: For a list of section objects the summary prints the number of all
    sections and then a title line for the first three of them at most,
    numbered from 1, with [Untitled] for a section without a title. *)
Theorem summary_lists_three_sections_at_most
  (kvs dkvs : list (string * json)) (x : list (string * json))
  (xs : list (list (string * json))) (l : log) :
  dict_lookup "data" kvs = Some (JObj dkvs) ->
  dict_lookup "text" dkvs = None ->
  dict_lookup "sections" dkvs = Some (JArr (map JObj (x :: xs))) ->
  dict_lookup "metadata" kvs = None ->
  crawlio_client.print_summary (JObj kvs) l
  = (Ret tt,
     (section_lines 0 (firstn 3 (x :: xs))
      ++ Print [Lit "Sections Found: ";
                Lit (str_of_Z (Z.of_nat (List.length (x :: xs))))]
      :: summary_head ++ l)%list)
  /\ List.length (section_lines 0 (firstn 3 (x :: xs)))
     = Nat.min 3 (List.length (x :: xs)).
Proof.
  intros Hdata Htext Hsections Hmeta. split.
  - unfold crawlio_client.print_summary.
    unfold bind, try_except, print, emit, ret, raise, when, py_contains,
      py_getitem, py_len, py_slice_to, py_iter.
    repeat (progress (rewrite ?Hdata, ?Htext, ?Hsections, ?Hmeta;
                      cbn -[firstn crawlio_client.print_sections Z.of_nat
                            str_of_Z section_lines List.length map])).
    rewrite List.firstn_map, List.length_map. cbn [map]. cbv beta iota.
    rewrite print_sections_run. reflexivity.
  - rewrite length_section_lines, List.length_firstn. reflexivity.
Qed.

Lemma summary_lists_three_sections_at_most_witness :
  List.length
    (section_lines 0
       (firstn 3 [[("title", JStr "One")]; []; [("title", JStr "Three")];
                  [("title", JStr "Four")]]))
  = Nat.min 3 4.
Proof.
  exact (proj2 (summary_lists_three_sections_at_most
                  [("data", JObj [("sections",
                       JArr (map JObj [[("title", JStr "One")]; [];
                                       [("title", JStr "Three")];
                                       [("title", JStr "Four")]]))])]
                  [("sections",
                       JArr (map JObj [[("title", JStr "One")]; [];
                                       [("title", JStr "Three")];
                                       [("title", JStr "Four")]]))]
                  [("title", JStr "One")]
                  [[]; [("title", JStr "Three")]; [("title", JStr "Four")]]
                  [] eq_refl eq_refl eq_refl eq_refl)).
Defined.

(** ** [crawl_with_api_key] and bodies that are no container *)

(** X16: A success response whose body decodes to [None], a boolean or a number
    makes [crawl_with_api_key] raise [TypeError] at ['data' in data]: the
    [except] clause takes request errors only, so the error leaves the
    function, after the line that announces success.  ([crawl_url] returns
    such a body as its result.) *)
Theorem crawl_with_api_key_raises_on_a_scalar_body (net : Transport)
  (api_key url base : string) (l : log) (r : Response) (doc : json) :
  net (requests_of l) (simple_crawler.post_request api_key url base)
  = Responded r ->
  resp_ok r = true ->
  resp_json r = Decoded doc ->
  is_scalar doc = true ->
  exists msg,
    simple_crawler.crawl_with_api_key net api_key url base l
    = (Raise (TypeError msg),
       Print [Lit "Crawling completed successfully!"]
       :: Send None (simple_crawler.post_request api_key url base)
       :: Print [Lit "Crawling: "; Lit url] :: l).
Proof.
  intros Hnet Hok Hjson Hscalar.
  unfold simple_crawler.crawl_with_api_key.
  erewrite try_except_bind_ret; [| reflexivity].
  erewrite try_except_bind_ret;
    [| unfold send; cbn [requests_of]; rewrite Hnet; reflexivity].
  erewrite try_except_bind_ret; [| apply raise_for_status_ok; exact Hok].
  erewrite try_except_bind_ret;
    [| unfold response_json; rewrite Hjson; reflexivity].
  erewrite try_except_bind_ret; [| reflexivity].
  destruct doc; cbn in Hscalar; try discriminate Hscalar;
    eexists; reflexivity.
Qed.

Lemma crawl_with_api_key_raises_on_a_scalar_body_witness :
  exists msg,
    simple_crawler.crawl_with_api_key (respond 200 (Decoded JNull))
      "k-123" "https://www.wikipedia.org/" "http://localhost:3002" []
    = (Raise (TypeError msg),
       [Print [Lit "Crawling completed successfully!"];
        Send None (simple_crawler.post_request "k-123"
                     "https://www.wikipedia.org/" "http://localhost:3002");
        Print [Lit "Crawling: "; Lit "https://www.wikipedia.org/"]]).
Proof.
  exact (crawl_with_api_key_raises_on_a_scalar_body
           (respond 200 (Decoded JNull)) "k-123" "https://www.wikipedia.org/"
           "http://localhost:3002" []
           (mkResponse 200 "-" "http://localhost:3002/api/crawl/url" "-"
              (Decoded JNull))
           JNull eq_refl eq_refl eq_refl eq_refl).
Defined.

(** ** More on the previews *)

Lemma length_substring_le (n : nat) (s : string) :
  String.length (String.substring 0 n s) <= n.
Proof.
  revert s. induction n as [|n IH]; intros s.
  - destruct s; cbn; lia.
  - destruct s as [|a s]; cbn; [lia |]. specialize (IH s). lia.
Qed.

(** X20: In each of the three scripts the preview of a string has 203
    characters at most. *)
Theorem previews_have_203_characters_at_most {S} (text : string) (s : S) :
  (exists p, crawlio_client.text_preview (JStr text) s = (Ret (JStr p), s)
             /\ String.length p <= 203)
  /\ (exists p, crawl_wiki.text_preview (JStr text) s = (Ret (JStr p), s)
                /\ String.length p <= 203)
  /\ (exists p, simple_crawler.text_preview (JStr text) s = (Ret (JStr p), s)
                /\ String.length p <= 203).
Proof.
  pose proof (length_substring_le 200 text) as Hcut.
  assert (Hmarked : String.length (String.substring 0 200 text ++ "...") <= 203)
    by (rewrite length_append; cbn; lia).
  unfold crawlio_client.text_preview, crawl_wiki.text_preview, bind, py_len, ret.
  cbv beta iota.
  split; [| split].
  - destruct (Nat.ltb 200 (String.length text)) eqn:E.
    + eexists. split; [reflexivity | exact Hmarked].
    + apply Nat.ltb_ge in E. eexists. split; [reflexivity | lia].
  - destruct (Nat.ltb 200 (String.length text)) eqn:E.
    + eexists. split; [reflexivity | exact Hmarked].
    + apply Nat.ltb_ge in E. eexists. split; [reflexivity | lia].
  - eexists. split; [reflexivity | exact Hmarked].
Qed.

(** X21: A text field that is a list: the conditional previews return a list of
    200 items or fewer as it is, and raise [TypeError] for a longer one,
    when the marker is added to the slice. *)
Theorem preview_of_a_list {S} (xs : list json) (s : S) :
  (List.length xs <= 200 ->
   crawlio_client.text_preview (JArr xs) s = (Ret (JArr xs), s)
   /\ crawl_wiki.text_preview (JArr xs) s = (Ret (JArr xs), s))
  /\ (200 < List.length xs ->
      exists msg,
        crawlio_client.text_preview (JArr xs) s = (Raise (TypeError msg), s)
        /\ crawl_wiki.text_preview (JArr xs) s = (Raise (TypeError msg), s)).
Proof.
  unfold crawlio_client.text_preview, crawl_wiki.text_preview, bind, py_len, ret.
  cbv beta iota. split; intros H.
  - apply Nat.ltb_ge in H. rewrite H. split; reflexivity.
  - apply Nat.ltb_lt in H. rewrite H. eexists. split; reflexivity.
Qed.

(** ** Errors of the decoder that are not caught *)

(** X11: The [except] clauses of the three methods take [RequestException]
    only.  When [Response.json()] raises another error on a response of an
    accepted status (the [ValueError] of an integer too long to convert,
    the [RecursionError] of a body nested too deep), that error leaves the
    method: after the request, with no further line printed and with the
    client and its key as they were. *)
Theorem decoding_errors_leave_the_methods (net : Transport)
  (c : CrawlioClient) (l : log) (url : string) (options : json)
  (email password first_name last_name : string) (r : Response) (e : exn) :
  resp_ok r = true ->
  decode_error (resp_json r) = Some e ->
  (net (requests_of l) (register_request c email password first_name last_name)
   = Responded r ->
   register_user net email password first_name last_name (mkState c l)
   = (Raise e,
      mkState c
        (Send (Some (session c))
           (register_request c email password first_name last_name)
         :: Print [Lit "Registering user: "; Lit email] :: l)))
  /\ (truthy (api_key c) = true ->
      net (requests_of l) (crawl_request c url options) = Responded r ->
      crawl_url net url options (mkState c l)
      = (Raise e,
         mkState c
           (Send (Some (session c)) (crawl_request c url options)
            :: Print [Lit "Crawling: "; Lit url] :: l)))
  /\ (truthy (api_key c) = true ->
      net (requests_of l) (history_request c) = Responded r ->
      get_crawl_history net (mkState c l)
      = (Raise e,
         mkState c
           (Send (Some (session c)) (history_request c)
            :: Print [Lit "Fetching crawl history..."] :: l)))
  /\ is_request_error e = false.
Proof.
  intros Hok Hjson. split; [| split; [| split]].
  - intros Hnet.
    exact (register_user_decode_error net c l email password first_name
             last_name r e Hnet Hok Hjson).
  - intros Hkey Hnet.
    exact (crawl_url_decode_error net c l url options r e Hkey Hnet Hok Hjson).
  - intros Hkey Hnet.
    exact (get_crawl_history_decode_error net c l r e Hkey Hnet Hok Hjson).
  - destruct (resp_json r); cbn in Hjson; try discriminate Hjson;
      injection Hjson as <-; reflexivity.
Qed.

Lemma decoding_errors_leave_the_methods_witness :
  let c := demo_client (JStr "k-123") in
  crawl_url (respond 200 (RaisesRecursionError "maximum recursion depth exceeded"))
    "https://www.wikipedia.org/" crawl_options (mkState c [])
  = (Raise (RecursionError "maximum recursion depth exceeded"),
     mkState c
       [Send (Some (SessionHandle 0))
          (crawl_request c "https://www.wikipedia.org/" crawl_options);
        Print [Lit "Crawling: "; Lit "https://www.wikipedia.org/"]]).
Proof.
  cbv zeta.
  exact (proj1 (proj2
           (decoding_errors_leave_the_methods
              (respond 200 (RaisesRecursionError "maximum recursion depth exceeded"))
              (demo_client (JStr "k-123")) []
              "https://www.wikipedia.org/" crawl_options
              "a@example.com" "pw" "A" "B"
              (mkResponse 200 "-" "http://localhost:3002/api/crawl/url" "-"
                 (RaisesRecursionError "maximum recursion depth exceeded"))
              (RecursionError "maximum recursion depth exceeded")
              eq_refl eq_refl))
           eq_refl eq_refl).
Defined.
